(** * mtecresults_scraper: the scraper and its cleaning stage

    The development follows [src/scraping/mtecresults_scraper.py]:
    - [PyStr]     the Python string primitives the module relies on
                  ([str.strip], [str.split], [int], [datetime.strptime]);
    - [Soup]      the part of the bs4 document tree that the extractors query;
    - [Extract]   [extract_splits] and [extract_personal];
    - [Scrape]    [scrape_race_data]: session resumption, the pool of runner
                  IDs, the main loop with its flushes, the closing summary;
    - [Clean]     [clean_race_data] and its inner [convert_split_info];
    - [Script]    the block that runs when the module is called as a script.

    Then come the words the properties are stated in ([PyStrSpec],
    [PoolSpec], [Trace], [TextSpec], [SchemaSpec], [RunSpec], [CleanSpec],
    [CellSpec], [WarningSpec], [OutputSpec]),
    sample inputs ([Samples], [MoreSamples]), and the properties.

    Text is held as its UTF-8 bytes and read code point by code point, so
    that [int], [strptime] and [str.strip] meet the digits and blanks of
    Unicode as they do in Python.  Exceptions are values of [exn].
    What a function prints, requests and writes is the list of its events,
    in the order they happen; the server is a function from the number of
    the request and the runner ID to its answer. *)

From Stdlib Require Import ZArith Lia Bool Ascii String List.
From stdpp Require Import gmap strings list sorting pretty.
Import ListNotations.

#[local] Open Scope string_scope.
#[local] Open Scope list_scope.
#[local] Open Scope Z_scope.

(** ** Exceptions and results *)

Inductive exn : Type :=
| ValueError
| KeyError
| TypeError
| IndexError
| AttributeError
| StopIteration
| ZeroDivisionError
| NameError (name : string)
| RequestException (detail : string)
| FatalException (cause : exn)
| CastError.            (* what a refused [astype] raises, see [Clean.cast] *)

Inductive result (A : Type) : Type :=
| Ok (a : A)
| Raise (e : exn).
Arguments Ok {A} a.
Arguments Raise {A} e.

(** ** Python string primitives *)

Module PyStr.

(** *** Characters

    A text is held as its UTF-8 bytes.  [head_point] reads its first
    character: the code point and the text after it.  A byte that begins no
    well-formed sequence is read as a character of its own, numbered beyond
    the last code point: it is no digit, no blank and no ASCII character. *)

Definition byte (c : ascii) : N := N_of_ascii c.

Definition stray : N := 1114112.

(** The payload of a continuation byte [10xxxxxx]. *)
Definition continuation (c : ascii) : option N :=
  if ((128 <=? byte c) && (byte c <? 192))%N then Some (byte c - 128)%N
  else None.

Definition head_point (s : string) : option (N * string) :=
  match s with
  | EmptyString => None
  | String a r =>
      let b := byte a in
      let lone := Some (stray + b, r)%N in
      if (b <? 128)%N then Some (b, r)
      else if (b <? 194)%N then lone
      else
        match r with
        | EmptyString => lone
        | String a1 r1 =>
            match continuation a1 with
            | None => lone
            | Some c1 =>
                if (b <? 224)%N then Some (64 * (b - 192) + c1, r1)%N
                else
                  match r1 with
                  | EmptyString => lone
                  | String a2 r2 =>
                      match continuation a2 with
                      | None => lone
                      | Some c2 =>
                          if (b <? 240)%N then
                            let c := (4096 * (b - 224) + 64 * c1 + c2)%N in
                            if ((2048 <=? c)
                                && negb ((55296 <=? c) && (c <=? 57343)))%N
                            then Some (c, r2) else lone
                          else
                            match r2 with
                            | EmptyString => lone
                            | String a3 r3 =>
                                match continuation a3 with
                                | None => lone
                                | Some c3 =>
                                    let c := (262144 * (b - 240) + 4096 * c1
                                              + 64 * c2 + c3)%N in
                                    if ((65536 <=? c) && (c <? stray))%N
                                    then Some (c, r3) else lone
                                end
                            end
                      end
                  end
            end
        end
  end.

(** The characters of a text, as code points.  A character takes at least
    one byte, so the length of the text is fuel enough. *)
Fixpoint points_upto (n : nat) (s : string) : list N :=
  match n with
  | O => []
  | S n' =>
      match head_point s with
      | None => []
      | Some (c, r) => c :: points_upto n' r
      end
  end.

Definition points (s : string) : list N := points_upto (String.length s) s.

(** [Py_ISSPACE]: the ASCII blanks that [int] skips. *)
Definition is_c_space (c : N) : bool :=
  (((9 <=? c) && (c <=? 13)) || (c =? 32))%N.

(** [Py_UNICODE_ISSPACE]: what [str.isspace] holds of and [str.strip()]
    removes. *)
Definition is_space (c : N) : bool :=
  (((9 <=? c) && (c <=? 13)) || ((28 <=? c) && (c <=? 32))
   || (c =? 133) || (c =? 160) || (c =? 5760)
   || ((8192 <=? c) && (c <=? 8202)) || (c =? 8232) || (c =? 8233)
   || (c =? 8239) || (c =? 8287) || (c =? 12288))%N.

(** The blanks around a number: [int] turns the blanks beyond ASCII into
    spaces before it reads the text, and leaves the ASCII characters as
    they are. *)
Definition is_int_space (c : N) : bool :=
  is_c_space c || ((127 <=? c)%N && is_space c).

(** The zeros of the decimal digits (category Nd) of the Unicode database,
    version 14.0 as in CPython 3.11; the digits one to nine follow their
    zero. *)
Definition decimal_zeros : list N :=
  [48; 1632; 1776; 1984; 2406; 2534; 2662; 2790;
   2918; 3046; 3174; 3302; 3430; 3558; 3664; 3792;
   3872; 4160; 4240; 6112; 6160; 6470; 6608; 6784;
   6800; 6992; 7088; 7232; 7248; 42528; 43216; 43264;
   43472; 43504; 43600; 44016; 65296; 66720; 68912; 69734;
   69872; 69942; 70096; 70384; 70736; 70864; 71248; 71360;
   71472; 71904; 72016; 72784; 73040; 73120; 92768; 92864;
   93008; 120782; 120792; 120802; 120812; 120822; 123200; 123632;
   125264; 130032]%N.

(** [Py_UNICODE_TODECIMAL] *)
Definition digit_value (c : N) : option Z :=
  match List.find (fun z => (z <=? c) && (c <? z + 10))%N decimal_zeros with
  | Some z => Some (Z.of_N (c - z))
  | None => None
  end.

Definition is_digit (c : N) : bool :=
  match digit_value c with Some _ => true | None => false end.

(** *** [s.strip()], [s.split(sep)], [sep in s] *)

Fixpoint rev_onto (s acc : string) : string :=
  match s with
  | String c r => rev_onto r (String c acc)
  | EmptyString => acc
  end.

Definition rev (s : string) : string := rev_onto s EmptyString.

(** The text without the blank it begins with, if it begins with one. *)
Definition drop_blank (s : string) : option string :=
  match head_point s with
  | Some (c, r) => if is_space c then Some r else None
  | None => None
  end.

(** The bytes of one blank. *)
Definition blank_bytes (w : string) : bool :=
  match head_point w with
  | Some (c, EmptyString) => is_space c
  | _ => false
  end.

(** The same for a text given backwards: the text without the blank it
    ends with.  (A blank takes at most three bytes.) *)
Definition drop_blank_back (s : string) : option string :=
  match s with
  | EmptyString => None
  | String a r1 =>
      if blank_bytes (String a EmptyString) then Some r1
      else
        match r1 with
        | EmptyString => None
        | String b r2 =>
            if blank_bytes (String b (String a EmptyString)) then Some r2
            else
              match r2 with
              | EmptyString => None
              | String c r3 =>
                  if blank_bytes (String c (String b (String a EmptyString)))
                  then Some r3 else None
              end
        end
  end.

(** [step] as long as it applies; it is applied at most [n] times. *)
Fixpoint drop_while (step : string -> option string) (n : nat) (s : string)
  : string :=
  match n with
  | O => s
  | S n' =>
      match step s with
      | Some r => drop_while step n' r
      | None => s
      end
  end.

Definition lstrip (s : string) : string :=
  drop_while drop_blank (String.length s) s.

Definition rstrip (s : string) : string :=
  rev (drop_while drop_blank_back (String.length s) (rev s)).

(** [s.strip()] *)
Definition strip (s : string) : string := rstrip (lstrip s).

(** [s.split(sep)[0]]: the text before the first occurrence of [sep], an
    ASCII character. *)
Fixpoint split_head (sep : ascii) (s : string) : string :=
  match s with
  | String c r =>
      if Ascii.eqb c sep then EmptyString else String c (split_head sep r)
  | EmptyString => EmptyString
  end.

(** [s.split(sep)[-1]]: the text after the last occurrence of [sep]. *)
Fixpoint split_last (sep : ascii) (s : string) : string :=
  match s with
  | String c r =>
      if existsb (Ascii.eqb sep) (list_ascii_of_string r) then split_last sep r
      else if Ascii.eqb c sep then r else s
  | EmptyString => EmptyString
  end.

(** [sep in s] *)
Definition contains (sep : ascii) (s : string) : bool :=
  existsb (Ascii.eqb sep) (list_ascii_of_string s).

(** *** [int(s)]

    Base ten: blanks, an optional sign, decimal digits of any script with
    single underscores between them, blanks.  [sys.int_max_str_digits] is
    at its default. *)

Definition int_max_str_digits : nat := 4300.

Fixpoint skip (p : N -> bool) (l : list N) : list N :=
  match l with
  | c :: r => if p c then skip p r else l
  | [] => []
  end.

(** The digit scan of [PyLong_FromString]: [prev_us] tells whether the
    previous character was an underscore, [acc] is the value read so far and
    [n] the number of digits. *)
Fixpoint scan_digits (prev_us : bool) (acc : Z) (n : nat) (l : list N)
  : option (Z * nat * list N) :=
  match l with
  | c :: r =>
      match digit_value c with
      | Some d => scan_digits false (10 * acc + d) (S n) r
      | None =>
          if (c =? 95)%N                                        (* _ *)
          then if prev_us then None else scan_digits true acc n r
          else if prev_us then None else Some (acc, n, l)
      end
  | [] => if prev_us then None else Some (acc, n, l)
  end.

Definition int_sign (l : list N) : bool * list N :=
  match l with
  | c :: r =>
      if (c =? 43)%N then (false, r)                            (* + *)
      else if (c =? 45)%N then (true, r)                        (* - *)
      else (false, l)
  | [] => (false, l)
  end.

Definition starts_with_underscore (l : list N) : bool :=
  match l with c :: _ => (c =? 95)%N | [] => false end.

Definition int_points (l : list N) : option Z :=
  let '(neg, body) := int_sign (skip is_int_space l) in
  if starts_with_underscore body then None
  else match scan_digits false 0 0 body with
       | None => None
       | Some (v, n, rest) =>
           if (n =? 0)%nat then None
           else if (int_max_str_digits <? n)%nat then None
           else match skip is_int_space rest with
                | [] => Some (if neg then - v else v)
                | _ :: _ => None
                end
       end.

Definition int (s : string) : option Z := int_points (points s).

(** *** [datetime.strptime(s, fmt).time()]

    [_strptime] turns the format into a regular expression, matches it at
    the start of the text, refuses text left over after the match, and
    hands the fields to the [datetime] constructor.  A directive is
    modelled by the list of its matches at the head of the text, in the
    order the alternatives of its expression are tried; sequencing is the
    list monad, whose first element is the match [re.match] finds.  A class
    such as [[0-5]] holds ASCII digits only, [\d] the decimal digits of
    every script; [int] then reads the field. *)

Definition directive := list N -> list (Z * list N).

(** The characters from [lo] to [hi]. *)
Definition class (lo hi : N) (c : N) : bool := ((lo <=? c) && (c <=? hi))%N.

Definition two_digits (tens ones : N -> bool) : directive := fun l =>
  match l with
  | a :: b :: r =>
      if tens a && ones b then
        match digit_value a, digit_value b with
        | Some x, Some y => [(10 * x + y, r)]
        | _, _ => []
        end
      else []
  | _ => []
  end.

Definition one_digit : directive := fun l =>
  match l with
  | a :: r =>
      match digit_value a with Some x => [(x, r)] | None => [] end
  | [] => []
  end.

(** [%H]: [2[0-3]|[0-1]\d|\d] *)
Definition re_H : directive := fun l =>
  two_digits (class 50 50) (class 48 51) l
  ++ two_digits (class 48 49) is_digit l
  ++ one_digit l.

(** [%M]: [[0-5]\d|\d] *)
Definition re_M : directive := fun l =>
  two_digits (class 48 53) is_digit l ++ one_digit l.

(** [%S]: [6[0-1]|[0-5]\d|\d] *)
Definition re_S : directive := fun l =>
  two_digits (class 54 54) (class 48 49) l
  ++ two_digits (class 48 53) is_digit l
  ++ one_digit l.

Definition re_colon (l : list N) : list (list N) :=
  match l with
  | c :: r => if (c =? 58)%N then [r] else []
  | [] => []
  end.

(** The matches of [%H:%M:%S] and of [%M:%S] at the head of a text. *)
Definition re_HMS (l : list N) : list (Z * Z * Z * list N) :=
  '(h, r1) ← re_H l; r2 ← re_colon r1;
  '(m, r3) ← re_M r2; r4 ← re_colon r3;
  '(sec, r5) ← re_S r4; [(h, m, sec, r5)].

Definition re_MS (l : list N) : list (Z * Z * list N) :=
  '(m, r1) ← re_M l; r2 ← re_colon r1;
  '(sec, r3) ← re_S r2; [(m, sec, r3)].

Record time := { hour : Z; minute : Z; second : Z }.

(** The [datetime] constructor refuses the leap seconds 60 and 61 that the
    expression of [%S] lets through. *)
Definition make_time (h m sec : Z) : result time :=
  if (0 <=? h) && (h <=? 23) && (0 <=? m) && (m <=? 59)
     && (0 <=? sec) && (sec <=? 59)
  then Ok {| hour := h; minute := m; second := sec |}
  else Raise ValueError.

Definition strptime_HMS (s : string) : result time :=
  match re_HMS (points s) with
  | [] => Raise ValueError                       (* does not match format *)
  | (h, m, sec, rest) :: _ =>
      match rest with
      | [] => make_time h m sec
      | _ :: _ => Raise ValueError               (* unconverted data remains *)
      end
  end.

Definition strptime_MS (s : string) : result time :=
  match re_MS (points s) with
  | [] => Raise ValueError
  | (m, sec, rest) :: _ =>
      match rest with
      | [] => make_time 0 m sec
      | _ :: _ => Raise ValueError
      end
  end.

End PyStr.

(** ** The bs4 document tree *)

Module Soup.

(** A parsed document: tags with their [class] attribute (already split at
    blanks, as bs4 keeps it) and their contents, and text nodes. *)
#[warnings="-register-all"]
Inductive node : Type :=
| Tag (name : string) (class_ : list string) (contents : list node)
| NavigableString (text : string).

(** [tag.descendants]: the nodes below [n], in document order. *)
Fixpoint descendants (n : node) : list node :=
  match n with
  | Tag _ _ cs => flat_map (fun c => c :: descendants c) cs
  | NavigableString _ => []
  end.

Fixpoint join (sep : string) (l : list string) : string :=
  match l with
  | [] => EmptyString
  | [x] => x
  | x :: r => x +:+ sep +:+ join sep r
  end.

(** A [class_] filter matches one of the classes of the tag, or the whole
    attribute. *)
Definition class_matches (wanted : string) (classes : list string) : bool :=
  existsb (String.eqb wanted) classes || String.eqb (join " " classes) wanted.

Definition tag_matches (name : string) (class_ : option string) (n : node)
  : bool :=
  match n with
  | Tag nm cls _ =>
      String.eqb nm name
      && match class_ with
         | Some wanted => class_matches wanted cls
         | None => true
         end
  | NavigableString _ => false
  end.

(** [tag.find_all(name, class_=...)] and [tag.find(name, class_=...)] *)
Definition find_all (name : string) (class_ : option string) (n : node)
  : list node :=
  List.filter (tag_matches name class_) (descendants n).

Definition find (name : string) (class_ : option string) (n : node)
  : option node :=
  head (find_all name class_ n).

Definition node_text (n : node) : list string :=
  match n with
  | NavigableString t => [t]
  | Tag _ _ _ => []
  end.

Definition nonempty (s : string) : bool :=
  match s with EmptyString => false | String _ _ => true end.

(** [tag.get_text(strip=True)]: the stripped text nodes below the tag that
    are not empty, glued together. *)
Definition get_text (n : node) : string :=
  join EmptyString (List.filter nonempty
             (map PyStr.strip (flat_map node_text (descendants n)))).

End Soup.

Import Soup.

(** ** Configuration, printed messages and effects *)

(** A YAML mapping as loaded: its items in order, keys distinct. *)
Abbreviation dict := (list (string * string)).

Fixpoint dict_get (d : dict) (k : string) : option string :=
  match d with
  | [] => None
  | (k', v) :: r => if String.eqb k k' then Some v else dict_get r k
  end.

Definition dict_values (d : dict) : list string := map snd d.

(** A value of an entry or of a cell: a whole number or text. *)
Inductive value : Type :=
| VInt (z : Z)
| VStr (s : string).

(** [config_params], as far as the module reads it. *)
Record config : Type := {
  column_mapping : dict;                    (* ['column_mapping'] *)
  splits_start : dict;                      (* ['splits']['start'] *)
  splits_distance : list string;            (* ['splits']['distance'] *)
  personal : list string;                   (* ['personal'] *)
  scraping_runner_id : string;              (* ['scraping']['runner_id'] *)
  scraping_batch_size : Z;                  (* ['scraping']['batch_size'] *)
  scraping_runner_ids_pool : list (Z * Z);  (* ['scraping']['runner_ids_pool'] *)
  cleaning_personal : list string;          (* ['cleaning']['personal'] *)
  cleaning_split_info : list string;        (* ['cleaning']['split_info'] *)
  cleaning_filter_by : list (list (string * value))
                                            (* ['cleaning']['filter_by'] *)
}.

(** One line of the CSV file: the cells under the header, empty where the
    entry has no such field. *)
Abbreviation csv_row := (list (option value)).

(** What the module prints. *)
Inductive message : Type :=
| WarnNoSplits (runner_id : Z)
| WarnUnknownField (col : string) (runner_id : Z)
| WarnUnknownSplitLabel (split_name : string) (runner_id : Z)
| WarnNoPersonal (runner_id : Z)
| WarnPersonalFormat (runner_id : Z) (e : exn)
| MsgResuming (runner_id_init : Z)
| MsgSessionIncomplete
| MsgNewSession (runner_id_init : Z)
| MsgTotal (total : Z)
| MsgLastProcessed (runner_id saved : Z)
| MsgErrorGetting (runner_id : Z) (detail : string)
| MsgCompleted (processed saved : Z)
| WarnMissingPersonal (runner_ids : list (nat * option value)).

(** What a server answers to one request. *)
Inductive response : Type :=
| Response (status_code : Z) (html_data : node)
| RequestFailed (detail : string).

(** The observable steps of a run, in the order they happen. *)
Inductive event : Type :=
| Print (m : message)
| WriteCsv (header : list string)      (* to_csv(mode='w', header=True) *)
| AppendCsv (rows : list csv_row)      (* to_csv(mode='a', header=False) *)
| WriteSession (runner_id : Z)         (* SESSION_FILE rewritten *)
| Get (runner_id : Z) (r : response)   (* one call of session.get(...) *)
| Sleep.

(** A computation prints and touches files, then returns or raises. *)
Definition eff (A : Type) : Type := (list event * result A)%type.

Definition ret {A} (a : A) : eff A := ([], Ok a).
Definition raise {A} (e : exn) : eff A := ([], Raise e).
Definition emit (ev : event) : eff unit := ([ev], Ok tt).
Definition print (m : message) : eff unit := emit (Print m).

Definition emit_all (evs : list event) : eff unit := (evs, Ok tt).

Definition bind {A B} (m : eff A) (k : A -> eff B) : eff B :=
  match m with
  | (evs, Ok a) => let '(evs', r) := k a in (evs ++ evs', r)
  | (evs, Raise e) => (evs, Raise e)
  end.

Arguments bind {A B} m k : simpl never.

Notation "'do' x <- m ; k" := (bind m (fun x => k))
  (at level 10, x name, m at level 100, k at level 200).
Notation "m ;; k" := (bind m (fun _ => k))
  (at level 100, k at level 200, right associativity).

Definition lift {A} (r : result A) : eff A := ([], r).

Definition events {A} (m : eff A) : list event := fst m.
Definition outcome {A} (m : eff A) : result A := snd m.

(** ** The extractors *)

Module Extract.

(** [SPLITS_ORDER = {split: i for i, split in enumerate(SPLITS_DISTANCE, start=1)}] *)
Fixpoint splits_order_from (i : nat) (labels : list string)
  (acc : gmap string nat) : gmap string nat :=
  match labels with
  | [] => acc
  | split :: r => splits_order_from (S i) r (<[split := i]> acc)
  end.

Definition SPLITS_ORDER (config_params : config) : gmap string nat :=
  splits_order_from 1 (splits_distance config_params) ∅.

(** [f'split_{i}_' + col_name] *)
Definition split_field (i : nat) (col_name : string) : string :=
  "split_" +:+ pretty i +:+ "_" +:+ col_name.

(** The inner loop of [extract_splits] over [zip(headers, row.find_all('td'))]. *)
Fixpoint split_cells (config_params : config) (runner_id : Z) (i : nat)
  (cells : list (string * node)) (res : gmap string string)
  : eff (gmap string string) :=
  match cells with
  | [] => ret res
  | (col, value) :: r =>
      match dict_get (column_mapping config_params) col with
      | Some field =>
          split_cells config_params runner_id i r
            (<[split_field i field := get_text value]> res)
      | None =>
          print (WarnUnknownField col runner_id) ;;
          split_cells config_params runner_id i r res
      end
  end.

(** The outer loop of [extract_splits] over the rows after the header. *)
Fixpoint split_rows (config_params : config) (runner_id : Z)
  (headers : list string) (rows : list node) (res : gmap string string)
  : eff (gmap string string) :=
  match rows with
  | [] => ret res
  | row :: r =>
      match find "th" None row with
      | None => raise AttributeError          (* row.find('th') is None *)
      | Some label =>
          let split_name := get_text label in
          match SPLITS_ORDER config_params !! split_name with
          | Some i =>
              do res' <- split_cells config_params runner_id i
                           (zip headers (find_all "td" None row)) res;
              split_rows config_params runner_id headers r res'
          | None =>
              match dict_get (splits_start config_params) split_name with
              | Some field =>
                  match find "td" None row with
                  | None => raise AttributeError  (* row.find('td') is None *)
                  | Some cell =>
                      split_rows config_params runner_id headers r
                        (<[field := get_text cell]> res)
                  end
              | None =>
                  print (WarnUnknownSplitLabel split_name runner_id) ;;
                  split_rows config_params runner_id headers r res
              end
          end
      end
  end.

Definition extract_splits (html_data : node) (runner_id : Z)
  (config_params : config) : eff (gmap string string) :=
  match find "div" (Some "detailedresultsseg") html_data with
  | None => print (WarnNoSplits runner_id) ;; ret ∅
  | Some splits_table =>
      match find_all "tr" None splits_table with
      | [] => raise StopIteration             (* next(rows) *)
      | first :: rows =>
          match map get_text (find_all "th" None first) with
          | [] => raise IndexError            (* headers.pop(0) *)
          | _ :: headers =>
              split_rows config_params runner_id headers rows ∅
          end
      end
  end.

(** [extract_personal]: whatever goes wrong inside its [try] ends in the
    warning and the empty dictionary, so the function cannot raise. *)
Definition extract_personal (html_data : node) (runner_id : Z)
  : list event * gmap string string :=
  match find "div" (Some "me-auto mb-3 mb-md-0") html_data with
  | None => ([Print (WarnNoPersonal runner_id)], ∅)
  | Some personal =>
      match map get_text (find_all "strong" (Some "text-primary") personal) with
      | [event; _; sex; age; residence] =>
          ([], <["residence" := residence]>
                 (<["age" := age]>
                    (<["sex" := sex]> (<["event" := event]> ∅))))
      | _ => ([Print (WarnPersonalFormat runner_id ValueError)], ∅)
      end
  end.

End Extract.

(** ** The scraping session *)

Module Scrape.

(** The output file as [pd.read_csv] sees it, and the session file. *)
Inductive csv_file : Type :=
| Unreadable
| Csv (header : list string) (rows : list csv_row).

Record files : Type := {
  output_file : option csv_file;            (* OUTPUT_FILE, if it exists *)
  session_file : option string              (* SESSION_FILE, if it exists *)
}.

(** A data frame read from, or bound for, the output file. *)
Record frame : Type := { columns : list string; body : list csv_row }.

(** [df.empty] *)
Definition frame_empty (df : frame) : bool :=
  match columns df, body df with
  | [], _ | _, [] => true
  | _, _ => false
  end.

Definition read_csv (f : csv_file) : result frame :=
  match f with
  | Unreadable => Raise ValueError
  | Csv header rows => Ok {| columns := header; body := rows |}
  end.

(** The effect of one event on the two files. *)
Definition apply_event (fs : files) (ev : event) : files :=
  match ev with
  | WriteCsv header =>
      {| output_file := Some (Csv header []); session_file := session_file fs |}
  | AppendCsv rows =>
      {| output_file :=
           match output_file fs with
           | Some (Csv header old) => Some (Csv header (old ++ rows))
           | Some Unreadable => Some Unreadable
           | None => Some (Csv [] rows)
           end;
         session_file := session_file fs |}
  | WriteSession runner_id =>
      {| output_file := output_file fs; session_file := Some (pretty runner_id) |}
  | Print _ | Get _ _ | Sleep => fs
  end.

Definition replay (fs : files) (evs : list event) : files :=
  foldl apply_event fs evs.

(** The column names of a new session (lines 132-137). *)
Definition new_column_names (config_params : config) : list string :=
  [scraping_runner_id config_params] ++ personal config_params
  ++ flat_map (fun i => map (Extract.split_field i)
                          (dict_values (column_mapping config_params)))
       (seq 1 (length (splits_distance config_params)))
  ++ dict_values (splits_start config_params).

(** The attempt to resume (lines 117-129).  Any exception inside the [try]
    is raised again as a bare [Exception]. *)
Inductive resumption : Type :=
| Resumed (column_names : list string) (df : frame) (runner_id_init : Z)
| NotResumed.

Definition try_resume (fs : files) : eff resumption :=
  match output_file fs with
  | None => ret NotResumed
  | Some f =>
      match read_csv f with
      | Raise e => raise (FatalException e)
      | Ok df =>
          match negb (frame_empty df), session_file fs with
          | true, Some text =>
              match PyStr.int text with
              | None => raise (FatalException ValueError)
              | Some last =>
                  let runner_id_init := last + 1 in
                  print (MsgResuming runner_id_init) ;;
                  ret (Resumed (columns df) df runner_id_init)
              end
          | _, _ => print MsgSessionIncomplete ;; ret NotResumed
          end
      end
  end.

(** Session start-up (lines 117-145): resume, or, [if not column_names],
    start a new session. *)
Definition start_session (config_params : config) (fs : files)
  : eff (list string * frame * Z) :=
  do resumed <- try_resume fs;
  match resumed with
  | Resumed (c :: cs) df runner_id_init => ret (c :: cs, df, runner_id_init)
  | _ =>
      let column_names := new_column_names config_params in
      let df := {| columns := column_names; body := [] |} in
      emit (WriteCsv column_names) ;;
      match scraping_runner_ids_pool config_params with
      | [] => raise IndexError              (* RUNNER_IDS_POOL[0] *)
      | (left_, _) :: _ =>
          print (MsgNewSession left_) ;;
          ret (column_names, df, left_)
      end
  end.

(** [range(start, stop)] *)
Definition range (start stop : Z) : list Z := seqZ start (stop - start).

(** The ranges to go through and their announced size (lines 148-154). *)
Fixpoint id_ranges (runner_id_init : Z) (pool : list (Z * Z))
  (runner_id_ranges : list (list Z)) (total : Z) : list (list Z) * Z :=
  match pool with
  | [] => (runner_id_ranges, total)
  | (left_, right_) :: r =>
      if runner_id_init <=? right_ then
        let new_left := Z.max runner_id_init left_ in
        id_ranges runner_id_init r
          (runner_id_ranges ++ [range new_left (right_ + 1)])
          (total + (right_ - Z.max new_left left_ + 1))
      else id_ranges runner_id_init r runner_id_ranges total
  end.

(** [itertools.chain.from_iterable(runner_id_ranges)] *)
Definition runner_ids (runner_id_init : Z) (pool : list (Z * Z)) : list Z :=
  concat (fst (id_ranges runner_id_init pool [] 0)).

Definition total_ids (runner_id_init : Z) (pool : list (Z * Z)) : Z :=
  snd (id_ranges runner_id_init pool [] 0).

(** An entry of the batch: a dictionary from field names to values. *)
Abbreviation entry := (gmap string value).

(** [entry = {'runner_id': runner_id}; entry.update(personal); entry.update(splits)] *)
Definition make_entry (runner_id : Z) (personal splits : gmap string string)
  : entry :=
  (VStr <$> splits) ∪ ((VStr <$> personal) ∪ {[ "runner_id" := VInt runner_id ]}).

(** [pd.DataFrame(entries_batch).reindex(columns=column_names)], row by row. *)
Definition reindex (column_names : list string) (e : entry) : csv_row :=
  map (fun c => e !! c) column_names.

(** [a % b] *)
Definition py_mod (a b : Z) : eff Z :=
  if b =? 0 then raise ZeroDivisionError else ret (a mod b).

(** The variables the main loop updates. *)
Record loop_state : Type := {
  entries_batch : list entry;
  saved : Z
}.

Definition len {A} (l : list A) : Z := Z.of_nat (length l).

(** Lines 177-184: parse the page and add its entry to the batch. *)
Definition fetch_entry (config_params : config) (runner_id : Z)
  (html_data : node) : eff entry :=
  let '(warnings, personal) := Extract.extract_personal html_data runner_id in
  emit_all warnings ;;
  do splits <- Extract.extract_splits html_data runner_id config_params;
  ret (make_entry runner_id personal splits).

(** Lines 187-200: save the batch when it is full or the ID is a multiple of
    twice the batch size. *)
Definition flush_due (config_params : config) (runner_id : Z)
  (batch : list entry) : eff bool :=
  let BATCH_SIZE := scraping_batch_size config_params in
  if BATCH_SIZE <=? len batch then ret true
  else do m <- py_mod runner_id (BATCH_SIZE * 2); ret (m =? 0).

Definition flush (config_params : config) (column_names : list string)
  (runner_id : Z) (st : loop_state) : eff loop_state :=
  let BATCH_SIZE := scraping_batch_size config_params in
  emit (AppendCsv (map (reindex column_names) (entries_batch st))) ;;
  let saved' := saved st + len (entries_batch st) in
  do m <- py_mod runner_id (BATCH_SIZE * 2);
  (if m =? 0 then print (MsgLastProcessed runner_id saved') else ret tt) ;;
  emit (WriteSession runner_id) ;;
  ret {| entries_batch := []; saved := saved' |}.

(** One turn of the main loop (lines 174-206) for the answer [r] of the
    server.  Only a [RequestException] is caught. *)
Definition loop_body (config_params : config) (column_names : list string)
  (r : response) (runner_id : Z) (st : loop_state) : eff loop_state :=
  emit (Get runner_id r) ;;
  do st' <-
    match r with
    | RequestFailed detail =>
        print (MsgErrorGetting runner_id detail) ;; ret st
    | Response status_code html_data =>
        do batch <-
          (if status_code =? 200
           then do e <- fetch_entry config_params runner_id html_data;
                ret (entries_batch st ++ [e])
           else ret (entries_batch st));
        let st1 := {| entries_batch := batch; saved := saved st |} in
        do due <- flush_due config_params runner_id batch;
        if due then flush config_params column_names runner_id st1
        else ret st1
    end;
  emit Sleep ;;
  ret st'.

(** The main loop; [server n runner_id] is the answer to the request for
    [runner_id] when it is the [n]-th request of the run. *)
Fixpoint main_loop (config_params : config) (column_names : list string)
  (server : nat -> Z -> response) (n : nat) (ids : list Z) (st : loop_state)
  : eff loop_state :=
  match ids with
  | [] => ret st
  | runner_id :: r =>
      do st' <- loop_body config_params column_names (server n runner_id)
                  runner_id st;
      main_loop config_params column_names server (S n) r st'
  end.

(** Lines 209-215: the final batch, written under the last ID of the loop. *)
Definition final_flush (column_names : list string) (ids : list Z)
  (st : loop_state) : eff loop_state :=
  match entries_batch st with
  | [] => ret st
  | _ :: _ =>
      emit (AppendCsv (map (reindex column_names) (entries_batch st))) ;;
      let saved' := saved st + len (entries_batch st) in
      match last ids with
      | None => raise (NameError "runner_id")
      | Some runner_id =>
          emit (WriteSession runner_id) ;;
          ret {| entries_batch := entries_batch st; saved := saved' |}
      end
  end.

(** The whole numbers bound in the function when line 217 is reached; its
    other names, and the names of the module, hold configuration, frames
    and library objects, and none of them is [processed]. *)
Definition summary_scope (config_params : config) (runner_id_init total : Z)
  (ids : list Z) (st : loop_state) : list (string * Z) :=
  [("BATCH_SIZE", scraping_batch_size config_params);
   ("runner_id_init", runner_id_init);
   ("total", total);
   ("saved", saved st)]
  ++ match last ids with
     | Some runner_id => [("runner_id", runner_id)]
     | None => []
     end.

Fixpoint load_name (scope : list (string * Z)) (name : string) : eff Z :=
  match scope with
  | [] => raise (NameError name)
  | (n, v) :: r => if String.eqb name n then ret v else load_name r name
  end.

(** Line 217: the f-string is evaluated, then printed. *)
Definition print_summary (scope : list (string * Z)) : eff unit :=
  do processed <- load_name scope "processed";
  do saved <- load_name scope "saved";
  print (MsgCompleted processed saved).

Definition scrape_race_data (config_params : config) (fs : files)
  (server : nat -> Z -> response) : eff frame :=
  do session <- start_session config_params fs;
  let '(column_names, df, runner_id_init) := session in
  let RUNNER_IDS_POOL := scraping_runner_ids_pool config_params in
  let total := total_ids runner_id_init RUNNER_IDS_POOL in
  print (MsgTotal total) ;;
  let ids := runner_ids runner_id_init RUNNER_IDS_POOL in
  do st <- main_loop config_params column_names server 0 ids
             {| entries_batch := []; saved := len (body df) |};
  do st' <- final_flush column_names ids st;
  print_summary (summary_scope config_params runner_id_init total ids st') ;;
  ret df.

End Scrape.

(** ** The cleaning stage *)

Module Clean.

(** [convert_split_info] (lines 270-289).  A missing cell stays missing; a
    cell that is not text has no [split] (the bare [except] swallows that)
    and makes [strptime] raise [TypeError], which nothing catches. *)
Definition convert_split_info (split_info : option value) : result (option Z) :=
  match split_info with
  | None => Ok None
  | Some (VInt _) => Raise TypeError
  | Some (VStr s) =>
      match PyStr.int (PyStr.split_head "/" s) with
      | Some place => Ok (Some place)
      | None =>
          match PyStr.strptime_HMS s with
          | Ok t => Ok (Some (3600 * PyStr.hour t + 60 * PyStr.minute t
                              + PyStr.second t))
          | Raise ValueError =>
              match PyStr.strptime_MS s with
              | Ok t => Ok (Some (60 * PyStr.minute t + PyStr.second t))
              | Raise ValueError => Ok None
              | Raise e => Raise e
              end
          | Raise e => Raise e
          end
      end
  end.

(** A data frame: its columns and its rows, each under its index label;
    a cell that a row does not have is NaN. *)
Abbreviation row := (gmap string value).

Record table (L : Type) : Type := {
  tcolumns : list string;
  trows : list (L * row)
}.
Arguments tcolumns {L} t.
Arguments trows {L} t.

(** [series == value], cell by cell: NaN equals nothing. *)
Definition value_eqb (a b : value) : bool :=
  match a, b with
  | VInt x, VInt y => x =? y
  | VStr x, VStr y => String.eqb x y
  | _, _ => false
  end.

Definition cell_equals (r : row) (key : string) (v : value) : bool :=
  match r !! key with
  | Some c => value_eqb c v
  | None => false
  end.

Definition has_column {L} (df : table L) (key : string) : bool :=
  existsb (String.eqb key) (tcolumns df).

(** Lines 236-241: the conjunction of the filters, row by row. *)
Fixpoint filter_mask {L} (raw_df : table L) (conds : list (string * value))
  (mask : list bool) : result (list bool) :=
  match conds with
  | [] => Ok mask
  | (key, v) :: r =>
      if has_column raw_df key
      then filter_mask raw_df r
             (zip_with andb mask
                (map (fun lr => cell_equals (snd lr) key v) (trows raw_df)))
      else Raise KeyError
  end.

(** [df[mask]] *)
Definition select {L} (df : table L) (mask : list bool) : table L :=
  {| tcolumns := tcolumns df;
     trows := map snd (List.filter fst (zip mask (trows df))) |}.

(** [df[cols].copy()]; a column that is not there is a [KeyError]. *)
Definition restrict (cols : list string) (r : row) : row :=
  filter (fun kv => existsb (String.eqb (fst kv)) cols) r.

Definition project {L} (df : table L) (cols : list string)
  : result (table L) :=
  if forallb (has_column df) cols
  then Ok {| tcolumns := cols;
             trows := map (fun lr => (fst lr, restrict cols (snd lr)))
                        (trows df) |}
  else Raise KeyError.

(** [df[cols].isnull().any(axis=1)] *)
Definition any_null {L} (cols : list string) (df : table L) : list bool :=
  map (fun lr => existsb (fun c => negb (bool_decide (is_Some (snd lr !! c))))
                   cols)
      (trows df).

(** [target[col] = series] (pandas' [_reindex_for_setitem]).  When the
    index of the series equals that of the target the values are taken as
    they stand, row by row; otherwise the series is reindexed on the
    target, which pandas refuses with [ValueError] when the labels of the
    series are not distinct, and a label the series lacks gets NaN.  The
    rows of the series are rows of the target, as everywhere in
    [clean_race_data]. *)
Definition reindexable (series_labels target_labels : list nat) : bool :=
  bool_decide (series_labels = target_labels)
  || bool_decide (NoDup series_labels).

Definition set_cell (col : string) (x : option value) (r : row) : row :=
  match x with
  | Some v => <[col := v]> r
  | None => delete col r
  end.

Definition assign_column (col : string) (series : list (nat * option value))
  (target : table nat) : table nat :=
  {| tcolumns :=
       if has_column target col then tcolumns target
       else tcolumns target ++ [col];
     trows :=
       if bool_decide (map fst series = map fst (trows target))
       then zip_with (fun lr e => (fst lr, set_cell col (snd e) (snd lr)))
              (trows target) series
       else map (fun lr =>
                   (fst lr,
                    set_cell col
                      (mjoin (snd <$> List.find
                                        (fun e => (fst e =? fst lr)%nat)
                                        series))
                      (snd lr)))
              (trows target) |}.

(** [df[col]] as a series. *)
Definition column {L} (df : table L) (col : string) : list (L * option value) :=
  map (fun lr => (fst lr, snd lr !! col)) (trows df).

(** Line 268: the text after the last comma, stripped. *)
Definition residence_state (x : option value) : result value :=
  match x with
  | Some (VStr t) =>
      Ok (VStr (if PyStr.contains "," t
                then PyStr.strip (PyStr.split_last "," t) else EmptyString))
  | _ => Raise TypeError                    (* [',' in x] on a number *)
  end.

Fixpoint map_series {L} (f : option value -> result value)
  (series : list (L * option value)) : result (list (L * option value)) :=
  match series with
  | [] => Ok []
  | (l, x) :: r =>
      match f x, map_series f r with
      | Ok v, Ok r' => Ok ((l, Some v) :: r')
      | Raise e, _ => Raise e
      | _, Raise e => Raise e
      end
  end.

(** Line 292.  [convert_split_info] is applied to every cell of the split
    columns; then the whole is cast to [Int32].  The cast refuses a number
    that does not fit 32 bits: by the type the column has taken, pandas
    raises a [TypeError] or an [OverflowError], for which [CastError]
    stands. *)
Definition converted (x : option value) : result (option value) :=
  match convert_split_info x with
  | Ok (Some z) => Ok (Some (VInt z))
  | Ok None => Ok None
  | Raise e => Raise e
  end.

Definition cast (x : option value) : result (option value) :=
  match x with
  | None => Ok None
  | Some (VInt z) =>
      if (- 2147483648 <=? z) && (z <=? 2147483647) then Ok (Some (VInt z))
      else Raise CastError
  | Some (VStr _) => Raise CastError     (* no cell is text once converted *)
  end.

(** One cell through both steps. *)
Definition to_int32 (x : option value) : result (option value) :=
  match converted x with
  | Ok y => cast y
  | Raise e => Raise e
  end.

(** [f] on the cells of the columns [cols] of the row [r0], written to
    [r]. *)
Fixpoint update_cells (f : option value -> result (option value))
  (cols : list string) (r0 r : row) : result row :=
  match cols with
  | [] => Ok r
  | c :: cs =>
      match f (r0 !! c) with
      | Ok x => update_cells f cs r0 (set_cell c x r)
      | Raise e => Raise e
      end
  end.

Fixpoint on_rows {L} (f : option value -> result (option value))
  (cols : list string) (rows : list (L * row)) : result (list (L * row)) :=
  match rows with
  | [] => Ok []
  | (l, r) :: rest =>
      match update_cells f cols r r, on_rows f cols rest with
      | Ok r', Ok rest' => Ok ((l, r') :: rest')
      | Raise e, _ => Raise e
      | _, Raise e => Raise e
      end
  end.

Definition convert_rows {L} (cols : list string) (rows : list (L * row))
  : result (list (L * row)) :=
  match on_rows converted cols rows with
  | Ok mapped => on_rows cast cols mapped
  | Raise e => Raise e
  end.

(** [df.set_index(key)] *)
Definition set_index {L} (key : string) (df : table L)
  : result (table (option value)) :=
  if has_column df key
  then Ok {| tcolumns := List.filter (fun c => negb (String.eqb c key))
                           (tcolumns df);
             trows := map (fun lr => (snd lr !! key, delete key (snd lr)))
                        (trows df) |}
  else Raise KeyError.

(** Line 260-261 *)
Definition split_columns (config_params : config) : result (list string) :=
  match dict_get (splits_start config_params) "ChipStart" with
  | None => Raise KeyError
  | Some chip =>
      Ok (flat_map (fun i => map (Extract.split_field i)
                               (cleaning_split_info config_params))
            (seq 1 (length (splits_distance config_params)))
          ++ [chip])
  end.

(** [clean_race_data] (lines 221-296).  Whatever goes wrong in the
    [try] of lines 262-265 comes out as a [KeyError]: a split column that
    [raw_df] lacks, a split column named twice (pandas then has a frame to
    put into one column), and an assignment that cannot be aligned. *)
Definition clean_race_data (config_params : config) (raw_df : table nat)
  : eff (table (option value)) :=
  let PERSONAL := cleaning_personal config_params in
  let RUNNER_ID := scraping_runner_id config_params in
  do filter_and <-
    lift (filter_mask raw_df (concat (cleaning_filter_by config_params))
            (map (fun _ => true) (trows raw_df)));
  let raw_df := select raw_df filter_and in
  do clean_df <- lift (project raw_df ([RUNNER_ID] ++ PERSONAL));
  let runners_no_info := any_null PERSONAL clean_df in
  (if existsb (fun b => b) runners_no_info
   then print (WarnMissingPersonal
                 (column (select raw_df runners_no_info) RUNNER_ID))
   else ret tt) ;;
  let raw_df := select raw_df (map negb runners_no_info) in
  do split_columns <- lift (split_columns config_params);
  do clean_df <-
    (if forallb (has_column raw_df) split_columns
     then if bool_decide (NoDup split_columns)
          then if reindexable (map fst (trows raw_df))
                    (map fst (trows clean_df))
               then ret (foldl (fun t c => assign_column c (column raw_df c) t)
                           clean_df split_columns)
               else raise KeyError
          else raise KeyError
     else raise KeyError);
  do residence <-
    (if has_column raw_df "residence"
     then lift (map_series residence_state (column raw_df "residence"))
     else raise KeyError);
  do clean_df <-
    (if reindexable (map fst residence) (map fst (trows clean_df))
     then ret (assign_column "residence" residence clean_df)
     else raise ValueError);
  do converted <- lift (convert_rows split_columns (trows clean_df));
  lift (set_index RUNNER_ID
          {| tcolumns := tcolumns clean_df; trows := converted |}).

End Clean.

(** ** The script *)

Module Script.
Import Scrape.

(** The block under [if __name__ == '__main__'] (lines 298-328).

    The names bound in the module when the block runs are what lines 4-10
    import and the four functions; the block also reads some builtins. *)
Definition module_names : list string :=
  ["np"; "pd"; "bs4"; "requests"; "HTTPAdapter"; "Retry"; "itertools"; "os";
   "random"; "time"; "yaml"; "datetime"; "extract_splits"; "extract_personal";
   "scrape_race_data"; "clean_race_data"].

Definition builtin_names : list string :=
  ["__name__"; "__file__"; "print"; "open"; "IndexError"; "FileNotFoundError";
   "Exception"].

(** Reading a global name: the module, then the builtins. *)
Definition load_global (name : string) : result unit :=
  if existsb (String.eqb name) (module_names ++ builtin_names)
  then Ok tt else Raise (NameError name).

(** What may go wrong between [open] and the end of [scrape_race_data]. *)
Inductive failure : Type :=
| FileNotFoundError
| YAMLError
| Python (e : exn).

(** The lines that the block prints, and the events of the run inside it. *)
Inductive output : Type :=
| MissingArgument                 (* 'Error: Missing a YAML config file ...' *)
| Usage                           (* 'Usage: python mtecresults_scraper.py ...' *)
| ConfigNotFound                  (* 'Error: the YAML config file not found.' *)
| ConfigUnparsable                (* 'Error parsing the config file.' *)
| Unexpected (e : exn)            (* 'An unexpected error occurred: ...' *)
| Head (df : frame)               (* print(df.head()) *)
| Run (ev : event).

(** How the script ends. *)
Inductive ending : Type :=
| Finished
| SystemExit (code : Z)
| Uncaught (e : exn).

(** [sys.exit(code)] *)
Definition sys_exit (code : Z) : ending :=
  match load_global "sys" with
  | Ok _ => SystemExit code
  | Raise e => Uncaught e
  end.

(** Lines 304-305: [config_yaml_path = sys.argv[1]] *)
Definition argument (argv : list string) : result string :=
  match load_global "sys" with
  | Raise e => Raise e
  | Ok _ =>
      match argv !! 1%nat with
      | Some config_yaml_path => Ok config_yaml_path
      | None => Raise IndexError
      end
  end.

(** [load_config path] stands for lines 311-314: opening the file, parsing
    it and reading the configuration from it. *)
Definition main (argv : list string)
  (load_config : string -> failure + config)
  (fs : files) (server : nat -> Z -> response) : list output * ending :=
  match load_global "os" with
  | Raise e => ([], Uncaught e)
  | Ok _ =>
      match argument argv with
      | Raise IndexError => ([MissingArgument; Usage], sys_exit 1)
      | Raise e => ([], Uncaught e)         (* only IndexError is caught *)
      | Ok config_yaml_path =>
          match load_config config_yaml_path with
          | inl FileNotFoundError => ([ConfigNotFound], sys_exit 1)
          | inl YAMLError => ([ConfigUnparsable], sys_exit 1)
          | inl (Python e) => ([Unexpected e], sys_exit 1)
          | inr config_params =>
              match scrape_race_data config_params fs server with
              | (evs, Ok df) => (map Run evs ++ [Head df], Finished)
              | (evs, Raise e) => (map Run evs ++ [Unexpected e], sys_exit 1)
              end
          end
      end
  end.

End Script.

(** * The vocabulary of the properties *)

(** ** Texts of digits *)

Module PyStrSpec.
Import PyStr.

(** The value of an ASCII digit. *)
Definition ascii_digit (a : ascii) : option Z :=
  if ((48 <=? byte a) && (byte a <=? 57))%N
  then Some (Z.of_N (byte a) - 48) else None.

(** The number that a text of ASCII digits spells. *)
Fixpoint decimal_from (acc : Z) (ds : string) : option Z :=
  match ds with
  | EmptyString => Some acc
  | String a r =>
      match ascii_digit a with
      | Some x => decimal_from (10 * acc + x) r
      | None => None
      end
  end.

Definition decimal (ds : string) : option Z :=
  match ds with
  | EmptyString => None
  | String _ _ => decimal_from 0 ds
  end.

(** A text that does not go on with a digit or an underscore. *)
Definition stops_scan (r : string) : bool :=
  match points r with
  | [] => true
  | c :: _ => negb (is_digit c) && negb (c =? 95)%N
  end.



End PyStrSpec.

(** ** Pools *)

Module PoolSpec.

(** An ID lies in the pool when one of its intervals holds it. *)
Definition in_pool (pool : list (Z * Z)) (i : Z) : Prop :=
  exists left_ right_, (left_, right_) ∈ pool /\ left_ <= i <= right_.


(** The intervals are well formed, and each starts after the one before
    it has ended. *)
Fixpoint ascending_after (bound : Z) (pool : list (Z * Z)) : bool :=
  match pool with
  | [] => true
  | (left_, right_) :: r =>
      (bound <? left_) && (left_ <=? right_) && ascending_after right_ r
  end.

Definition ascending (pool : list (Z * Z)) : bool :=
  match pool with
  | [] => true
  | (left_, right_) :: r => (left_ <=? right_) && ascending_after right_ r
  end.



End PoolSpec.

(** ** Events

    What a list of events has fetched, appended to the output file,
    requested and written to the session file. *)

Module Trace.
Import Extract Scrape.

(** The events that are lines of output, and the lists of nothing else. *)
Definition is_print (ev : event) : bool :=
  match ev with Print _ => true | _ => false end.

Definition only_prints (evs : list event) : Prop :=
  forallb is_print evs = true.

(** The fields that the recognized headers of a row are written to. *)
Definition fields_of (config_params : config) (cells : list (string * node))
  : list string :=
  omap (fun c => dict_get (column_mapping config_params) (fst c)) cells.

(** The keys an extraction may write: a split field of a configured metric,
    or a configured start field. *)
Definition schema_key (config_params : config) (k : string) : Prop :=
  (exists i field, field ∈ dict_values (column_mapping config_params)
                   /\ k = split_field i field)
  \/ k ∈ dict_values (splits_start config_params).

(** What a row of the splits table writes to the result, in order: a
    distance row the text of each cell under a recognized header, a start
    row the text of its first cell. *)
Definition row_writes (config_params : config) (headers : list string)
  (row : node) : list (string * string) :=
  match find "th" None row with
  | None => []
  | Some label =>
      match SPLITS_ORDER config_params !! get_text label with
      | Some i =>
          omap (fun c =>
                  (fun field => (split_field i field, get_text (snd c)))
                    <$> dict_get (column_mapping config_params) (fst c))
            (zip headers (find_all "td" None row))
      | None =>
          match dict_get (splits_start config_params) (get_text label),
                find "td" None row with
          | Some field, Some cell => [(field, get_text cell)]
          | _, _ => []
          end
      end
  end.

Definition table_writes (config_params : config) (headers : list string)
  (rows : list node) : list (string * string) :=
  flat_map (row_writes config_params headers) rows.

(** The text written last under a key. *)
Definition last_write (k : string) (writes : list (string * string))
  : option string :=
  snd <$> last (List.filter (fun kv => String.eqb (fst kv) k) writes).

(** The writes of the session file. *)
Definition writes_session (ev : event) : bool :=
  match ev with WriteSession _ => true | _ => false end.

(** The events that leave the header of the output file alone. *)
Definition keeps_header (ev : event) : bool :=
  match ev with WriteCsv _ => false | _ => true end.

Definition keep_header (evs : list event) : Prop :=
  forallb keeps_header evs = true.

(** The events of start-up: lines of output and a new output file. *)
Definition startup_only (evs : list event) : Prop :=
  forallb (fun ev => match ev with
                     | Print _ | WriteCsv _ => true
                     | _ => false
                     end) evs = true.

(** The closing summary. *)
Definition is_completed (ev : event) : bool :=
  match ev with Print (MsgCompleted _ _) => true | _ => false end.

Section Session.
Variable config_params : config.
Variable column_names : list string.

(** The rows a batch becomes in the output file. *)
Definition rows_of (batch : list entry) : list csv_row :=
  map (reindex column_names) batch.

(** The row a request adds to the batch, if it adds one. *)
Definition fetched_of (runner_id : Z) (r : response) : list csv_row :=
  match r with
  | Response status_code html_data =>
      if status_code =? 200 then
        match outcome (fetch_entry config_params runner_id html_data) with
        | Ok e => [reindex column_names e]
        | Raise _ => []
        end
      else []
  | RequestFailed _ => []
  end.

(** The rows fetched, the rows appended, the IDs requested and the IDs
    written to the session file, in the order of the events. *)
Definition fetched (evs : list event) : list csv_row :=
  flat_map (fun ev => match ev with
                      | Get runner_id r => fetched_of runner_id r
                      | _ => []
                      end) evs.

Definition appended (evs : list event) : list csv_row :=
  flat_map (fun ev => match ev with AppendCsv rows => rows | _ => [] end) evs.

Definition requested (evs : list event) : list Z :=
  flat_map (fun ev => match ev with Get runner_id _ => [runner_id] | _ => [] end)
    evs.

Definition checkpoints (evs : list event) : list Z :=
  flat_map (fun ev => match ev with WriteSession c => [c] | _ => [] end) evs.

(** The last thing done to a file before the events end was an append. *)
Definition appended_just_before (pre : list event) : Prop :=
  exists pre' rows mid,
    pre = pre' ++ AppendCsv rows :: mid /\ only_prints mid.

(** What holds of the events [pre] before the session file is written with
    [c]: the batch has just been appended, every row fetched so far is in
    the output file, and [c] is the ID requested last. *)
Definition durable (pre : list event) (c : Z) : Prop :=
  appended_just_before pre
  /\ fetched pre = appended pre
  /\ last (requested pre) = Some c.

(** [audit P pre evs]: [P] holds at every write of the session file in
    [evs], of the events before it, [pre] included. *)
Fixpoint audit (P : list event -> Z -> Prop) (pre evs : list event) : Prop :=
  match evs with
  | [] => True
  | ev :: r =>
      match ev with WriteSession c => P pre c | _ => True end
      /\ audit P (pre ++ [ev]) r
  end.

(** Every row fetched is in the output file or in the batch. *)
Definition accounted (pre : list event) (st : loop_state) : Prop :=
  fetched pre = appended pre ++ rows_of (entries_batch st).

(** Lines 177-184 add to the batch the row the request has fetched. *)
Definition add_entry (status_code : Z) (html_data : node) (runner_id : Z)
  (batch : list entry) : eff (list entry) :=
  if status_code =? 200
  then do e <- fetch_entry config_params runner_id html_data;
       ret (batch ++ [e])
  else ret batch.

(** Lines 186-200: the flush, when it is due. *)
Definition flush_if_due (runner_id : Z) (st : loop_state) : eff loop_state :=
  do due <- flush_due config_params runner_id (entries_batch st);
  if due then flush config_params column_names runner_id st else ret st.

End Session.

End Trace.

(** ** Sample inputs *)

Module Samples.
Import Scrape Clean.

(** A configuration with two distance marks, two metrics and one start
    label, over the pool [[1, 3]]. *)
Definition config_1_3 : config := {|
  column_mapping := [("Time", "time"); ("Pace", "pace")];
  splits_start := [("ChipStart", "chip_start")];
  splits_distance := ["5K"; "10K"];
  personal := ["event"; "sex"; "age"; "residence"];
  scraping_runner_id := "runner_id";
  scraping_batch_size := 2;
  scraping_runner_ids_pool := [(1, 3)];
  cleaning_personal := ["sex"; "age"];
  cleaning_split_info := ["time"];
  cleaning_filter_by := [[("event", VStr "Marathon")]]
|}.

(** The same with a batch size of one. *)
Definition config_batch_1 : config := {|
  column_mapping := column_mapping config_1_3;
  splits_start := splits_start config_1_3;
  splits_distance := splits_distance config_1_3;
  personal := personal config_1_3;
  scraping_runner_id := "runner_id";
  scraping_batch_size := 1;
  scraping_runner_ids_pool := [(1, 3)];
  cleaning_personal := cleaning_personal config_1_3;
  cleaning_split_info := cleaning_split_info config_1_3;
  cleaning_filter_by := cleaning_filter_by config_1_3
|}.

(** A batch size of one over a pool whose intervals overlap. *)
Definition config_overlap : config := {|
  column_mapping := column_mapping config_1_3;
  splits_start := splits_start config_1_3;
  splits_distance := splits_distance config_1_3;
  personal := personal config_1_3;
  scraping_runner_id := "runner_id";
  scraping_batch_size := 1;
  scraping_runner_ids_pool := [(1, 3); (2, 4)];
  cleaning_personal := cleaning_personal config_1_3;
  cleaning_split_info := cleaning_split_info config_1_3;
  cleaning_filter_by := cleaning_filter_by config_1_3
|}.

(** Neither file exists. *)
Definition no_files : files := {| output_file := None; session_file := None |}.

(** An output file with one row, and no session file. *)
Definition one_row_no_session : files := {|
  output_file := Some (Csv ["runner_id"; "event"]
                         [[Some (VInt 1); Some (VStr "Marathon")]]);
  session_file := None
|}.

(** A page with nothing in it. *)
Definition page_empty : node := Tag "[document]" [] [].

(** A server that answers every request with that page but fails on one
    ID, and one that never fails. *)
Definition server_failing_on (bad : Z) (_ : nat) (runner_id : Z) : response :=
  if runner_id =? bad then RequestFailed "timed out"
  else Response 200 page_empty.

Definition server_ok (_ : nat) (_ : Z) : response := Response 200 page_empty.

(** An emphasized value of the personal region. *)
Definition strong (t : string) : node :=
  Tag "strong" ["text-primary"] [NavigableString t].

(** A page whose personal data come in another order than expected: the
    age stands where the sex should, and the sex where the age should. *)
Definition page_sex_age_swapped : node :=
  Tag "[document]" [] [
    Tag "div" ["me-auto"; "mb-3"; "mb-md-0"] [
      strong "Marathon"; strong "1234"; strong "34"; strong "M";
      strong "Minneapolis, MN"]].

(** Cells and rows of a table. *)
Definition th (t : string) : node := Tag "th" [] [NavigableString t].
Definition td (t : string) : node := Tag "td" [] [NavigableString t].
Definition tr (cells : list node) : node := Tag "tr" [] cells.

(** A page without personal data whose splits table has a column that the
    configuration does not know. *)
Definition page_unknown_header : node :=
  Tag "[document]" [] [
    Tag "div" ["detailedresultsseg"] [
      Tag "table" [] [
        tr [th "Location"; th "Time"; th "Junk"; th "Pace"];
        tr [th "5K"; td "0:20:00"; td "zz"; td "6:26"];
        tr [th "ChipStart"; td "8:00:01"]]]].

(** The splits region is there, but holds no table row. *)
Definition page_splits_without_rows : node :=
  Tag "[document]" [] [Tag "div" ["detailedresultsseg"] []].

(** The first row of the table has no header cell. *)
Definition page_header_without_cells : node :=
  Tag "[document]" [] [
    Tag "div" ["detailedresultsseg"] [
      Tag "table" [] [
        tr [td "Location"; td "Time"]; tr [th "5K"; td "0:20:00"]]]].

(** A row of the table has no label cell. *)
Definition page_row_without_label : node :=
  Tag "[document]" [] [
    Tag "div" ["detailedresultsseg"] [
      Tag "table" [] [tr [th "Location"; th "Time"]; tr [td "0:20:00"]]]].

(** A start row has no value cell. *)
Definition page_start_without_value : node :=
  Tag "[document]" [] [
    Tag "div" ["detailedresultsseg"] [
      Tag "table" [] [tr [th "Location"; th "Time"]; tr [th "ChipStart"]]]].

(** A server that answers every request with the first of these pages. *)
Definition server_splits_without_rows (_ : nat) (_ : Z) : response :=
  Response 200 page_splits_without_rows.

(** A row from its cells. *)
Definition raw_row (cells : list (string * value)) : row := list_to_map cells.

(** A raw table of two marathon runners; the second has no sex on record. *)
Definition raw_missing_sex : table nat := {|
  tcolumns := ["runner_id"; "event"; "sex"; "age"; "residence";
               "split_1_time"; "split_2_time"; "chip_start"];
  trows := [
    (0%nat, raw_row [("runner_id", VInt 1); ("event", VStr "Marathon");
                     ("sex", VStr "M"); ("age", VInt 30);
                     ("residence", VStr "Minneapolis, MN");
                     ("split_1_time", VStr "0:20:00");
                     ("split_2_time", VStr "41:00");
                     ("chip_start", VStr "0:05")]);
    (1%nat, raw_row [("runner_id", VInt 3); ("event", VStr "Marathon");
                     ("age", VInt 41);
                     ("residence", VStr "St Paul, MN");
                     ("split_1_time", VStr "0:21:30");
                     ("split_2_time", VStr "43:10");
                     ("chip_start", VStr "0:07")])]
|}.

(** What a table holds of a column, under each index label. *)
Definition column_of {L} (col : string) (r : result (table L))
  : list (L * option value) :=
  match r with
  | Ok t => column t col
  | Raise _ => []
  end.

End Samples.

(** ** Further words: texts, columns, the run event by event, the cleaned
    table *)

Module TextSpec.
Import PyStr.

(** A text that neither begins nor ends with a blank. *)
Definition trimmed (s : string) : Prop :=
  drop_blank s = None /\ drop_blank_back (rev s) = None.

End TextSpec.

Module SchemaSpec.
Import Extract Scrape.

(** Every ID of the pool, interval by interval: what the enumeration goes
    through when nothing is below the resume bound. *)
Definition all_ids (pool : list (Z * Z)) : list Z :=
  flat_map (fun lr => range (fst lr) (snd lr + 1)) pool.

(** The columns of a new session that hold values of the splits table. *)
Definition value_columns (config_params : config) : list string :=
  flat_map (fun i => map (split_field i)
                       (dict_values (column_mapping config_params)))
    (seq 1 (length (splits_distance config_params)))
  ++ dict_values (splits_start config_params).


End SchemaSpec.

Module RunSpec.
Import Extract Scrape Trace.

(** The warnings of the extractors. *)
Definition is_warning (ev : event) : bool :=
  match ev with
  | Print (WarnNoSplits _) | Print (WarnUnknownField _ _)
  | Print (WarnUnknownSplitLabel _ _) | Print (WarnNoPersonal _)
  | Print (WarnPersonalFormat _ _) => true
  | _ => false
  end.

Definition only_warnings (evs : list event) : Prop :=
  forallb is_warning evs = true.

(** [each_event P pre evs]: [P] holds of every event of [evs] and of the
    events before it, [pre] included. *)
Fixpoint each_event (P : list event -> event -> Prop) (pre evs : list event)
  : Prop :=
  match evs with
  | [] => True
  | ev :: r => P pre ev /\ each_event P (pre ++ [ev]) r
  end.

(** Whether a flush is due after the turn for [runner_id] (line 187). *)
Definition due (config_params : config) (runner_id : Z) (batch : list entry)
  : bool :=
  (scraping_batch_size config_params <=? len batch)
  || (runner_id mod (scraping_batch_size config_params * 2) =? 0).

(** The progress line of a flush, if it prints one (lines 195-196). *)
Definition progress_line (config_params : config) (runner_id saved : Z)
  : list event :=
  if runner_id mod (scraping_batch_size config_params * 2) =? 0
  then [Print (MsgLastProcessed runner_id saved)] else [].

(** [session.get] is not called while the pause after the call before is
    still to come: [waiting] tells whether it has been called since the
    last pause.  (What the adapter of the session sends again within one
    call, by its [Retry], is no event of its own.) *)
Fixpoint spaced (waiting : bool) (evs : list event) : bool :=
  match evs with
  | [] => true
  | Get _ _ :: r => negb waiting && spaced true r
  | Sleep :: r => spaced false r
  | _ :: r => spaced waiting r
  end.

Fixpoint waiting_after (waiting : bool) (evs : list event) : bool :=
  match evs with
  | [] => waiting
  | Get _ _ :: r => waiting_after true r
  | Sleep :: r => waiting_after false r
  | _ :: r => waiting_after waiting r
  end.

(** The progress lines and the requests among the events. *)
Definition is_progress (ev : event) : bool :=
  match ev with Print (MsgLastProcessed _ _) => true | _ => false end.

Definition is_get (ev : event) : bool :=
  match ev with Get _ _ => true | _ => false end.

(** Every page that the server answers with status 200 has a splits table
    that [extract_splits] gets through. *)
Definition regular (config_params : config) (server : nat -> Z -> response)
  : Prop :=
  forall n runner_id html_data,
    server n runner_id = Response 200 html_data ->
    exists res,
      outcome (extract_splits html_data runner_id config_params) = Ok res.

(** A computation sends no request while a pause is still to come, and
    when it returns, the pause after its last request has been made. *)
Definition polite {A} (m : eff A) : Prop :=
  spaced false (events m) = true
  /\ forall a, outcome m = Ok a -> waiting_after false (events m) = false.

Section Progress.
Variable config_params : config.
Variable column_names : list string.
(** The number of rows in the output file when the loop starts. *)
Variable rows_before : Z.

(** The rows fetched that are not in the output file yet. *)
Definition backlog (evs : list event) : Z :=
  len (fetched config_params column_names evs) - len (appended evs).

(** A progress line tells the number of rows in the output file and the ID
    requested last, a multiple of twice the batch size. *)
Definition progress_true (pre : list event) (ev : event) : Prop :=
  match ev with
  | Print (MsgLastProcessed runner_id saved) =>
      saved = rows_before + len (appended pre)
      /\ runner_id mod (scraping_batch_size config_params * 2) = 0
      /\ last (requested pre) = Some runner_id
  | _ => True
  end.

Definition bounded (pre : list event) (ev : event) : Prop :=
  0 <= backlog (pre ++ [ev]) <= scraping_batch_size config_params.

(** What the loop keeps from turn to turn. *)
Definition in_step (pre : list event) (st : loop_state) : Prop :=
  backlog pre = len (entries_batch st)
  /\ saved st = rows_before + len (appended pre)
  /\ (1 <= scraping_batch_size config_params ->
      len (entries_batch st) < scraping_batch_size config_params).

End Progress.

End RunSpec.

Module CleanSpec.
Import Extract Clean.

(** The conditions of all the filters, and the rows that meet them. *)
Definition conditions (config_params : config) : list (string * value) :=
  concat (cleaning_filter_by config_params).

Definition meets (conds : list (string * value)) (r : row) : bool :=
  forallb (fun kv => cell_equals r (fst kv) (snd kv)) conds.

(** The columns that [clean_race_data] reads from the raw table, and
    whether the raw table has them all. *)
Definition required_columns (config_params : config)
  (split_columns : list string) : list string :=
  map fst (conditions config_params)
  ++ [scraping_runner_id config_params] ++ cleaning_personal config_params
  ++ split_columns ++ ["residence"].

Definition well_shaped {L} (config_params : config) (raw_df : table L) : bool :=
  match split_columns config_params with
  | Ok cols => forallb (has_column raw_df) (required_columns config_params cols)
  | Raise _ => false
  end.

(** A cell of an [Int32] column: missing, or a whole number of 32 bits. *)
Definition is_int32 (x : option value) : Prop :=
  match x with
  | None => True
  | Some (VInt z) => - 2147483648 <= z <= 2147483647
  | Some (VStr _) => False
  end.

(** Both steps of line 292 on one row. *)
Definition convert_row (cols : list string) (r : row) : result row :=
  match update_cells converted cols r r with
  | Ok r1 => update_cells cast cols r1 r1
  | Raise e => Raise e
  end.

(** The runner IDs of rows. *)
Definition ids_of {L} (config_params : config) (rows : list (L * row))
  : list (option value) :=
  map (fun lr => snd lr !! scraping_runner_id config_params) rows.

End CleanSpec.

Module CellSpec.
Import Clean CleanSpec.

(** A row that has all the personal fields. *)
Definition complete (cols : list string) (r : row) : bool :=
  forallb (fun c => bool_decide (is_Some (r !! c))) cols.

(** The rows that meet every filter, and those of them that have all the
    personal fields. *)
Definition kept_rows (config_params : config) (raw_df : table nat)
  : list (nat * row) :=
  List.filter (fun lr => meets (conditions config_params) (snd lr))
    (trows raw_df).

Definition complete_rows (config_params : config) (raw_df : table nat)
  : list (nat * row) :=
  List.filter (fun lr => complete (cleaning_personal config_params) (snd lr))
    (kept_rows config_params raw_df).

(** Whether the columns of the complete rows can be aligned on the rows
    kept. *)
Definition alignable (config_params : config) (raw_df : table nat) : bool :=
  reindexable (map fst (complete_rows config_params raw_df))
    (map fst (kept_rows config_params raw_df)).

End CellSpec.

Module WarningSpec.
Import Extract Clean CleanSpec CellSpec.

(** The rows that meet every filter and lack a personal field. *)
Definition incomplete_rows (config_params : config) (raw_df : table nat)
  : list (nat * row) :=
  List.filter
    (fun lr => negb (complete (cleaning_personal config_params) (snd lr)))
    (List.filter (fun lr => meets (conditions config_params) (snd lr))
       (trows raw_df)).

End WarningSpec.

Module OutputSpec.
Import Extract Scrape.

(** The pages that the server answers with status 200, each with its ID,
    when [ids] are requested in turn from the [n]-th request on. *)
Fixpoint answered_pages (server : nat -> Z -> response) (n : nat)
  (ids : list Z) : list (Z * node) :=
  match ids with
  | [] => []
  | runner_id :: r =>
      match server n runner_id with
      | Response status_code html_data =>
          if status_code =? 200 then [(runner_id, html_data)] else []
      | RequestFailed _ => []
      end ++ answered_pages server (S n) r
  end.

(** The row of a page: the entry made of the ID, the personal fields and
    the splits extracted from the page, under the columns of the file. *)
Definition row_of_page (config_params : config) (column_names : list string)
  (page : Z * node) (row : csv_row) : Prop :=
  exists splits,
    outcome (extract_splits (snd page) (fst page) config_params) = Ok splits
    /\ row = reindex column_names
               (make_entry (fst page)
                  (snd (extract_personal (snd page) (fst page))) splits).

End OutputSpec.

(** ** More sample inputs *)

Module MoreSamples.
Import Scrape Clean Samples.

(** A batch size of zero. *)
Definition config_batch_0 : config := {|
  column_mapping := column_mapping config_1_3;
  splits_start := splits_start config_1_3;
  splits_distance := splits_distance config_1_3;
  personal := personal config_1_3;
  scraping_runner_id := "runner_id";
  scraping_batch_size := 0;
  scraping_runner_ids_pool := [(1, 3)];
  cleaning_personal := cleaning_personal config_1_3;
  cleaning_split_info := cleaning_split_info config_1_3;
  cleaning_filter_by := cleaning_filter_by config_1_3
|}.


(** A raw table without columns. *)
Definition raw_without_columns : table nat := {| tcolumns := []; trows := [] |}.

(** A raw table of one marathon runner with no residence on record. *)
Definition raw_missing_residence : table nat := {|
  tcolumns := ["runner_id"; "event"; "sex"; "age"; "residence";
               "split_1_time"; "split_2_time"; "chip_start"];
  trows := [
    (0%nat, raw_row [("runner_id", VInt 1); ("event", VStr "Marathon");
                     ("sex", VStr "M"); ("age", VInt 30);
                     ("split_1_time", VStr "0:20:00");
                     ("split_2_time", VStr "41:00");
                     ("chip_start", VStr "0:05")])]
|}.

(** The table that [clean_race_data] returns, if it returns one. *)
Definition cleaned (r : result (table (option value)))
  : table (option value) :=
  match r with
  | Ok t => t
  | Raise _ => {| tcolumns := []; trows := [] |}
  end.

End MoreSamples.

(** * Properties *)

(** ** Text and numbers *)

Module PyStrFacts.
Import PyStr PyStrSpec.

Ltac ascii_cases a :=
  destruct a as [[] [] [] [] [] [] [] []]; vm_compute; try discriminate;
  try reflexivity; try (intros [= <-]; reflexivity).

(** *** ASCII text *)

Lemma points_cons_ascii a r :
  (byte a <? 128)%N = true -> points (String a r) = byte a :: points r.
Proof.
  intros H. unfold points. cbn [String.length points_upto head_point].
  by rewrite H.
Qed.

Lemma ascii_digit_ascii a x : ascii_digit a = Some x -> (byte a <? 128)%N = true.
Proof. ascii_cases a. Qed.

Lemma ascii_digit_value a x :
  ascii_digit a = Some x -> digit_value (byte a) = Some x.
Proof. ascii_cases a. Qed.

Lemma digit_not_int_space a x :
  ascii_digit a = Some x -> is_int_space (byte a) = false.
Proof. ascii_cases a. Qed.

Lemma digit_not_underscore a x :
  ascii_digit a = Some x -> (byte a =? 95)%N = false.
Proof. ascii_cases a. Qed.

Lemma digit_not_slash a x : ascii_digit a = Some x -> Ascii.eqb a "/" = false.
Proof. ascii_cases a. Qed.


Lemma digit_int_sign a x l :
  ascii_digit a = Some x -> int_sign (byte a :: l) = (false, byte a :: l).
Proof.
  intros H. unfold int_sign.
  assert ((byte a =? 43)%N = false /\ (byte a =? 45)%N = false) as [-> ->];
    [|done].
  revert H. ascii_cases a; by split.
Qed.




Lemma append_cons c s t : String c s +:+ t = String c (s +:+ t).
Proof. reflexivity. Qed.

Lemma append_empty_l t : EmptyString +:+ t = t.
Proof. reflexivity. Qed.

Lemma append_empty_r s : s +:+ EmptyString = s.
Proof. induction s as [|c s IH]; [done|]. by rewrite append_cons, IH. Qed.

(** *** [int] *)

Lemma scan_digits_stop acc n r :
  stops_scan r = true ->
  scan_digits false acc n (points r) = Some (acc, n, points r).
Proof.
  unfold stops_scan. destruct (points r) as [|c l]; [done|].
  cbn [scan_digits]. unfold is_digit. destruct (digit_value c); [done|].
  cbn [negb andb]. by intros ->%negb_true_iff.
Qed.

Lemma scan_digits_decimal ds : forall acc n v r,
  decimal_from acc ds = Some v -> stops_scan r = true ->
  scan_digits false acc n (points (ds +:+ r))
  = Some (v, (n + String.length ds)%nat, points r).
Proof.
  induction ds as [|a ds IH]; intros acc n v r Hv Hr.
  - injection Hv as <-. rewrite append_empty_l, Nat.add_0_r.
    by apply scan_digits_stop.
  - rewrite append_cons. cbn [decimal_from] in Hv.
    destruct (ascii_digit a) as [x|] eqn:Ha; [|discriminate].
    rewrite (points_cons_ascii _ _ (ascii_digit_ascii _ _ Ha)).
    cbn [scan_digits]. rewrite (ascii_digit_value _ _ Ha).
    rewrite (IH _ (S n) v r Hv Hr). cbn [String.length]. do 3 f_equal. lia.
Qed.

Lemma split_head_digits ds : forall acc v t,
  decimal_from acc ds = Some v ->
  split_head "/" (ds +:+ String "/" t) = ds /\ split_head "/" ds = ds.
Proof.
  induction ds as [|a ds IH]; intros acc v t Hv; [done|].
  rewrite append_cons. simpl in *.
  destruct (ascii_digit a) as [x|] eqn:Ha; [|discriminate].
  rewrite (digit_not_slash _ _ Ha).
  destruct (IH _ _ t Hv) as [-> ->]. done.
Qed.

(** [int] on ASCII digits followed by a text that ends the scan. *)
Lemma int_digits_then ds v r :
  decimal ds = Some v -> stops_scan r = true ->
  int (ds +:+ r)
  = if (int_max_str_digits <? String.length ds)%nat then None
    else match skip is_int_space (points r) with
         | [] => Some v
         | _ :: _ => None
         end.
Proof.
  destruct ds as [|a ds]; [discriminate|]. unfold decimal. intros Hv Hr.
  assert (exists x, ascii_digit a = Some x) as [x Ha].
  { simpl in Hv. destruct (ascii_digit a); [eauto | discriminate]. }
  pose proof (scan_digits_decimal (String a ds) 0 0 v r Hv Hr) as Hscan.
  rewrite append_cons in *.
  rewrite (points_cons_ascii _ _ (ascii_digit_ascii _ _ Ha)) in Hscan.
  unfold int, int_points.
  rewrite (points_cons_ascii _ _ (ascii_digit_ascii _ _ Ha)).
  cbn [skip]. rewrite (digit_not_int_space _ _ Ha).
  rewrite (digit_int_sign _ _ _ Ha). cbn [starts_with_underscore].
  rewrite (digit_not_underscore _ _ Ha), Hscan. cbn [Nat.add].
  destruct (Nat.eqb_spec (String.length (String a ds)) 0) as [H0|_];
    [simpl in H0; lia | reflexivity].
Qed.

(** [int] reads a text of at most [int_max_str_digits] ASCII digits as the
    number it spells. *)
Lemma int_decimal ds v :
  decimal ds = Some v -> (String.length ds <= int_max_str_digits)%nat ->
  int ds = Some v.
Proof.
  intros Hv Hlen.
  pose proof (int_digits_then ds v EmptyString Hv eq_refl) as H.
  rewrite append_empty_r in H. rewrite H.
  destruct (Nat.ltb_spec int_max_str_digits (String.length ds));
    [lia | reflexivity].
Qed.

(** *** Clock texts *)

















(** [strptime] raises nothing but [ValueError]. *)
Lemma make_time_raises h m sec e :
  make_time h m sec = Raise e -> e = ValueError.
Proof. unfold make_time. case_match; congruence. Qed.

Lemma strptime_HMS_raises s e : strptime_HMS s = Raise e -> e = ValueError.
Proof.
  unfold strptime_HMS.
  destruct (re_HMS (points s)) as [|[[[h m] sec] [|c r]] tl];
    try congruence. apply make_time_raises.
Qed.

Lemma strptime_MS_raises s e : strptime_MS s = Raise e -> e = ValueError.
Proof.
  unfold strptime_MS. destruct (re_MS (points s)) as [|[[m sec] [|c r]] tl];
    try congruence. apply make_time_raises.
Qed.

End PyStrFacts.

(** ** The coercion of split values *)

Module ConvertFacts.
Import PyStr PyStrSpec PyStrFacts Clean.

Lemma convert_place s n :
  int (split_head "/" s) = Some n ->
  convert_split_info (Some (VStr s)) = Ok (Some n).
Proof. intros H. unfold convert_split_info. by rewrite H. Qed.












(** C10.  Whenever the text before the first slash reads as a whole number,
    [convert_split_info] returns that number: the rest of the text plays no
    part.  A text of ASCII digits alone, or followed by a slash and
    anything at all (further slashes included), gives the number the digits
    spell; "120" gives 120 and "12/34/56" gives 12.  What reads as a whole
    number is what [int] takes: "٣/10", with an Arabic-Indic three, gives
    3, and so does a three between no-break spaces. *)
Theorem convert_split_info_place_needs_no_total
  (s ds t : string) (n v : Z)
  (Hs : int (split_head "/" s) = Some n)
  (Hds : decimal ds = Some v)
  (Hlen : (String.length ds <= int_max_str_digits)%nat) :
  convert_split_info (Some (VStr s)) = Ok (Some n)
  /\ convert_split_info (Some (VStr ds)) = Ok (Some v)
  /\ convert_split_info (Some (VStr (ds +:+ String "/" t))) = Ok (Some v)
  /\ convert_split_info (Some (VStr "120")) = Ok (Some 120)
  /\ convert_split_info (Some (VStr "12/34/56")) = Ok (Some 12)
  /\ convert_split_info (Some (VStr "٣/10")) = Ok (Some 3)
  /\ convert_split_info (Some (VStr " 3 /10")) = Ok (Some 3).
Proof.
  split; [by apply convert_place|].
  assert (exists acc, decimal_from acc ds = Some v) as [acc Hacc].
  { destruct ds; [discriminate | by exists 0]. }
  destruct (split_head_digits ds acc v t Hacc) as [E1 E2].
  split; [apply convert_place; rewrite E2; by apply int_decimal|].
  split; [apply convert_place; rewrite E1; by apply int_decimal|].
  repeat split; vm_compute; reflexivity.
Qed.

Lemma convert_split_info_place_needs_no_total_witness :
  convert_split_info (Some (VStr " 7 /x")) = Ok (Some 7)
  /\ convert_split_info (Some (VStr "0042")) = Ok (Some 42)
  /\ convert_split_info (Some (VStr "0042//4:15")) = Ok (Some 42).
Proof.
  pose proof (convert_split_info_place_needs_no_total " 7 /x" "0042" "/4:15"
                7 42 eq_refl eq_refl ltac:(vm_compute; lia))
    as (H1 & H2 & H3 & _).
  exact (conj H1 (conj H2 H3)).
Defined.

End ConvertFacts.

(** ** The pool of runner IDs *)

Module PoolFacts.
Import Scrape PoolSpec.

Lemma id_ranges_acc init pool : forall acc total,
  id_ranges init pool acc total
  = (acc ++ fst (id_ranges init pool [] 0),
     total + snd (id_ranges init pool [] 0)).
Proof.
  induction pool as [|[l h] pool IH]; intros acc total; simpl.
  - by rewrite app_nil_r, Z.add_0_r.
  - destruct (init <=? h); [|apply IH].
    rewrite (IH (acc ++ _)), (IH [_]). simpl.
    rewrite <- app_assoc. simpl. f_equal. lia.
Qed.

Lemma runner_ids_nil init : runner_ids init [] = [].
Proof. reflexivity. Qed.

Lemma runner_ids_cons init l h pool :
  runner_ids init ((l, h) :: pool)
  = if init <=? h
    then range (Z.max init l) (h + 1) ++ runner_ids init pool
    else runner_ids init pool.
Proof.
  unfold runner_ids. simpl. destruct (init <=? h); [|done].
  rewrite id_ranges_acc. reflexivity.
Qed.


Lemma elem_of_range a b i : i ∈ range a b <-> a <= i < b.
Proof. unfold range. rewrite elem_of_seqZ. lia. Qed.


Lemma range_sorted a b : StronglySorted Z.lt (range a b).
Proof.
  unfold range, seqZ. generalize (Z.to_nat (b - a)) as k. generalize 0%nat as j.
  intros j k. revert j. induction k as [|k IH]; intros j; simpl.
  - constructor.
  - constructor; [apply IH|].
    apply Forall_fmap, Forall_forall. intros i Hi.
    apply elem_of_seq in Hi. simpl. lia.
Qed.

(** The IDs gone through are those of the pool from the resume bound on. *)
Lemma elem_of_runner_ids init pool i :
  i ∈ runner_ids init pool <-> init <= i /\ in_pool pool i.
Proof.
  unfold in_pool. induction pool as [|[l h] pool IH].
  - rewrite runner_ids_nil. split; [by intros ?%elem_of_nil|].
    by intros (_ & ? & ? & ?%elem_of_nil & _).
  - rewrite runner_ids_cons.
    destruct (Z.leb_spec init h) as [Hle|Hgt].
    + rewrite elem_of_app, elem_of_range, IH. split.
      * intros [Hi|(Hi & l' & h' & Hin & Hb)].
        -- split; [lia|]. exists l, h. split; [left | lia].
        -- split; [done|]. exists l', h'. split; [by right | done].
      * intros (Hi & l' & h' & Hin & Hb).
        apply elem_of_cons in Hin as [[= -> ->]|Hin]; [left; lia|].
        right. eauto 6.
    + rewrite IH. split.
      * intros (Hi & l' & h' & Hin & Hb). split; [done|].
        exists l', h'. split; [by right | done].
      * intros (Hi & l' & h' & Hin & Hb). split; [done|].
        apply elem_of_cons in Hin as [[= -> ->]|Hin]; [lia|]. eauto.
Qed.




Lemma ascending_after_above bound pool i :
  ascending_after bound pool = true -> in_pool pool i -> bound < i.
Proof.
  revert bound. induction pool as [|[l h] pool IH]; intros bound.
  - by intros _ (? & ? & ?%elem_of_nil & _).
  - simpl. intros [[Hb Hlh]%andb_true_iff Hr]%andb_true_iff.
    apply Z.ltb_lt in Hb. apply Z.leb_le in Hlh.
    intros (l' & h' & Hin & Hi).
    apply elem_of_cons in Hin as [[= -> ->]|Hin]; [lia|].
    assert (h < i); [|lia]. apply IH; [done|]. exists l', h'. eauto.
Qed.

Lemma runner_ids_sorted_after bound init pool :
  ascending_after bound pool = true ->
  StronglySorted Z.lt (runner_ids init pool).
Proof.
  revert bound. induction pool as [|[l h] pool IH]; intros bound.
  - intros _. rewrite runner_ids_nil. constructor.
  - simpl. intros [[Hb Hlh]%andb_true_iff Hr]%andb_true_iff.
    rewrite runner_ids_cons. destruct (init <=? h); [|by eapply IH].
    apply StronglySorted_app_2; [|apply range_sorted|by eapply IH].
    intros x y Hx%elem_of_range [_ Hy]%elem_of_runner_ids.
    pose proof (ascending_after_above h pool y Hr Hy). lia.
Qed.

Lemma runner_ids_sorted init pool :
  ascending pool = true -> StronglySorted Z.lt (runner_ids init pool).
Proof.
  destruct pool as [|[l h] pool]; [intros _; constructor|].
  simpl. intros [Hlh Hr]%andb_true_iff.
  apply (runner_ids_sorted_after (l - 1)). simpl. rewrite Hlh, Hr.
  by destruct (Z.ltb_spec (l - 1) l); [|lia].
Qed.










End PoolFacts.

(** ** Effects *)

Module EffFacts.

Lemma events_bind {A B} (m : eff A) (k : A -> eff B) :
  events (bind m k)
  = events m ++ match outcome m with
                | Ok a => events (k a)
                | Raise _ => []
                end.
Proof.
  destruct m as [evs [a|e]]; unfold bind; simpl; [|by rewrite app_nil_r].
  by destruct (k a).
Qed.

Lemma outcome_bind {A B} (m : eff A) (k : A -> eff B) :
  outcome (bind m k)
  = match outcome m with
    | Ok a => outcome (k a)
    | Raise e => Raise e
    end.
Proof.
  destruct m as [evs [a|e]]; unfold bind; simpl; [|done]. by destruct (k a).
Qed.

End EffFacts.

(** ** The extractors *)

Module ExtractFacts.
Import Extract Trace Samples EffFacts.

Lemma only_prints_app evs1 evs2 :
  only_prints evs1 -> only_prints evs2 -> only_prints (evs1 ++ evs2).
Proof. unfold only_prints. rewrite forallb_app. by intros -> ->. Qed.

Lemma only_prints_bind {A B} (m : eff A) (k : A -> eff B) :
  only_prints (events m) -> (forall a, only_prints (events (k a))) ->
  only_prints (events (bind m k)).
Proof.
  intros Hm Hk. rewrite events_bind. apply only_prints_app; [done|].
  destruct (outcome m); [apply Hk | done].
Qed.

Lemma split_cells_prints config_params runner_id i cells : forall res,
  only_prints (events (split_cells config_params runner_id i cells res)).
Proof.
  induction cells as [|[col v] cells IH]; intros res; simpl; [done|].
  destruct (dict_get _ col); [apply IH|].
  apply only_prints_bind; [done | intros _; apply IH].
Qed.

Lemma split_rows_prints config_params runner_id headers rows : forall res,
  only_prints (events (split_rows config_params runner_id headers rows res)).
Proof.
  induction rows as [|row rows IH]; intros res; simpl; [done|].
  destruct (find "th" None row) as [label|]; [|done].
  destruct (SPLITS_ORDER config_params !! get_text label) as [i|].
  { apply only_prints_bind; [apply split_cells_prints | intros res'; apply IH]. }
  destruct (dict_get _ _) as [field|].
  { destruct (find "td" None row); [apply IH | done]. }
  apply only_prints_bind; [done | intros _; apply IH].
Qed.

(** The extractors do nothing but print. *)
Lemma extract_splits_prints html_data runner_id config_params :
  only_prints (events (extract_splits html_data runner_id config_params)).
Proof.
  unfold extract_splits. destruct (find "div" _ html_data); [|done].
  destruct (find_all "tr" None _) as [|first rows]; [done|].
  destruct (map get_text _) as [|h headers]; [done|].
  apply split_rows_prints.
Qed.

Lemma extract_personal_prints html_data runner_id :
  only_prints (fst (extract_personal html_data runner_id)).
Proof.
  unfold extract_personal. destruct (find "div" _ html_data); [|done].
  destruct (map get_text _) as [|? [|? [|? [|? [|? [|? ?]]]]]]; done.
Qed.

(** *** The personal data *)

(** C9, the claim as stated fails: five values in the wrong order are taken
    as they come; the mapping is not empty and nothing is printed. *)
Lemma extract_personal_order_unchecked :
  extract_personal page_sex_age_swapped 7
  = ([], <["residence" := "Minneapolis, MN"]>
           (<["age" := "M"]>
              (<["sex" := "34"]> (<["event" := "Marathon"]> ∅))))
  /\ extract_personal page_sex_age_swapped 7
     <> ([Print (WarnPersonalFormat 7 ValueError)], ∅).
Proof. split; [reflexivity | discriminate]. Qed.

Lemma extract_personal_absent html_data runner_id :
  find "div" (Some "me-auto mb-3 mb-md-0") html_data = None ->
  extract_personal html_data runner_id
  = ([Print (WarnNoPersonal runner_id)], ∅).
Proof. unfold extract_personal. by intros ->. Qed.

Lemma extract_personal_count html_data runner_id personal :
  find "div" (Some "me-auto mb-3 mb-md-0") html_data = Some personal ->
  length (find_all "strong" (Some "text-primary") personal) <> 5%nat ->
  extract_personal html_data runner_id
  = ([Print (WarnPersonalFormat runner_id ValueError)], ∅).
Proof.
  unfold extract_personal. intros -> Hlen.
  rewrite <- (length_map get_text) in Hlen.
  destruct (map get_text _) as [|? [|? [|? [|? [|? [|? ?]]]]]]; done.
Qed.

(** *** The splits table *)

Lemma split_field_inj i : Inj (=) (=) (split_field i).
Proof.
  intros f1 f2 H. unfold split_field in H.
  by repeat apply (inj (String.app _)) in H.
Qed.

Lemma fields_of_cons config_params col cell cells :
  fields_of config_params ((col, cell) :: cells)
  = match dict_get (column_mapping config_params) col with
    | Some field => field :: fields_of config_params cells
    | None => fields_of config_params cells
    end.
Proof. reflexivity. Qed.

(** One distance row: a recognized column is recorded under its field, an
    unrecognized one is warned about, and no other key is touched. *)
Lemma split_cells_spec config_params runner_id i cells : forall res,
  exists res',
    outcome (split_cells config_params runner_id i cells res) = Ok res'
    /\ dom res ⊆ dom res'
    /\ (forall k, k ∈ dom res' ->
          k ∈ dom res
          \/ exists field, field ∈ fields_of config_params cells
                           /\ k = split_field i field)
    /\ (forall col cell field,
          (col, cell) ∈ cells ->
          dict_get (column_mapping config_params) col = Some field ->
          split_field i field ∈ dom res')
    /\ (NoDup (fields_of config_params cells) ->
        forall col cell field,
          (col, cell) ∈ cells ->
          dict_get (column_mapping config_params) col = Some field ->
          res' !! split_field i field = Some (get_text cell))
    /\ (forall col cell,
          (col, cell) ∈ cells ->
          dict_get (column_mapping config_params) col = None ->
          Print (WarnUnknownField col runner_id)
          ∈ events (split_cells config_params runner_id i cells res))
    /\ (forall k, (forall field, field ∈ fields_of config_params cells ->
                              k <> split_field i field) ->
                  res' !! k = res !! k).
Proof.
  induction cells as [|[col0 cell0] cells IH]; intros res.
  { exists res. split; [done|]. split; [done|]. split; [by left|].
    split; [by intros ? ? ? ?%elem_of_nil|].
    split; [by intros _ ? ? ? ?%elem_of_nil|].
    split; [by intros ? ? ?%elem_of_nil | done]. }
  cbn [split_cells]. rewrite fields_of_cons.
  destruct (dict_get (column_mapping config_params) col0) as [field0|] eqn:E0.
  - destruct (IH (<[split_field i field0 := get_text cell0]> res))
      as (res' & Hout & Hdom & Hkeys & Hrec & Hval & Hwarn & Hframe).
    exists res'. split; [done|].
    split; [|split; [|split; [|split; [|split]]]].
    + rewrite dom_insert in Hdom. set_solver.
    + intros k Hk. destruct (Hkeys k Hk) as [Hin|(field & Hin & ->)].
      * rewrite dom_insert in Hin.
        apply elem_of_union in Hin as [->%elem_of_singleton|Hin]; [|by left].
        right. exists field0. split; [left | done].
      * right. exists field. split; [by right | done].
    + intros col cell field Hin Hfield.
      apply elem_of_cons in Hin as [[= -> ->]|Hin]; [|eauto].
      rewrite E0 in Hfield. injection Hfield as <-.
      apply Hdom. rewrite dom_insert. set_solver.
    + intros [Hnotin Hnodup]%NoDup_cons col cell field Hin Hfield.
      apply elem_of_cons in Hin as [[= -> ->]|Hin]; [|eauto].
      rewrite E0 in Hfield. injection Hfield as <-. rewrite Hframe.
      { apply lookup_insert_eq. }
      intros field Hfield ->%split_field_inj. done.
    + intros col cell Hin Hnone.
      apply elem_of_cons in Hin as [[= -> ->]|Hin]; [congruence|].
      eauto.
    + intros k Hk. rewrite Hframe.
      * apply lookup_insert_ne. intros Heq.
        apply (Hk field0); [left | done].
      * intros field Hin. apply Hk. by right.
  - destruct (IH res)
      as (res' & Hout & Hdom & Hkeys & Hrec & Hval & Hwarn & Hframe).
    exists res'. rewrite outcome_bind, events_bind.
    cbn [outcome events print emit fst snd]. rewrite Hout.
    split; [done|]. split; [done|]. split; [done|].
    split; [|split; [|split; [|done]]].
    + intros col cell field Hin Hfield.
      apply elem_of_cons in Hin as [[= -> ->]|Hin]; [congruence|]. eauto.
    + intros Hnodup col cell field Hin Hfield.
      apply elem_of_cons in Hin as [[= -> ->]|Hin]; [congruence|]. eauto.
    + intros col cell Hin Hnone.
      apply elem_of_cons in Hin as [[= -> ->]|Hin]; [by left|].
      right. eauto.
Qed.

Lemma dict_get_values (d : dict) k v : dict_get d k = Some v -> v ∈ dict_values d.
Proof.
  induction d as [|[k' v'] d IH]; [done|]. simpl.
  destruct (String.eqb k k'); [intros [= ->]; left | right; auto].
Qed.

Lemma fields_of_values config_params cells field :
  field ∈ fields_of config_params cells ->
  field ∈ dict_values (column_mapping config_params).
Proof.
  unfold fields_of. intros ([col cell] & _ & H)%list_elem_of_omap.
  eauto using dict_get_values.
Qed.

(** The rows of the table, when the loop over them ends without raising. *)
Lemma split_rows_spec config_params runner_id headers rows : forall res res',
  outcome (split_rows config_params runner_id headers rows res) = Ok res' ->
  dom res ⊆ dom res'
  /\ (forall k, k ∈ dom res' -> k ∈ dom res \/ schema_key config_params k)
  /\ forall row label i col cell,
      row ∈ rows -> find "th" None row = Some label ->
      SPLITS_ORDER config_params !! get_text label = Some i ->
      (col, cell) ∈ zip headers (find_all "td" None row) ->
      match dict_get (column_mapping config_params) col with
      | Some field => split_field i field ∈ dom res'
      | None =>
          Print (WarnUnknownField col runner_id)
          ∈ events (split_rows config_params runner_id headers rows res)
      end.
Proof.
  induction rows as [|row0 rows IH]; intros res res'.
  { intros [= <-]. split; [done|]. split; [by left|].
    by intros ? ? ? ? ? ?%elem_of_nil. }
  cbn [split_rows].
  destruct (find "th" None row0) as [label0|] eqn:Hlabel0; [|done].
  destruct (SPLITS_ORDER config_params !! get_text label0) as [i0|] eqn:Hi0.
  - rewrite outcome_bind, events_bind.
    destruct (split_cells_spec config_params runner_id i0
                (zip headers (find_all "td" None row0)) res)
      as (res1 & Hout & Hdom & Hkeys & Hrec & _ & Hwarn & _).
    rewrite Hout. intros Hrest.
    destruct (IH _ _ Hrest) as (Hdom' & Hkeys' & Hrows).
    split; [by etrans|]. split.
    { intros k Hk. destruct (Hkeys' k Hk) as [Hk1|?]; [|by right].
      destruct (Hkeys k Hk1) as [?|(field & Hfield & ->)]; [by left|].
      right. left. eauto using fields_of_values. }
    intros row label i col cell Hrow Hlabel Hi Hcell.
    apply elem_of_cons in Hrow as [->|Hrow].
    + rewrite Hlabel0 in Hlabel. injection Hlabel as <-.
      rewrite Hi0 in Hi. injection Hi as <-.
      destruct (dict_get (column_mapping config_params) col) as [field|] eqn:E.
      * apply Hdom'. eauto.
      * apply elem_of_app. left. eauto.
    + specialize (Hrows row label i col cell Hrow Hlabel Hi Hcell).
      destruct (dict_get (column_mapping config_params) col); [done|].
      apply elem_of_app. by right.
  - destruct (dict_get (splits_start config_params) (get_text label0))
      as [field0|] eqn:Hstart0.
    + destruct (find "td" None row0) as [cell0|]; [|done]. intros Hrest.
      destruct (IH _ _ Hrest) as (Hdom' & Hkeys' & Hrows).
      rewrite dom_insert in Hdom'.
      split; [intros k Hk; apply Hdom', elem_of_union; by right|]. split.
      { intros k Hk. destruct (Hkeys' k Hk) as [Hk1|?]; [|by right].
        rewrite dom_insert in Hk1.
        apply elem_of_union in Hk1 as [->%elem_of_singleton|?]; [|by left].
        right. right. eauto using dict_get_values. }
      intros row label i col cell Hrow Hlabel Hi Hcell.
      apply elem_of_cons in Hrow as [->|Hrow]; [congruence|].
      by apply (Hrows row label i col cell).
    + rewrite outcome_bind, events_bind.
      cbn [outcome events print emit fst snd]. intros Hrest.
      destruct (IH _ _ Hrest) as (Hdom' & Hkeys' & Hrows).
      split; [done|]. split; [done|].
      intros row label i col cell Hrow Hlabel Hi Hcell.
      apply elem_of_cons in Hrow as [->|Hrow]; [congruence|].
      specialize (Hrows row label i col cell Hrow Hlabel Hi Hcell).
      destruct (dict_get (column_mapping config_params) col); [done|].
      by right.
Qed.

(** *** What the table writes *)

Abbreviation write := (fun (m : gmap string string) (kv : string * string) =>
                         <[fst kv := snd kv]> m).

Lemma split_cells_outcome config_params runner_id i cells : forall res,
  outcome (split_cells config_params runner_id i cells res)
  = Ok (foldl write res
          (omap (fun c =>
                   (fun field => (split_field i field, get_text (snd c)))
                     <$> dict_get (column_mapping config_params) (fst c))
             cells)).
Proof.
  induction cells as [|[col cell] cells IH]; intros res; [done|].
  cbn [split_cells].
  destruct (dict_get (column_mapping config_params) col) as [field|] eqn:E.
  - rewrite IH. simpl. by rewrite E.
  - rewrite outcome_bind. cbn [outcome print emit snd]. rewrite IH. simpl.
    by rewrite E.
Qed.

Lemma split_rows_writes config_params runner_id headers rows :
  forall res res',
    outcome (split_rows config_params runner_id headers rows res) = Ok res' ->
    res' = foldl write res (table_writes config_params headers rows).
Proof.
  unfold table_writes.
  induction rows as [|row rows IH]; intros res res'; [by intros [= <-]|].
  cbn [split_rows flat_map]. unfold row_writes at 1.
  destruct (find "th" None row) as [label|]; [|done].
  destruct (SPLITS_ORDER config_params !! get_text label) as [i|].
  { rewrite outcome_bind, split_cells_outcome, foldl_app. apply IH. }
  destruct (dict_get (splits_start config_params) (get_text label))
    as [field|].
  - destruct (find "td" None row) as [cell|]; [|done]. apply IH.
  - rewrite outcome_bind. cbn [outcome print emit snd]. apply IH.
Qed.

(** A key holds the text written last under it. *)
Lemma foldl_write_lookup writes : forall (res : gmap string string) k,
  foldl write res writes !! k
  = match last_write k writes with
    | Some v => Some v
    | None => res !! k
    end.
Proof.
  unfold last_write.
  induction writes as [|[k0 v0] writes IH] using rev_ind; intros res k;
    [done|].
  rewrite foldl_app, List.filter_app. cbn [foldl List.filter fst snd].
  destruct (String.eqb_spec k0 k) as [->|Hne].
  - rewrite last_snoc. cbn. apply lookup_insert_eq.
  - rewrite app_nil_r, lookup_insert_ne by done. apply IH.
Qed.

Lemma last_write_elem k v writes : last_write k writes = Some v -> (k, v) ∈ writes.
Proof.
  unfold last_write.
  destruct (last _) as [[k' v']|] eqn:E; [|done]. intros [= <-].
  apply last_Some in E as [l' E].
  assert (In (k', v') (List.filter (fun kv => String.eqb (fst kv) k) writes))
    as Hin by (rewrite E; apply in_or_app; right; left; done).
  apply filter_In in Hin as [Hin Hk]. cbn [fst] in Hk.
  apply String.eqb_eq in Hk as ->. by apply list_elem_of_In.
Qed.

Lemma last_write_written k v writes :
  (k, v) ∈ writes -> is_Some (last_write k writes).
Proof.
  unfold last_write. intros Hin.
  assert (In (k, v) (List.filter (fun kv => String.eqb (fst kv) k) writes))
    as Hf.
  { apply filter_In. split; [by apply list_elem_of_In|].
    cbn [fst]. apply String.eqb_refl. }
  destruct (List.filter _ writes) as [|kv l] using rev_ind; [done|].
  rewrite last_snoc. by eexists.
Qed.

(** Every recognized column of a recognized row is among the writes. *)
Lemma recognized_cell_written config_params headers rows row label i col
    cell field :
  row ∈ rows -> find "th" None row = Some label ->
  SPLITS_ORDER config_params !! get_text label = Some i ->
  (col, cell) ∈ zip headers (find_all "td" None row) ->
  dict_get (column_mapping config_params) col = Some field ->
  (split_field i field, get_text cell)
  ∈ table_writes config_params headers rows.
Proof.
  intros Hrow Hlabel Hi Hcell Hfield. unfold table_writes.
  apply list_elem_of_In, in_flat_map. exists row.
  split; [by apply list_elem_of_In|]. apply list_elem_of_In.
  unfold row_writes. rewrite Hlabel, Hi. apply list_elem_of_omap.
  exists (col, cell). split; [done|]. cbn [fst snd]. by rewrite Hfield.
Qed.

(** C9, amended.  Without the personal region, or with a number of
    emphasized values other than five, [extract_personal] prints a warning
    and returns the empty dictionary; it cannot raise.  Five values are
    taken in the order found, whatever they are: the first is the event,
    the third the sex, the fourth the age and the fifth the residence, and
    nothing is printed.  In a splits table that [extract_splits] gets
    through, every column of a distance row whose header is recognized has
    its field in the result, every column whose header is not recognized
    is warned about, and the result has no key besides split fields of
    configured metrics and configured start fields.  Every key of the
    result holds the text written last under it, and the text of every
    recognized cell of every recognized row is among the texts written: a
    field under which nothing else is written holds the text of its cell.
    Within one distance row whose recognized headers name distinct fields,
    each field holds the text of its cell. *)
Theorem extraction_anomalies (config_params : config) (runner_id : Z) :
  (forall html_data,
      find "div" (Some "me-auto mb-3 mb-md-0") html_data = None ->
      extract_personal html_data runner_id
      = ([Print (WarnNoPersonal runner_id)], ∅))
  /\ (forall html_data personal,
        find "div" (Some "me-auto mb-3 mb-md-0") html_data = Some personal ->
        length (find_all "strong" (Some "text-primary") personal) <> 5%nat ->
        extract_personal html_data runner_id
        = ([Print (WarnPersonalFormat runner_id ValueError)], ∅))
  /\ (forall html_data splits_table first rows h headers res
             row label i col cell,
        find "div" (Some "detailedresultsseg") html_data = Some splits_table ->
        find_all "tr" None splits_table = first :: rows ->
        map get_text (find_all "th" None first) = h :: headers ->
        outcome (extract_splits html_data runner_id config_params) = Ok res ->
        row ∈ rows -> find "th" None row = Some label ->
        SPLITS_ORDER config_params !! get_text label = Some i ->
        (col, cell) ∈ zip headers (find_all "td" None row) ->
        match dict_get (column_mapping config_params) col with
        | Some field => split_field i field ∈ dom res
        | None =>
            Print (WarnUnknownField col runner_id)
            ∈ events (extract_splits html_data runner_id config_params)
        end)
  /\ (forall html_data res k,
        outcome (extract_splits html_data runner_id config_params) = Ok res ->
        k ∈ dom res -> schema_key config_params k)
  /\ (forall i cells res col cell,
        NoDup (fields_of config_params cells) -> (col, cell) ∈ cells ->
        exists res',
          outcome (split_cells config_params runner_id i cells res) = Ok res'
          /\ match dict_get (column_mapping config_params) col with
             | Some field => res' !! split_field i field = Some (get_text cell)
             | None =>
                 Print (WarnUnknownField col runner_id)
                 ∈ events (split_cells config_params runner_id i cells res)
             end)
  /\ (forall html_data personal event_ id_ sex age residence,
        find "div" (Some "me-auto mb-3 mb-md-0") html_data = Some personal ->
        map get_text (find_all "strong" (Some "text-primary") personal)
        = [event_; id_; sex; age; residence] ->
        extract_personal html_data runner_id
        = ([], <["residence" := residence]>
                 (<["age" := age]>
                    (<["sex" := sex]> (<["event" := event_]> ∅)))))
  /\ (forall html_data splits_table first rows h headers res,
        find "div" (Some "detailedresultsseg") html_data = Some splits_table ->
        find_all "tr" None splits_table = first :: rows ->
        map get_text (find_all "th" None first) = h :: headers ->
        outcome (extract_splits html_data runner_id config_params) = Ok res ->
        let writes := table_writes config_params headers rows in
        (forall k, res !! k = last_write k writes)
        /\ forall row label i col cell field,
            row ∈ rows -> find "th" None row = Some label ->
            SPLITS_ORDER config_params !! get_text label = Some i ->
            (col, cell) ∈ zip headers (find_all "td" None row) ->
            dict_get (column_mapping config_params) col = Some field ->
            (split_field i field, get_text cell) ∈ writes
            /\ ((forall v, (split_field i field, v) ∈ writes ->
                           v = get_text cell) ->
                res !! split_field i field = Some (get_text cell))).
Proof.
  split; [intros html_data; apply extract_personal_absent|].
  split; [intros html_data personal; apply extract_personal_count|].
  split; [|split].
  - intros html_data splits_table first rows h headers res row label i col
      cell Hdiv Htr Hth. unfold extract_splits. rewrite Hdiv, Htr, Hth.
    intros Hres. destruct (split_rows_spec _ _ _ _ _ _ Hres) as (_ & _ & H).
    apply H.
  - intros html_data res k. unfold extract_splits.
    destruct (find "div" _ html_data) as [splits_table|].
    2:{ rewrite outcome_bind. cbn. intros [= <-]. by rewrite dom_empty. }
    destruct (find_all "tr" None splits_table) as [|first rows]; [done|].
    destruct (map get_text _) as [|h headers]; [done|].
    intros Hres Hk. destruct (split_rows_spec _ _ _ _ _ _ Hres) as (_ & H & _).
    destruct (H k Hk) as [Hempty|?]; [|done]. by rewrite dom_empty in Hempty.
  - split; [|split].
    + intros i cells res col cell Hnodup Hcell.
      destruct (split_cells_spec config_params runner_id i cells res)
        as (res' & Hout & _ & _ & _ & Hval & Hwarn & _).
      exists res'. split; [done|].
      destruct (dict_get (column_mapping config_params) col) eqn:E; eauto.
    + intros html_data personal event_ id_ sex age residence Hdiv Hvalues.
      unfold extract_personal. by rewrite Hdiv, Hvalues.
    + intros html_data splits_table first rows h headers res Hdiv Htr Hth.
      unfold extract_splits. rewrite Hdiv, Htr, Hth. intros Hres.
      cbv zeta. set (writes := table_writes config_params headers rows).
      apply split_rows_writes in Hres.
      assert (forall k, res !! k = last_write k writes) as Hlast.
      { intros k. rewrite Hres, foldl_write_lookup. fold writes.
        by destruct (last_write k writes). }
      split; [done|].
      intros row label i col cell field Hrow Hlabel Hi Hcell Hfield.
      pose proof (recognized_cell_written _ _ _ _ _ _ _ _ _
                    Hrow Hlabel Hi Hcell Hfield) as Hin.
      fold writes in Hin. split; [done|]. intros Honly. rewrite Hlast.
      destruct (last_write_written _ _ _ Hin) as [v Hv]. rewrite Hv.
      f_equal. apply Honly. by apply last_write_elem.
Qed.

Lemma extraction_anomalies_witness :
  extract_personal page_unknown_header 7 = ([Print (WarnNoPersonal 7)], ∅)
  /\ "split_1_pace" ∈ dom
       (match outcome (extract_splits page_unknown_header 7 config_1_3) with
        | Ok res => res
        | Raise _ => ∅
        end)
  /\ Print (WarnUnknownField "Junk" 7)
     ∈ events (extract_splits page_unknown_header 7 config_1_3).
Proof.
  destruct (extraction_anomalies config_1_3 7) as (Habsent & _ & Hcol & _).
  split; [exact (Habsent page_unknown_header eq_refl)|].
  pose (table := Tag "div" ["detailedresultsseg"] [
      Tag "table" [] [
        tr [th "Location"; th "Time"; th "Junk"; th "Pace"];
        tr [th "5K"; td "0:20:00"; td "zz"; td "6:26"];
        tr [th "ChipStart"; td "8:00:01"]]]).
  pose (first := tr [th "Location"; th "Time"; th "Junk"; th "Pace"]).
  pose (row := tr [th "5K"; td "0:20:00"; td "zz"; td "6:26"]).
  pose (rows := [row; tr [th "ChipStart"; td "8:00:01"]]).
  pose (res := <["chip_start" := "8:00:01"]>
                 (<["split_1_pace" := "6:26"]>
                    (<["split_1_time" := "0:20:00"]> (∅ : gmap string string)))).
  assert (outcome (extract_splits page_unknown_header 7 config_1_3) = Ok res)
    as Hres by (vm_compute; reflexivity).
  split.
  - rewrite Hres.
    exact (Hcol page_unknown_header table first rows "Location"
             ["Time"; "Junk"; "Pace"] res row (th "5K") 1%nat "Pace" (td "6:26")
             eq_refl eq_refl eq_refl Hres
             ltac:(left) eq_refl eq_refl ltac:(right; right; left)).
  - exact (Hcol page_unknown_header table first rows "Location"
             ["Time"; "Junk"; "Pace"] res row (th "5K") 1%nat "Junk" (td "zz")
             eq_refl eq_refl eq_refl Hres
             ltac:(left) eq_refl eq_refl ltac:(right; left)).
Defined.

End ExtractFacts.

(** ** The session *)

Module ScrapeFacts.
Import Scrape Trace Samples EffFacts.

(** *** Start-up *)

(** C2, the claim as stated fails: with an output file that holds a row and
    no session file, start-up prints its remark and goes on to start a new
    session at the first ID of the pool, writing the output file anew; the
    row it held is gone. *)
Lemma start_session_incomplete_restarts :
  start_session config_1_3 one_row_no_session
  = ([Print MsgSessionIncomplete;
      WriteCsv (new_column_names config_1_3);
      Print (MsgNewSession 1)],
     Ok (new_column_names config_1_3,
         {| columns := new_column_names config_1_3; body := [] |}, 1))
  /\ output_file
       (replay one_row_no_session
          (events (start_session config_1_3 one_row_no_session)))
     = Some (Csv (new_column_names config_1_3) [])
  /\ output_file
       (replay one_row_no_session
          (events (start_session config_1_3 one_row_no_session)))
     <> output_file one_row_no_session.
Proof.
  split; [reflexivity|]. split; [reflexivity|]. vm_compute. discriminate.
Qed.

(** C2, amended.  When the output file exists and is readable, but the
    session file is missing or the output file has no rows, start-up prints
    that the session data is incomplete and then starts a new session
    without asking: the output file is written anew with the header of the
    full schema and no rows, and the run begins at the lower end of the
    first interval of the pool. *)
Theorem start_session_incomplete (config_params : config) (fs : files)
  (f : csv_file) (df : frame) (left_ right_ : Z) (pool : list (Z * Z))
  (Hfile : output_file fs = Some f)
  (Hread : read_csv f = Ok df)
  (Hincomplete : session_file fs = None \/ frame_empty df = true)
  (Hpool : scraping_runner_ids_pool config_params = (left_, right_) :: pool) :
  let column_names := new_column_names config_params in
  start_session config_params fs
  = ([Print MsgSessionIncomplete; WriteCsv column_names;
      Print (MsgNewSession left_)],
     Ok (column_names, {| columns := column_names; body := [] |}, left_))
  /\ replay fs (events (start_session config_params fs))
     = {| output_file := Some (Csv column_names []);
          session_file := session_file fs |}.
Proof.
  intros column_names.
  assert (try_resume fs = ([Print MsgSessionIncomplete], Ok NotResumed)) as E.
  { unfold try_resume. rewrite Hfile, Hread.
    destruct Hincomplete as [->| ->]; [|done].
    by destruct (negb (frame_empty df)). }
  assert (start_session config_params fs
          = ([Print MsgSessionIncomplete; WriteCsv column_names;
              Print (MsgNewSession left_)],
             Ok (column_names,
                 {| columns := column_names; body := [] |}, left_))) as E'.
  { unfold start_session. rewrite E, Hpool. reflexivity. }
  rewrite E'. split; reflexivity.
Qed.

Lemma start_session_incomplete_witness :
  outcome (start_session config_1_3 one_row_no_session)
  = Ok (new_column_names config_1_3,
        {| columns := new_column_names config_1_3; body := [] |}, 1).
Proof.
  pose proof (start_session_incomplete config_1_3 one_row_no_session
                (Csv ["runner_id"; "event"]
                   [[Some (VInt 1); Some (VStr "Marathon")]])
                {| columns := ["runner_id"; "event"];
                   body := [[Some (VInt 1); Some (VStr "Marathon")]] |}
                1 3 [] eq_refl eq_refl (or_introl eq_refl) eq_refl) as [E _].
  rewrite E. reflexivity.
Defined.

(** *** A request that fails *)

Lemma loop_body_request_failed config_params column_names runner_id st detail :
  loop_body config_params column_names (RequestFailed detail) runner_id st
  = ([Get runner_id (RequestFailed detail);
      Print (MsgErrorGetting runner_id detail); Sleep], Ok st).
Proof. by destruct st. Qed.

(** C8.  When the request for an ID ends in a [RequestException], the turn
    of the loop prints the error and leaves the batch and the count of
    saved entries as they were, nothing is written to either file, and the
    loop goes on with the next ID exactly as it would have from the same
    state: the failure ends neither the turn nor the run. *)
Theorem request_failure_is_skipped
  (config_params : config) (column_names : list string)
  (server : nat -> Z -> response) (n : nat) (runner_id : Z)
  (rest : list Z) (st : loop_state) (detail : string)
  (Hfail : server n runner_id = RequestFailed detail) :
  loop_body config_params column_names (server n runner_id) runner_id st
  = ([Get runner_id (RequestFailed detail);
      Print (MsgErrorGetting runner_id detail); Sleep], Ok st)
  /\ events (main_loop config_params column_names server n
               (runner_id :: rest) st)
     = [Get runner_id (RequestFailed detail);
        Print (MsgErrorGetting runner_id detail); Sleep]
       ++ events (main_loop config_params column_names server (S n) rest st)
  /\ outcome (main_loop config_params column_names server n
                (runner_id :: rest) st)
     = outcome (main_loop config_params column_names server (S n) rest st).
Proof.
  rewrite Hfail. split; [apply loop_body_request_failed|].
  cbn [main_loop]. rewrite Hfail, events_bind, outcome_bind.
  rewrite loop_body_request_failed. split; reflexivity.
Qed.

Lemma request_failure_is_skipped_witness :
  outcome (main_loop config_1_3 ["runner_id"] (server_failing_on 2) 1
             [2; 3] {| entries_batch := []; saved := 0 |})
  = outcome (main_loop config_1_3 ["runner_id"] (server_failing_on 2) 2
               [3] {| entries_batch := []; saved := 0 |}).
Proof.
  exact (proj2 (proj2 (request_failure_is_skipped config_1_3 ["runner_id"]
                         (server_failing_on 2) 1 2 [3]
                         {| entries_batch := []; saved := 0 |} "timed out"
                         eq_refl))).
Defined.

(** *** The closing summary *)

Lemma load_name_processed config_params runner_id_init total ids st :
  load_name (summary_scope config_params runner_id_init total ids st)
    "processed"
  = raise (NameError "processed").
Proof. unfold summary_scope. by destruct (last ids). Qed.

Lemma print_summary_raises config_params runner_id_init total ids st :
  print_summary (summary_scope config_params runner_id_init total ids st)
  = raise (NameError "processed").
Proof. unfold print_summary. by rewrite load_name_processed. Qed.

(** C4.  [scrape_race_data] never returns: whatever the configuration, the
    files and the server, a run that gets through the loop and the final
    batch ends in [NameError] on the name [processed] of its closing line,
    and the summary is not printed.  On a new session over the pool
    [[1, 3]] the two pages fetched are saved and the session file written
    before the run raises. *)
Theorem scrape_race_data_never_returns (config_params : config) (fs : files)
  (server : nat -> Z -> response) :
  (forall df, outcome (scrape_race_data config_params fs server) <> Ok df)
  /\ outcome (scrape_race_data config_1_3 no_files (server_failing_on 2))
     = Raise (NameError "processed")
  /\ existsb is_completed
       (events (scrape_race_data config_1_3 no_files (server_failing_on 2)))
     = false
  /\ session_file
       (replay no_files
          (events (scrape_race_data config_1_3 no_files (server_failing_on 2))))
     = Some "3".
Proof.
  split; [|by vm_compute].
  intros df. unfold scrape_race_data. rewrite outcome_bind.
  destruct (outcome (start_session config_params fs))
    as [[[column_names df0] runner_id_init]|e]; [|done].
  rewrite (outcome_bind (print _)). cbn [outcome print emit snd].
  rewrite outcome_bind.
  destruct (outcome (main_loop _ _ _ _ _ _)) as [st|e]; [|done].
  rewrite outcome_bind.
  destruct (outcome (final_flush _ _ _)) as [st'|e]; [|done].
  rewrite outcome_bind, print_summary_raises. done.
Qed.

(** *** Flushes and the session file *)

Section Trace.
Variable config_params : config.
Variable column_names : list string.

Abbreviation fetched := (fetched config_params column_names).

Lemma audit_app P evs1 : forall pre evs2,
  audit P pre (evs1 ++ evs2)
  <-> audit P pre evs1 /\ audit P (pre ++ evs1) evs2.
Proof.
  induction evs1 as [|ev evs1 IH]; intros pre evs2; simpl.
  - rewrite app_nil_r. tauto.
  - rewrite IH, <- app_assoc. simpl. tauto.
Qed.

Lemma audit_split P evs : forall pre p c q,
  audit P pre evs -> evs = p ++ WriteSession c :: q -> P (pre ++ p) c.
Proof.
  intros pre p c q H ->. apply audit_app in H as [_ [H _]]. exact H.
Qed.

Lemma audit_quiet P evs : forall pre,
  existsb writes_session evs = false -> audit P pre evs.
Proof.
  induction evs as [|ev evs IH]; intros pre; simpl; [done|].
  intros [Hev Hevs]%orb_false_iff. split; [by destruct ev | by apply IH].
Qed.

Lemma prints_quiet evs :
  only_prints evs -> existsb writes_session evs = false.
Proof.
  induction evs as [|ev evs IH]; [done|]. unfold only_prints.
  simpl. intros [Hev Hevs]%andb_true_iff. rewrite IH by done.
  by destruct ev.
Qed.

Lemma fetched_app evs1 evs2 : fetched (evs1 ++ evs2) = fetched evs1 ++ fetched evs2.
Proof. apply flat_map_app. Qed.

Lemma appended_app evs1 evs2 :
  appended (evs1 ++ evs2) = appended evs1 ++ appended evs2.
Proof. apply flat_map_app. Qed.

Lemma requested_app evs1 evs2 :
  requested (evs1 ++ evs2) = requested evs1 ++ requested evs2.
Proof. apply flat_map_app. Qed.

Lemma checkpoints_app evs1 evs2 :
  checkpoints (evs1 ++ evs2) = checkpoints evs1 ++ checkpoints evs2.
Proof. apply flat_map_app. Qed.

Lemma prints_silent evs :
  only_prints evs ->
  fetched evs = [] /\ appended evs = [] /\ requested evs = []
  /\ checkpoints evs = [].
Proof.
  induction evs as [|ev evs IH]; [done|]. unfold only_prints.
  simpl. intros [Hev Hevs]%andb_true_iff.
  destruct (IH Hevs) as (H1 & H2 & H3 & H4).
  destruct ev; try discriminate. simpl. by rewrite H1, H2, H3, H4.
Qed.

End Trace.

Section Loop.
Variable config_params : config.
Variable column_names : list string.

Abbreviation fetched := (fetched config_params column_names).
Abbreviation fetched_of := (fetched_of config_params column_names).
Abbreviation durable := (durable config_params column_names).
Abbreviation rows_of := (rows_of column_names).
Abbreviation accounted := (accounted config_params column_names).
Abbreviation add_entry := (add_entry config_params).
Abbreviation flush_if_due := (flush_if_due config_params column_names).

Lemma fetch_entry_prints runner_id html_data :
  only_prints
    (events (fetch_entry config_params runner_id html_data)).
Proof.
  unfold fetch_entry.
  pose proof (ExtractFacts.extract_personal_prints html_data runner_id) as Hp.
  destruct (Extract.extract_personal html_data runner_id) as [w personal].
  apply ExtractFacts.only_prints_bind; [exact Hp|]. intros _.
  apply ExtractFacts.only_prints_bind; [|done].
  apply ExtractFacts.extract_splits_prints.
Qed.

Lemma flush_due_events runner_id batch :
  events (flush_due config_params runner_id batch) = [].
Proof.
  unfold flush_due, py_mod.
  destruct (_ <=? len batch); [done|]. by destruct (_ =? 0).
Qed.

(** A flush appends, prints at most one line, and writes the session file;
    or it appends and raises on a batch size of zero. *)
Lemma flush_cases runner_id st :
  (exists mid,
      only_prints mid
      /\ flush config_params column_names runner_id st
         = ([AppendCsv (rows_of (entries_batch st))] ++ mid
              ++ [WriteSession runner_id],
            Ok {| entries_batch := [];
                  saved := saved st + len (entries_batch st) |}))
  \/ flush config_params column_names runner_id st
     = ([AppendCsv (rows_of (entries_batch st))], Raise ZeroDivisionError).
Proof.
  unfold flush, py_mod.
  destruct (scraping_batch_size config_params * 2 =? 0); [by right|].
  left. unfold bind, emit, print, emit, ret. simpl.
  destruct (runner_id mod (scraping_batch_size config_params * 2) =? 0).
  - exists [Print (MsgLastProcessed runner_id
                     (saved st + len (entries_batch st)))].
    split; reflexivity.
  - exists []. split; reflexivity.
Qed.

Lemma trace_append rows :
  fetched [AppendCsv rows] = [] /\ appended [AppendCsv rows] = rows
  /\ requested [AppendCsv rows] = [].
Proof. repeat split. apply app_nil_r. Qed.

Lemma trace_write c :
  fetched [WriteSession c] = [] /\ appended [WriteSession c] = []
  /\ requested [WriteSession c] = [].
Proof. done. Qed.

Lemma flush_audit runner_id st pre :
  accounted pre st -> last (requested pre) = Some runner_id ->
  audit durable pre (events (flush config_params column_names runner_id st))
  /\ requested (events (flush config_params column_names runner_id st)) = []
  /\ forall st',
      outcome (flush config_params column_names runner_id st) = Ok st' ->
      accounted (pre ++ events (flush config_params column_names runner_id st))
        st'.
Proof.
  intros Hacc Hlast. unfold accounted in *.
  destruct (trace_append (rows_of (entries_batch st))) as (Hf1 & Ha1 & Hr1).
  destruct (trace_write runner_id) as (Hf2 & Ha2 & Hr2).
  destruct (flush_cases runner_id st) as [(mid & Hmid & ->)| ->];
    cbn [events outcome fst snd].
  - destruct (prints_silent config_params column_names mid Hmid)
      as (Hf & Ha & Hr & _).
    split; [|split].
    + rewrite !audit_app. split; [by split|]. split.
      { apply audit_quiet. by apply prints_quiet. }
      split; [|done]. split; [|split].
      * exists pre, (rows_of (entries_batch st)), mid.
        by rewrite <- app_assoc.
      * rewrite !fetched_app, !appended_app, Hf, Ha, Hf1, Ha1, Hacc.
        by rewrite !app_nil_r.
      * rewrite !requested_app, Hr, Hr1. by rewrite !app_nil_r.
    + by rewrite !requested_app, Hr, Hr1, Hr2.
    + intros st' [= <-].
      rewrite !fetched_app, !appended_app, Hf, Ha, Hf1, Ha1, Hf2, Ha2, Hacc.
      cbn [entries_batch map]. by rewrite !app_nil_r.
  - split; [by split|]. split; [done|]. intros st' [=].
Qed.

Lemma trace_get runner_id r :
  fetched [Get runner_id r] = fetched_of runner_id r
  /\ appended [Get runner_id r] = []
  /\ requested [Get runner_id r] = [runner_id].
Proof. repeat split. apply app_nil_r. Qed.

Lemma add_entry_prints status_code html_data runner_id batch :
  only_prints
    (events (add_entry status_code html_data runner_id batch)).
Proof.
  unfold add_entry. destruct (status_code =? 200); [|done].
  apply ExtractFacts.only_prints_bind; [apply fetch_entry_prints | done].
Qed.

Lemma add_entry_rows status_code html_data runner_id batch batch' :
  outcome (add_entry status_code html_data runner_id batch) = Ok batch' ->
  rows_of batch'
  = rows_of batch ++ fetched_of runner_id (Response status_code html_data).
Proof.
  unfold add_entry, Trace.fetched_of.
  destruct (status_code =? 200).
  - rewrite outcome_bind.
    destruct (outcome (fetch_entry _ _ _)) as [e|x]; [|done].
    intros [= <-]. unfold Trace.rows_of. by rewrite map_app.
  - intros [= <-]. by rewrite app_nil_r.
Qed.

Lemma loop_body_response status_code html_data runner_id st :
  loop_body config_params column_names (Response status_code html_data)
    runner_id st
  = (emit (Get runner_id (Response status_code html_data)) ;;
     do st' <-
       (do batch <- add_entry status_code html_data runner_id
                      (entries_batch st);
        flush_if_due runner_id
          {| entries_batch := batch; saved := saved st |});
     emit Sleep ;; ret st').
Proof. reflexivity. Qed.

Lemma flush_if_due_audit runner_id st pre :
  accounted pre st -> last (requested pre) = Some runner_id ->
  audit durable pre (events (flush_if_due runner_id st))
  /\ requested (events (flush_if_due runner_id st)) = []
  /\ forall st',
      outcome (flush_if_due runner_id st) = Ok st' ->
      accounted (pre ++ events (flush_if_due runner_id st)) st'.
Proof.
  intros Hacc Hlast. unfold flush_if_due.
  rewrite events_bind, outcome_bind, flush_due_events. cbn [app].
  destruct (outcome (flush_due _ _ _)) as [[|]|x].
  - by apply flush_audit.
  - split; [done|]. split; [done|]. intros st' [= <-].
    by rewrite app_nil_r.
  - split; [done|]. split; [done|]. intros st' [=].
Qed.

Lemma last_app_singleton {A} (l : list A) x : last (l ++ [x]) = Some x.
Proof. apply last_snoc. Qed.

(** One turn of the loop keeps the account, and every write of the session
    file in it is durable. *)
Lemma loop_body_audit r runner_id st pre :
  accounted pre st ->
  let turn := loop_body config_params column_names r runner_id st in
  audit durable pre (events turn)
  /\ requested (events turn) = [runner_id]
  /\ forall st', outcome turn = Ok st' -> accounted (pre ++ events turn) st'.
Proof.
  intros Hacc turn. subst turn. unfold accounted in *.
  destruct (trace_get runner_id r) as (Hf0 & Ha0 & Hr0).
  destruct r as [status_code html_data|detail].
  2:{ rewrite loop_body_request_failed. cbn [events outcome fst snd].
      split; [by repeat split|]. split; [done|]. intros st' [= <-].
      change ([Get runner_id (RequestFailed detail);
               Print (MsgErrorGetting runner_id detail); Sleep])
        with ([Get runner_id (RequestFailed detail)]
              ++ [Print (MsgErrorGetting runner_id detail); Sleep]).
      rewrite !fetched_app, !appended_app, Hf0, Ha0, Hacc. cbn.
      by rewrite !app_nil_r. }
  pose proof (add_entry_prints status_code html_data runner_id
                (entries_batch st)) as Hprints.
  pose proof (add_entry_rows status_code html_data runner_id
                (entries_batch st)) as Hrows.
  destruct (prints_silent config_params column_names _ Hprints)
    as (Hf1 & Ha1 & Hr1 & _).
  set (G := Get runner_id (Response status_code html_data)) in *.
  assert (exists F o,
             loop_body config_params column_names
               (Response status_code html_data) runner_id st
             = ([G] ++ events (add_entry status_code html_data runner_id
                                 (entries_batch st)) ++ F, o)
             /\ match outcome (add_entry status_code html_data runner_id
                                 (entries_batch st)) with
                | Raise x => F = [] /\ o = Raise x
                | Ok batch =>
                    let flushed :=
                      flush_if_due runner_id
                        {| entries_batch := batch; saved := saved st |} in
                    match outcome flushed with
                    | Ok st2 => F = events flushed ++ [Sleep] /\ o = Ok st2
                    | Raise x => F = events flushed /\ o = Raise x
                    end
                end) as (F & o & -> & HF).
  { rewrite loop_body_response.
    destruct (add_entry status_code html_data runner_id (entries_batch st))
      as [W [batch|x]]; cbn [events outcome fst snd].
    2:{ exists [], (Raise x). split; [|done]. by rewrite app_nil_r. }
    destruct (flush_if_due runner_id
                {| entries_batch := batch; saved := saved st |})
      as [F [st2|x]] eqn:E; cbn [events outcome fst snd].
    - exists (F ++ [Sleep]), (Ok st2). split; [|done].
      unfold bind at 1 2 3. cbn [emit]. rewrite E.
      unfold bind, emit, ret. simpl. by rewrite <- !app_assoc.
    - exists F, (Raise x). split; [|done].
      unfold bind at 1 2 3. cbn [emit]. rewrite E. reflexivity. }
  cbn [events outcome fst snd].
  set (W := events (add_entry status_code html_data runner_id
                      (entries_batch st))) in *.
  destruct (outcome (add_entry _ _ _ _)) as [batch|x].
  2:{ destruct HF as [-> ->]. rewrite !app_nil_r. split.
      { rewrite audit_app. split; [by split|].
        apply audit_quiet. by apply prints_quiet. }
      split; [|intros st' [=]].
      by rewrite requested_app, Hr0, Hr1. }
  specialize (Hrows batch eq_refl). cbn zeta in HF.
  set (st1 := {| entries_batch := batch; saved := saved st |}) in *.
  destruct (flush_if_due_audit runner_id st1 (pre ++ [G] ++ W))
    as (Haudit & Hreq & Hnext).
  { unfold accounted.
    rewrite !fetched_app, !appended_app, Hf0, Ha0, Hf1, Ha1, Hacc.
    cbn [entries_batch st1]. rewrite Hrows, !app_nil_r.
    by rewrite <- app_assoc. }
  { rewrite !requested_app, Hr0, Hr1, app_nil_r. apply last_app_singleton. }
  assert (audit durable pre ([G] ++ W ++ events (flush_if_due runner_id st1)))
    as Haudit'.
  { rewrite !audit_app. split; [by split|]. split.
    - apply audit_quiet. by apply prints_quiet.
    - by rewrite <- app_assoc. }
  destruct (outcome (flush_if_due runner_id st1)) as [st2|x];
    destruct HF as [-> ->].
  - split.
    { rewrite !app_assoc, audit_app. split; [|by split].
      by rewrite <- !app_assoc. }
    split.
    { by rewrite !requested_app, Hr0, Hr1, Hreq. }
    intros st' [= <-]. specialize (Hnext st2 eq_refl).
    unfold accounted in Hnext.
    rewrite !app_assoc, fetched_app, appended_app.
    change (fetched [Sleep]) with (@nil csv_row).
    change (appended [Sleep]) with (@nil csv_row).
    rewrite !app_nil_r. rewrite <- !app_assoc in Hnext |- *. exact Hnext.
  - split; [done|]. split; [|intros st' [=]].
    by rewrite !requested_app, Hr0, Hr1, Hreq.
Qed.

Variable server : nat -> Z -> response.

(** The loop keeps the account; it requests the IDs in their order, all of
    them when it ends without raising. *)
Lemma main_loop_audit ids : forall n st pre,
  accounted pre st ->
  let run := main_loop config_params column_names server n ids st in
  audit durable pre (events run)
  /\ (exists k, requested (events run) = take k ids)
  /\ forall st', outcome run = Ok st' ->
       accounted (pre ++ events run) st' /\ requested (events run) = ids.
Proof.
  induction ids as [|runner_id ids IH]; intros n st pre Hacc; cbn zeta.
  - cbn [main_loop events outcome ret fst snd]. split; [done|].
    split; [by exists 0%nat|]. intros st' [= <-]. by rewrite app_nil_r.
  - cbn [main_loop]. rewrite events_bind, outcome_bind.
    destruct (loop_body_audit (server n runner_id) runner_id st pre Hacc)
      as (Haudit & Hreq & Hnext).
    destruct (outcome (loop_body _ _ _ _ _)) as [st1|x].
    + specialize (Hnext st1 eq_refl).
      destruct (IH (S n) st1 _ Hnext) as (Haudit' & [k Hreq'] & Hnext').
      split; [by rewrite audit_app|]. split.
      * exists (S k). by rewrite requested_app, Hreq, Hreq'.
      * intros st' Hst'. destruct (Hnext' st' Hst') as [Hacc' Hids].
        split; [by rewrite app_assoc|].
        by rewrite requested_app, Hreq, Hids.
    + rewrite app_nil_r. split; [done|]. split; [|intros st' [=]].
      exists 1%nat. by rewrite Hreq.
Qed.

(** The final batch is appended before the session file is written with
    the last ID of the loop. *)
Lemma final_flush_audit ids st pre :
  accounted pre st -> requested pre = ids ->
  audit durable pre (events (final_flush column_names ids st))
  /\ requested (events (final_flush column_names ids st)) = [].
Proof.
  intros Hacc Hreq. unfold final_flush, accounted in *.
  destruct (entries_batch st) as [|e batch] eqn:Hbatch; [done|].
  fold (rows_of (e :: batch)) in *.
  destruct (last ids) as [runner_id|] eqn:Hlast.
  - unfold bind, emit, ret. cbn [events outcome fst snd app].
    destruct (trace_append (rows_of (e :: batch))) as (Hf1 & Ha1 & Hr1).
    split; [|done]. split; [done|]. split; [|done]. split; [|split].
    + exists pre, (rows_of (e :: batch)), []. done.
    + by rewrite fetched_app, appended_app, Hf1, Ha1, Hacc, app_nil_r.
    + by rewrite requested_app, Hr1, app_nil_r, Hreq.
  - unfold bind, emit, raise. cbn [events outcome fst snd app]. done.
Qed.

End Loop.


(** *** The run as a whole *)

Section Run.
Variable config_params : config.
Variable fs : files.
Variable server : nat -> Z -> response.

Lemma keep_header_app evs1 evs2 :
  keep_header evs1 -> keep_header evs2 -> keep_header (evs1 ++ evs2).
Proof. unfold keep_header. rewrite forallb_app. by intros -> ->. Qed.

Lemma keep_header_bind {A B} (m : eff A) (k : A -> eff B) :
  keep_header (events m) -> (forall a, keep_header (events (k a))) ->
  keep_header (events (bind m k)).
Proof.
  intros Hm Hk. rewrite events_bind. apply keep_header_app; [done|].
  destruct (outcome m); [apply Hk | done].
Qed.

Lemma prints_keep_header evs : only_prints evs -> keep_header evs.
Proof.
  unfold only_prints, keep_header.
  induction evs as [|ev evs IH]; [done|]. simpl.
  intros [Hev Hevs]%andb_true_iff. rewrite IH by done. by destruct ev.
Qed.

Lemma loop_body_keeps_header column_names r runner_id st :
  keep_header (events (loop_body config_params column_names r runner_id st)).
Proof.
  destruct r as [status_code html_data|detail];
    [|by rewrite loop_body_request_failed].
  rewrite loop_body_response.
  apply keep_header_bind; [done|]. intros _.
  apply keep_header_bind; [|done].
  apply keep_header_bind.
  { apply prints_keep_header, add_entry_prints. }
  intros batch. unfold flush_if_due.
  apply keep_header_bind; [by rewrite flush_due_events|]. intros [|]; [|done].
  destruct (flush_cases config_params column_names runner_id
              {| entries_batch := batch; saved := saved st |})
    as [(mid & Hmid & ->)| ->]; [|done].
  cbn [events fst]. apply keep_header_app; [done|].
  apply keep_header_app; [by apply prints_keep_header | done].
Qed.

Lemma main_loop_keeps_header column_names ids : forall n st,
  keep_header
    (events (main_loop config_params column_names server n ids st)).
Proof.
  induction ids as [|runner_id ids IH]; intros n st; [done|].
  cbn [main_loop]. apply keep_header_bind; [|intros st'; apply IH].
  apply loop_body_keeps_header.
Qed.

Lemma final_flush_keeps_header column_names ids st :
  keep_header (events (final_flush column_names ids st)).
Proof.
  unfold final_flush. destruct (entries_batch st); [done|].
  by destruct (last ids).
Qed.

(** While the header is left alone, the rows appended pile up in the
    output file. *)
Lemma replay_app fs0 evs1 evs2 :
  replay fs0 (evs1 ++ evs2) = replay (replay fs0 evs1) evs2.
Proof. apply foldl_app. Qed.

Lemma replay_keep_header evs : forall fs0 header old,
  keep_header evs -> output_file fs0 = Some (Csv header old) ->
  output_file (replay fs0 evs) = Some (Csv header (old ++ appended evs)).
Proof.
  unfold keep_header.
  induction evs as [|ev evs IH]; intros fs0 header old Hkeep Hfile.
  - by rewrite app_nil_r.
  - simpl in Hkeep. apply andb_true_iff in Hkeep as [Hev Hevs].
    change (replay fs0 (ev :: evs)) with (replay (apply_event fs0 ev) evs).
    destruct ev; try discriminate; cbn [appended flat_map app].
    + apply IH; [done|]. done.
    + rewrite app_assoc. apply IH; [done|]. simpl. by rewrite Hfile.
    + apply IH; [done|]. done.
    + apply IH; [done|]. done.
    + apply IH; [done|]. done.
Qed.

Lemma start_session_startup_only :
  startup_only (events (start_session config_params fs)).
Proof.
  unfold start_session, try_resume, startup_only.
  unfold bind, print, emit, ret, raise.
  repeat (case_match; simplify_eq/=; try done).
Qed.

Lemma startup_silent column_names evs :
  startup_only evs ->
  fetched config_params column_names evs = []
  /\ appended evs = [] /\ requested evs = []
  /\ existsb writes_session evs = false.
Proof.
  unfold startup_only.
  induction evs as [|ev evs IH]; [done|]. simpl.
  intros [Hev Hevs]%andb_true_iff.
  destruct (IH Hevs) as (H1 & H2 & H3 & H4).
  destruct ev; try discriminate; simpl; by rewrite ?H1, ?H2, ?H3, ?H4.
Qed.

Lemma start_session_file column_names df runner_id_init :
  outcome (start_session config_params fs)
  = Ok (column_names, df, runner_id_init) ->
  exists header old,
    output_file (replay fs (events (start_session config_params fs)))
    = Some (Csv header old).
Proof.
  unfold start_session, try_resume.
  unfold bind, print, emit, ret, raise.
  destruct (output_file fs) as [[|header rows]|] eqn:Hfile; try done;
    cbn [read_csv];
    repeat (case_match; simplify_eq/=; try done); intros _;
    unfold replay; simpl; rewrite ?Hfile; eauto.
Qed.

Lemma scrape_race_data_events column_names df runner_id_init :
  outcome (start_session config_params fs)
  = Ok (column_names, df, runner_id_init) ->
  let pool := scraping_runner_ids_pool config_params in
  let ids := runner_ids runner_id_init pool in
  let run := main_loop config_params column_names server 0 ids
               {| entries_batch := []; saved := len (body df) |} in
  events (scrape_race_data config_params fs server)
  = events (start_session config_params fs)
    ++ [Print (MsgTotal (total_ids runner_id_init pool))]
    ++ events run
    ++ match outcome run with
       | Ok st => events (final_flush column_names ids st)
       | Raise _ => []
       end.
Proof.
  intros Hstart pool ids run. unfold scrape_race_data.
  rewrite events_bind, Hstart. cbv beta iota. f_equal.
  fold pool ids. rewrite (events_bind (print _)).
  cbn [events outcome print emit fst snd]. f_equal.
  rewrite events_bind. fold run. f_equal.
  destruct (outcome run) as [st|x]; [|done].
  rewrite events_bind.
  destruct (outcome (final_flush column_names ids st)) as [st'|x];
    [|by rewrite app_nil_r].
  rewrite events_bind, print_summary_raises. cbn. by rewrite app_nil_r.
Qed.

(** What the run has in its output file before each write of the session
    file, and where the session file stands. *)
Lemma scrape_race_data_audit column_names df runner_id_init :
  outcome (start_session config_params fs)
  = Ok (column_names, df, runner_id_init) ->
  let ids := runner_ids runner_id_init (scraping_runner_ids_pool config_params) in
  let evs := events (scrape_race_data config_params fs server) in
  audit (durable config_params column_names) [] evs
  /\ (exists k, requested evs = take k ids)
  /\ exists header old, forall pre c post,
       evs = pre ++ WriteSession c :: post ->
       output_file (replay fs pre)
       = Some (Csv header (old ++ appended pre)).
Proof.
  intros Hstart ids evs. subst evs.
  rewrite (scrape_race_data_events _ _ _ Hstart). cbv zeta. fold ids.
  set (S := events (start_session config_params fs)).
  set (T := Print (MsgTotal _)).
  set (run := main_loop _ _ _ _ _ _).
  destruct (startup_silent column_names S start_session_startup_only)
    as (Hf & Ha & Hr & Hw).
  assert (accounted config_params column_names (S ++ [T])
            {| entries_batch := []; saved := len (body df) |}) as Hacc.
  { unfold accounted. by rewrite fetched_app, appended_app, Hf, Ha. }
  destruct (main_loop_audit config_params column_names server ids 0 _ _ Hacc)
    as (Haudit & [k Hk] & Hnext). fold run in Haudit, Hk, Hnext.
  set (F := match outcome run with
            | Ok st => events (final_flush column_names ids st)
            | Raise _ => []
            end).
  assert (audit (durable config_params column_names)
            ((S ++ [T]) ++ events run) F
          /\ requested F = [] /\ keep_header F) as (HauditF & HrF & HkF).
  { subst F. destruct (outcome run) as [st|x]; [|done].
    destruct (Hnext st eq_refl) as [Hacc' Hids].
    destruct (final_flush_audit config_params column_names ids st
                ((S ++ [T]) ++ events run) Hacc') as [H1 H2].
    { by rewrite !requested_app, Hr, Hids. }
    split; [done|]. split; [done|]. apply final_flush_keeps_header. }
  split; [|split].
  - rewrite (app_assoc S), audit_app. split.
    { apply audit_quiet. rewrite existsb_app, Hw. done. }
    rewrite audit_app. done.
  - exists k. by rewrite !requested_app, Hr, HrF, Hk, app_nil_r.
  - destruct (start_session_file _ _ _ Hstart) as (header & old & Hfile).
    exists header, old. intros pre c post Hsplit.
    apply app_eq_inv in Hsplit as [(mid & HS & Hmid)|(mid & -> & Hmid)].
    + (* the write would be part of start-up *)
      exfalso. destruct mid as [|ev mid]; [by subst T|].
      injection Hmid as <- _. rewrite HS, existsb_app in Hw. simpl in Hw.
      by rewrite orb_true_r in Hw.
    + rewrite replay_app. fold S in Hfile.
      rewrite (replay_keep_header mid _ header old); [| |done].
      * by rewrite appended_app, Ha.
      * assert (keep_header ([T] ++ events run ++ F)) as Hkeep.
        { apply keep_header_app; [done|]. apply keep_header_app; [|done].
          apply main_loop_keeps_header. }
        rewrite Hmid in Hkeep. unfold keep_header in *.
        rewrite forallb_app in Hkeep. by apply andb_true_iff in Hkeep as [? _].
Qed.

(** C1, amended.  In every run that gets past start-up, each write of the
    session file, in the loop or after it, comes right after an append to
    the output file, with at most a progress line in between.  At that
    moment every row fetched by the run so far has been appended, so the
    output file ends with exactly these rows, and the ID written is the one
    requested last and is not below the ID the run started at.  When the
    intervals of the pool are disjoint and in ascending order, the IDs
    written to the session file never decrease. *)
Theorem session_file_follows_output
  (column_names : list string) (df : frame) (runner_id_init : Z)
  (Hstart : outcome (start_session config_params fs)
            = Ok (column_names, df, runner_id_init)) :
  let evs := events (scrape_race_data config_params fs server) in
  (forall pre c post,
      evs = pre ++ WriteSession c :: post ->
      appended_just_before pre
      /\ fetched config_params column_names pre = appended pre
      /\ (exists header old,
             output_file (replay fs pre)
             = Some (Csv header
                       (old ++ fetched config_params column_names pre)))
      /\ last (requested pre) = Some c
      /\ runner_id_init <= c)
  /\ (PoolSpec.ascending (scraping_runner_ids_pool config_params) = true ->
      forall pre c mid c' post,
        evs = pre ++ WriteSession c :: mid ++ WriteSession c' :: post ->
        c <= c').
Proof.
  intros evs.
  destruct (scrape_race_data_audit _ _ _ Hstart)
    as (Haudit & [k Hk] & header & old & Hfile).
  fold evs in Haudit, Hk, Hfile.
  set (ids := runner_ids runner_id_init
                (scraping_runner_ids_pool config_params)) in *.
  assert (forall pre c post, evs = pre ++ WriteSession c :: post ->
            durable config_params column_names pre c) as Hdurable.
  { intros pre c post Hsplit. exact (audit_split _ _ [] pre c post Haudit Hsplit). }
  split.
  - intros pre c post Hsplit.
    destruct (Hdurable _ _ _ Hsplit) as (Hjust & Hsame & Hlast).
    split; [done|]. split; [done|]. split; [|split; [done|]].
    + exists header, old. rewrite Hsame. by eapply Hfile.
    + apply last_Some_elem_of in Hlast.
      assert (c ∈ ids) as Hin.
      { apply (subseteq_take k). rewrite <- Hk, Hsplit, requested_app.
        apply elem_of_app. by left. }
      by apply PoolFacts.elem_of_runner_ids in Hin as [? _].
  - intros Hasc pre c mid c' post Hsplit.
    assert (StronglySorted Z.lt (requested evs)) as Hsorted.
    { rewrite Hk. apply (StronglySorted_app_1_l _ _ (drop k ids)).
      rewrite take_drop. by apply PoolFacts.runner_ids_sorted. }
    destruct (Hdurable pre c _ Hsplit) as (_ & _ & Hc).
    destruct (Hdurable (pre ++ WriteSession c :: mid) c' post) as (_ & _ & Hc').
    { by rewrite Hsplit, <- app_assoc. }
    change (WriteSession c :: mid) with ([WriteSession c] ++ mid) in Hc'.
    rewrite !requested_app in Hc'. cbn [requested flat_map app] in Hc'.
    fold (requested mid) in Hc'.
    apply last_app_Some in Hc' as [Hmid|[_ Hpre]]; [|by simplify_eq].
    apply last_Some_elem_of in Hc, Hmid.
    change (WriteSession c :: mid ++ WriteSession c' :: post)
      with ([WriteSession c] ++ mid ++ WriteSession c' :: post) in Hsplit.
    rewrite Hsplit, !requested_app in Hsorted.
    cbn [requested flat_map app] in Hsorted. fold (requested mid) in Hsorted.
    assert (c < c'); [|lia].
    eapply (StronglySorted_app_1_elem_of _ _ _ c c' Hsorted); [done|].
    apply elem_of_app. by left.
Qed.

End Run.

Lemma session_file_follows_output_witness :
  let evs := events (scrape_race_data config_batch_1 no_files
                       (server_failing_on 2)) in
  fetched config_batch_1 (new_column_names config_batch_1) (take 7 evs)
  = appended (take 7 evs)
  /\ 1 <= 3.
Proof.
  intros evs.
  destruct (session_file_follows_output config_batch_1 no_files
              (server_failing_on 2) (new_column_names config_batch_1)
              {| columns := new_column_names config_batch_1; body := [] |}
              1 eq_refl) as [Hflush Hmono].
  split.
  - refine (proj1 (proj2 (Hflush (take 7 evs) 1 (drop 8 evs) _))).
    vm_compute. reflexivity.
  - refine (Hmono eq_refl (take 7 evs) 1 (take 8 (drop 8 evs)) 3
              (drop 17 evs) _).
    vm_compute. reflexivity.
Defined.

(** C1, the claim as stated fails on a pool whose intervals overlap: the
    session file goes from 3 back to 2. *)
Lemma session_file_steps_back :
  checkpoints (events (scrape_race_data config_overlap no_files server_ok))
  = [1; 2; 3; 2; 3; 4]
  /\ ~ StronglySorted Z.le
        (checkpoints
           (events (scrape_race_data config_overlap no_files server_ok))).
Proof.
  assert (checkpoints
            (events (scrape_race_data config_overlap no_files server_ok))
          = [1; 2; 3; 2; 3; 4]) as E by (vm_compute; reflexivity).
  rewrite E. split; [done|]. intros H.
  apply StronglySorted_cons in H as [_ H].
  apply StronglySorted_cons in H as [_ H].
  apply StronglySorted_cons in H as [H _].
  apply Forall_cons in H as [H _]. lia.
Qed.


End ScrapeFacts.

(** ** Pages that stop the run *)

Module AnomalyFacts.
Import Extract Scrape Trace Samples EffFacts.

(** C7.  [extract_splits] raises on a splits region of an unexpected shape:
    [StopIteration] when the region has no row, [IndexError] when its first
    row has no header cell, [AttributeError] when a row has no label cell or
    a start row no value cell.  Nothing catches these: on the pool [[1, 3]]
    a server that answers with such a page ends the run at the first ID,
    the other IDs are never requested and nothing is saved. *)
Theorem extract_splits_raises_on_irregular_table :
  outcome (extract_splits page_splits_without_rows 1 config_1_3)
  = Raise StopIteration
  /\ outcome (extract_splits page_header_without_cells 1 config_1_3)
     = Raise IndexError
  /\ outcome (extract_splits page_row_without_label 1 config_1_3)
     = Raise AttributeError
  /\ outcome (extract_splits page_start_without_value 1 config_1_3)
     = Raise AttributeError
  /\ outcome (scrape_race_data config_1_3 no_files server_splits_without_rows)
     = Raise StopIteration
  /\ requested
       (events (scrape_race_data config_1_3 no_files
                  server_splits_without_rows))
     = [1]
  /\ appended
       (events (scrape_race_data config_1_3 no_files
                  server_splits_without_rows))
     = [].
Proof. repeat split; vm_compute; reflexivity. Qed.

End AnomalyFacts.

(** ** The cleaning stage *)

Module CleanFacts.
Import Clean Samples EffFacts.

Lemma zip_with_labels {A} (f : option value -> row -> row)
    (rows : list (nat * row)) (series : list (A * option value)) :
  length series = length rows ->
  map fst (zip_with (fun lr e => (fst lr, f (snd e) (snd lr))) rows series)
  = map fst rows.
Proof.
  revert series. induction rows as [|lr rows IH]; intros [|e series];
    try done.
  simpl. intros [= Hlen]. by rewrite IH.
Qed.

Lemma assign_column_labels col series target :
  map fst (trows (assign_column col series target)) = map fst (trows target).
Proof.
  unfold assign_column. cbn [trows]. case_bool_decide as Heq.
  - apply zip_with_labels. apply (f_equal length) in Heq.
    by rewrite !length_map in Heq.
  - rewrite map_map. by apply map_ext.
Qed.

Lemma on_rows_labels {L} f cols (rows rows' : list (L * row)) :
  on_rows f cols rows = Ok rows' -> map fst rows' = map fst rows.
Proof.
  revert rows'. induction rows as [|[l r] rows IH]; intros rows'; simpl.
  - by intros [= <-].
  - destruct (update_cells f cols r r) as [r'|e];
      destruct (on_rows f cols rows) as [rest|e']; try done.
    intros [= <-]. simpl. f_equal. by apply IH.
Qed.

Lemma convert_rows_labels {L} cols (rows rows' : list (L * row)) :
  convert_rows cols rows = Ok rows' -> map fst rows' = map fst rows.
Proof.
  unfold convert_rows.
  destruct (on_rows converted cols rows) as [mapped|e] eqn:E; [|done].
  intros H. apply on_rows_labels in H, E. congruence.
Qed.

Lemma foldl_assign_labels (f : string -> list (nat * option value))
  cols target :
  map fst (trows (foldl (fun t c => assign_column c (f c) t) target cols))
  = map fst (trows target).
Proof.
  revert target. induction cols as [|c cols IH]; intros target; [done|].
  simpl. by rewrite IH, assign_column_labels.
Qed.

(** The table returned has one row for each row that passes the filters,
    whether or not its personal fields are there. *)
Lemma clean_race_data_drops_no_row config_params raw_df clean :
  outcome (clean_race_data config_params raw_df) = Ok clean ->
  exists mask,
    filter_mask raw_df (concat (cleaning_filter_by config_params))
      (map (fun _ => true) (trows raw_df)) = Ok mask
    /\ length (trows clean) = length (trows (select raw_df mask)).
Proof.
  unfold clean_race_data. rewrite outcome_bind. unfold lift at 1.
  cbn [outcome snd].
  destruct (filter_mask raw_df _ _) as [mask|e]; [|done].
  intros H. exists mask. split; [done|]. revert H.
  set (filtered := select raw_df mask).
  rewrite outcome_bind. unfold lift at 1. cbn [outcome snd].
  unfold project.
  destruct (forallb (has_column filtered) _); [|done].
  set (clean0 := {| tcolumns := _; trows := _ |}).
  rewrite outcome_bind.
  match goal with
  | |- context [outcome (if ?b then ?x else ?y)] =>
      replace (outcome (if b then x else y)) with (Ok tt : result unit)
        by (by destruct b)
  end.
  rewrite outcome_bind. unfold lift at 1. cbn [outcome snd].
  destruct (split_columns config_params) as [cols|e]; [|done].
  rewrite outcome_bind.
  destruct (forallb (has_column _) cols); [|done].
  destruct (bool_decide (NoDup cols)); [|done].
  destruct (reindexable _ _); [|done].
  cbn [outcome ret snd]. rewrite outcome_bind.
  destruct (has_column _ "residence"); [|done].
  unfold lift at 1. cbn [outcome snd].
  destruct (map_series residence_state _) as [residence|e]; [|done].
  rewrite outcome_bind.
  destruct (reindexable _ _); [|done].
  cbn [outcome ret snd]. rewrite outcome_bind. unfold lift at 1.
  cbn [outcome snd].
  destruct (convert_rows cols _) as [converted|e] eqn:Hconv; [|done].
  unfold lift, set_index. cbn [outcome snd tcolumns trows].
  destruct (has_column _ _); [|done]. intros [= <-]. cbn [trows].
  apply convert_rows_labels in Hconv.
  rewrite assign_column_labels, foldl_assign_labels in Hconv.
  apply (f_equal length) in Hconv. rewrite !length_map in Hconv.
  rewrite length_map, Hconv. subst clean0. cbn [trows]. by rewrite length_map.
Qed.

(** C5.  [clean_race_data] prints the runners whose personal data are
    missing and says they are excluded, but the table it returns still has
    them: it drops them from [raw_df] after [clean_df] has been copied from
    it, and never from [clean_df].  Runner 3, whose sex is missing, is
    printed and is in the table returned, with its personal field missing
    and, from the alignment on the index, all its split columns missing. *)
Theorem clean_race_data_keeps_row_without_personal :
  let cleaned := clean_race_data config_1_3 raw_missing_sex in
  events cleaned = [Print (WarnMissingPersonal [(1%nat, Some (VInt 3))])]
  /\ column_of "sex" (outcome cleaned)
     = [(Some (VInt 1), Some (VStr "M")); (Some (VInt 3), None)]
  /\ column_of "age" (outcome cleaned)
     = [(Some (VInt 1), Some (VInt 30)); (Some (VInt 3), Some (VInt 41))]
  /\ column_of "split_1_time" (outcome cleaned)
     = [(Some (VInt 1), Some (VInt 1200)); (Some (VInt 3), None)]
  /\ column_of "residence" (outcome cleaned)
     = [(Some (VInt 1), Some (VStr "MN")); (Some (VInt 3), None)].
Proof. repeat split; vm_compute; reflexivity. Qed.

End CleanFacts.

(** ** The session file, written and read back *)

Module RoundTripFacts.
Import PyStr PyStrSpec PyStrFacts Scrape.

Lemma ascii_digit_pretty_N_char d :
  (d < 10)%N -> ascii_digit (pretty_N_char d) = Some (Z.of_N d).
Proof.
  intros Hd.
  destruct d as [|p]; [reflexivity|].
  do 4 (try destruct p as [p|p|]; try reflexivity; try lia).
Qed.

(** The digits that [str] writes for [x] in front of [s]: their number [k],
    and what [decimal_from] reads there. *)
Lemma pretty_N_go_digits (x : N) :
  exists k : nat,
    ((x = 0%N /\ k = 0%nat)
     \/ ((0 < x)%N /\ (0 < k)%nat /\ 10 ^ Z.of_nat k <= 10 * Z.of_N x))
    /\ forall s acc,
        exists ds,
          pretty_N_go x s = ds +:+ s
          /\ String.length ds = k
          /\ forall r, decimal_from acc (ds +:+ r)
                       = decimal_from (acc * 10 ^ Z.of_nat k + Z.of_N x) r.
Proof.
  induction (N.lt_wf_0 x) as [x _ IH].
  destruct (N.eq_dec x 0%N) as [->|Hx].
  { exists 0%nat. split; [by left|]. intros s acc. exists EmptyString.
    rewrite pretty_N_go_0. split; [done|]. split; [done|].
    intros r. rewrite append_empty_l. f_equal. simpl. lia. }
  assert (0 < x)%N as Hpos by lia.
  destruct (IH (x `div` 10)%N) as (k & Hk & Hgo).
  { apply N.div_lt; lia. }
  pose proof (N.div_mod x 10%N ltac:(lia)) as Hdm.
  pose proof (N.mod_lt x 10%N ltac:(lia)) as Hmod.
  exists (S k). split.
  { right. split; [done|]. split; [lia|].
    rewrite Nat2Z.inj_succ, Z.pow_succ_r by lia.
    assert (10 * Z.of_N (x `div` 10) <= Z.of_N x) as Hle.
    { rewrite N2Z.inj_div. apply (Z.mul_div_le (Z.of_N x) 10). lia. }
    destruct Hk as [[H0 ->]|(Hq & _ & Hk)]; [|lia].
    change (10 ^ Z.of_nat 0) with 1. lia. }
  intros s acc. rewrite (pretty_N_go_step x s Hpos).
  destruct (Hgo (String (pretty_N_char (x `mod` 10)) s) acc)
    as (ds & Hds & Hlen & Hdec).
  exists (ds +:+ String (pretty_N_char (x `mod` 10)) EmptyString).
  split; [|split].
  - rewrite Hds. clear. induction ds as [|c ds IHds]; [done|].
    by rewrite !append_cons, IHds.
  - rewrite <- Hlen. clear. induction ds as [|c ds IHds]; [done|].
    rewrite append_cons. simpl. by rewrite IHds.
  - intros r.
    replace ((ds +:+ String (pretty_N_char (x `mod` 10)) EmptyString) +:+ r)
      with (ds +:+ String (pretty_N_char (x `mod` 10)) r).
    2:{ clear. induction ds as [|c ds IHds]; [done|].
        by rewrite !append_cons, IHds. }
    rewrite Hdec. simpl. rewrite (ascii_digit_pretty_N_char _ Hmod).
    f_equal. rewrite Nat2Z.inj_succ, Z.pow_succ_r by lia.
    rewrite N2Z.inj_div. replace (Z.of_N 10) with 10 by done.
    assert (Z.of_N x = 10 * (Z.of_N x `div` 10) + Z.of_N (x `mod` 10)) as E.
    { rewrite N2Z.inj_mod. replace (Z.of_N 10) with 10 by done.
      apply Z.div_mod. lia. }
    lia.
Qed.

(** [int(str(x))] for a positive [x] of at most [int_max_str_digits]
    digits. *)
Lemma int_pretty_pos (p : positive) :
  Z.pos p < 10 ^ Z.of_nat int_max_str_digits ->
  decimal (pretty (N.pos p)) = Some (Z.pos p)
  /\ (String.length (pretty (N.pos p)) <= int_max_str_digits)%nat.
Proof.
  intros Hlt. unfold pretty, pretty_N.
  destruct (decide (N.pos p = 0%N)) as [?|_]; [done|].
  destruct (pretty_N_go_digits (N.pos p)) as (k & Hk & Hgo).
  destruct Hk as [[? _]|(_ & Hk0 & Hk)]; [done|].
  destruct (Hgo EmptyString 0) as (ds & Hds & Hlen & Hdec).
  rewrite Hds, append_empty_r. specialize (Hdec EmptyString).
  rewrite append_empty_r in Hdec. simpl in Hdec.
  split.
  - destruct ds as [|c ds]; [simpl in Hlen; lia|]. unfold decimal.
    rewrite Hdec.
    f_equal.
  - rewrite Hlen.
    assert (10 ^ Z.of_nat k < 10 ^ (Z.of_nat int_max_str_digits + 1)) as Hpow.
    { rewrite Z.pow_add_r by lia. lia. }
    apply Z.pow_lt_mono_r_iff in Hpow; lia.
Qed.

Lemma int_pretty (z : Z) :
  - 10 ^ Z.of_nat int_max_str_digits < z < 10 ^ Z.of_nat int_max_str_digits ->
  int (pretty z) = Some z.
Proof.
  intros Hz. destruct z as [|p|p].
  - reflexivity.
  - destruct (int_pretty_pos p) as [Hdec Hlen]; [lia|].
    by apply int_decimal.
  - destruct (int_pretty_pos p) as [Hdec Hlen]; [lia|].
    change (pretty (Z.neg p)) with ("-" +:+ pretty (N.pos p)).
    pose proof (int_decimal _ _ Hdec Hlen) as Hint.
    destruct (pretty (N.pos p)) as [|c ds] eqn:E; [done|].
    assert (exists x, ascii_digit c = Some x) as [x Hc].
    { unfold decimal in Hdec. simpl in Hdec.
      destruct (ascii_digit c); [eauto | done]. }
    revert Hint. unfold int, int_points.
    rewrite append_cons, append_empty_l.
    rewrite (points_cons_ascii "-") by done.
    rewrite (points_cons_ascii _ _ (ascii_digit_ascii _ _ Hc)).
    cbn [skip]. rewrite (digit_not_int_space _ _ Hc).
    change (is_int_space (byte "-")) with false. cbv iota.
    rewrite (digit_int_sign _ _ _ Hc).
    change (int_sign (byte "-" :: byte c :: points ds))
      with (true, byte c :: points ds).
    cbv iota beta.
    destruct (starts_with_underscore (byte c :: points ds)); [done|].
    destruct (scan_digits false 0 0 (byte c :: points ds))
      as [[[v n] rest]|]; [|done].
    destruct (n =? 0)%nat; [done|].
    destruct (int_max_str_digits <? n)%nat; [done|].
    destruct (skip is_int_space rest); [|done].
    by intros [= ->].
Qed.

End RoundTripFacts.

(** ** Start-up *)

Module StartFacts.
Import PyStr Scrape Trace Samples EffFacts RoundTripFacts.

(** X1.  What a flush writes to the session file, the next start-up reads
    back: on an output file with a header and at least one row, a session
    file last written with the ID [c] makes start-up resume at [c + 1] with
    the header and the rows of the output file, print that it resumes, and
    write nothing.  ([c] has no more digits than [int] accepts.) *)
Theorem resume_after_checkpoint
  (config_params : config) (fs : files) (c0 : string) (cs : list string)
  (r0 : csv_row) (rs : list csv_row) (c : Z)
  (Hfile : output_file fs = Some (Csv (c0 :: cs) (r0 :: rs)))
  (Hdigits : - 10 ^ 4300 < c < 10 ^ 4300) :
  let fs' := apply_event fs (WriteSession c) in
  start_session config_params fs'
  = ([Print (MsgResuming (c + 1))],
     Ok (c0 :: cs, {| columns := c0 :: cs; body := r0 :: rs |}, c + 1))
  /\ replay fs' (events (start_session config_params fs')) = fs'.
Proof.
  intros fs'.
  assert (start_session config_params fs'
          = ([Print (MsgResuming (c + 1))],
             Ok (c0 :: cs, {| columns := c0 :: cs; body := r0 :: rs |}, c + 1)))
    as E.
  { unfold start_session, try_resume. subst fs'.
    cbn [apply_event output_file session_file]. rewrite Hfile.
    cbn [read_csv frame_empty columns body negb].
    rewrite (int_pretty c) by exact Hdigits. reflexivity. }
  rewrite E. split; reflexivity.
Qed.

Lemma resume_after_checkpoint_witness :
  outcome (start_session config_1_3
             (apply_event
                {| output_file := Some (Csv ["runner_id"] [[Some (VInt 1)]]);
                   session_file := None |}
                (WriteSession 41)))
  = Ok (["runner_id"],
        {| columns := ["runner_id"]; body := [[Some (VInt 1)]] |}, 42).
Proof.
  pose proof (resume_after_checkpoint config_1_3
                {| output_file := Some (Csv ["runner_id"] [[Some (VInt 1)]]);
                   session_file := None |}
                "runner_id" [] [Some (VInt 1)] [] 41 eq_refl
                ltac:(split; vm_compute; reflexivity)) as [E _].
  cbv zeta in E. rewrite E. reflexivity.
Defined.

(** X2.  Start-up fails in two ways only.  When the output file cannot be
    read, or the session file of a non-empty output file does not read as a
    whole number, it raises before anything is printed or written, so both
    files are left as they were.  When no session is resumed and the pool
    is empty, it raises [IndexError], after the output file has been
    written anew with nothing but the header. *)
Theorem start_session_failures (config_params : config) (fs : files) :
  (forall e,
      outcome (start_session config_params fs) = Raise e ->
      (exists cause,
          e = FatalException cause
          /\ events (start_session config_params fs) = []
          /\ output_file fs <> None)
      \/ (e = IndexError
          /\ scraping_runner_ids_pool config_params = []
          /\ output_file
               (replay fs (events (start_session config_params fs)))
             = Some (Csv (new_column_names config_params) [])))
  /\ (output_file fs = Some Unreadable ->
      exists cause,
        start_session config_params fs = ([], Raise (FatalException cause)))
  /\ (forall header rows text,
        output_file fs = Some (Csv header rows) ->
        header <> [] -> rows <> [] ->
        session_file fs = Some text -> int text = None ->
        start_session config_params fs
        = ([], Raise (FatalException ValueError))).
Proof.
  split; [|split].
  - intros e. unfold start_session, try_resume.
    unfold bind, print, emit, ret, raise.
    destruct (output_file fs) as [[|header rows]|] eqn:Hfile;
      cbn [read_csv];
      repeat (case_match; simplify_eq/=; try done); intros [= <-];
      solve [ left; eexists; split; [reflexivity|]; split; done
            | right; split; [done|]; split; done ].
  - intros Hfile. unfold start_session, try_resume. rewrite Hfile.
    by eexists.
  - intros header rows text Hfile Hheader Hrows Hsession Hint.
    unfold start_session, try_resume. rewrite Hfile, Hsession.
    cbn [read_csv]. unfold frame_empty. cbn [columns body].
    destruct header; [done|]. destruct rows; [done|]. cbn [negb].
    by rewrite Hint.
Qed.

Lemma start_session_failures_witness :
  start_session config_1_3
    {| output_file := Some (Csv ["runner_id"] [[Some (VInt 1)]]);
       session_file := Some "12a" |}
  = ([], Raise (FatalException ValueError)).
Proof.
  exact (proj2 (proj2 (start_session_failures config_1_3
                         {| output_file :=
                              Some (Csv ["runner_id"] [[Some (VInt 1)]]);
                            session_file := Some "12a" |}))
           ["runner_id"] [[Some (VInt 1)]] "12a" eq_refl
           ltac:(discriminate) ltac:(discriminate) eq_refl eq_refl).
Defined.

End StartFacts.

(** ** One turn of the loop *)

Module LoopFacts.
Import Extract Scrape Trace Samples EffFacts RunSpec.

Lemma only_warnings_app evs1 evs2 :
  only_warnings evs1 -> only_warnings evs2 -> only_warnings (evs1 ++ evs2).
Proof. unfold only_warnings. rewrite forallb_app. by intros -> ->. Qed.

Lemma only_warnings_bind {A B} (m : eff A) (k : A -> eff B) :
  only_warnings (events m) -> (forall a, only_warnings (events (k a))) ->
  only_warnings (events (bind m k)).
Proof.
  intros Hm Hk. rewrite events_bind. apply only_warnings_app; [done|].
  destruct (outcome m); [apply Hk | done].
Qed.

Lemma split_cells_warnings config_params runner_id i cells : forall res,
  only_warnings (events (split_cells config_params runner_id i cells res)).
Proof.
  induction cells as [|[col v] cells IH]; intros res; simpl; [done|].
  destruct (dict_get _ col); [apply IH|].
  apply only_warnings_bind; [done | intros _; apply IH].
Qed.

Lemma split_rows_warnings config_params runner_id headers rows : forall res,
  only_warnings (events (split_rows config_params runner_id headers rows res)).
Proof.
  induction rows as [|row rows IH]; intros res; simpl; [done|].
  destruct (find "th" None row) as [label|]; [|done].
  destruct (SPLITS_ORDER config_params !! get_text label) as [i|].
  { apply only_warnings_bind; [apply split_cells_warnings | intros ?; apply IH]. }
  destruct (dict_get _ _) as [field|].
  { destruct (find "td" None row); [apply IH | done]. }
  apply only_warnings_bind; [done | intros _; apply IH].
Qed.

Lemma extract_splits_warnings html_data runner_id config_params :
  only_warnings (events (extract_splits html_data runner_id config_params)).
Proof.
  unfold extract_splits. destruct (find "div" _ html_data); [|done].
  destruct (find_all "tr" None _) as [|first rows]; [done|].
  destruct (map get_text _) as [|h headers]; [done|].
  apply split_rows_warnings.
Qed.

Lemma extract_personal_warnings html_data runner_id :
  only_warnings (fst (extract_personal html_data runner_id)).
Proof.
  unfold extract_personal. destruct (find "div" _ html_data); [|done].
  destruct (map get_text _) as [|? [|? [|? [|? [|? [|? ?]]]]]]; done.
Qed.

Section Turn.
Variable config_params : config.
Variable column_names : list string.

Abbreviation BATCH_SIZE := (scraping_batch_size config_params).
Abbreviation rows_of := (rows_of column_names).

Lemma fetch_entry_warnings runner_id html_data :
  only_warnings (events (fetch_entry config_params runner_id html_data)).
Proof.
  unfold fetch_entry.
  pose proof (extract_personal_warnings html_data runner_id) as Hp.
  destruct (extract_personal html_data runner_id) as [w personal].
  apply only_warnings_bind; [exact Hp|]. intros _.
  apply only_warnings_bind; [|done]. apply extract_splits_warnings.
Qed.

Lemma add_entry_warnings status_code html_data runner_id batch :
  only_warnings
    (events (add_entry config_params status_code html_data runner_id batch)).
Proof.
  unfold add_entry. destruct (status_code =? 200); [|done].
  apply only_warnings_bind; [apply fetch_entry_warnings | done].
Qed.

(** Line 187 never divides by zero: with a batch size of zero the batch is
    always full. *)
Lemma flush_due_eq runner_id batch :
  flush_due config_params runner_id batch
  = ret (due config_params runner_id batch).
Proof.
  unfold flush_due, due, py_mod.
  destruct (Z.leb_spec BATCH_SIZE (len batch)) as [|Hlt]; [done|].
  destruct (Z.eqb_spec (BATCH_SIZE * 2) 0) as [H0|_]; [|done].
  unfold len in Hlt. lia.
Qed.

Lemma flush_eq runner_id st :
  flush config_params column_names runner_id st
  = if BATCH_SIZE =? 0
    then ([AppendCsv (rows_of (entries_batch st))], Raise ZeroDivisionError)
    else ([AppendCsv (rows_of (entries_batch st))]
            ++ progress_line config_params runner_id
                 (saved st + len (entries_batch st))
            ++ [WriteSession runner_id],
          Ok {| entries_batch := [];
                saved := saved st + len (entries_batch st) |}).
Proof.
  unfold flush, py_mod, progress_line.
  destruct (Z.eqb_spec BATCH_SIZE 0) as [->|Hne]; [done|].
  destruct (Z.eqb_spec (BATCH_SIZE * 2) 0) as [?|_]; [lia|].
  unfold bind, emit, print, emit, ret. simpl.
  by destruct (runner_id mod (BATCH_SIZE * 2) =? 0).
Qed.

(** One turn of the loop, in full. *)
Lemma loop_body_eq status_code html_data runner_id st :
  loop_body config_params column_names (Response status_code html_data)
    runner_id st
  = let G := Get runner_id (Response status_code html_data) in
    match add_entry config_params status_code html_data runner_id
            (entries_batch st) with
    | (W, Raise x) => ([G] ++ W, Raise x)
    | (W, Ok batch) =>
        if due config_params runner_id batch then
          if BATCH_SIZE =? 0
          then ([G] ++ W ++ [AppendCsv (rows_of batch)],
                Raise ZeroDivisionError)
          else ([G] ++ W ++ [AppendCsv (rows_of batch)]
                  ++ progress_line config_params runner_id
                       (saved st + len batch)
                  ++ [WriteSession runner_id; Sleep],
                Ok {| entries_batch := []; saved := saved st + len batch |})
        else ([G] ++ W ++ [Sleep],
              Ok {| entries_batch := batch; saved := saved st |})
    end.
Proof.
  assert (forall batch,
             flush_if_due config_params column_names runner_id
               {| entries_batch := batch; saved := saved st |}
             = if due config_params runner_id batch then
                 if BATCH_SIZE =? 0
                 then ([AppendCsv (rows_of batch)], Raise ZeroDivisionError)
                 else ([AppendCsv (rows_of batch)]
                         ++ progress_line config_params runner_id
                              (saved st + len batch)
                         ++ [WriteSession runner_id],
                       Ok {| entries_batch := [];
                             saved := saved st + len batch |})
               else ([], Ok {| entries_batch := batch; saved := saved st |}))
    as Hflush.
  { intros batch. unfold flush_if_due. rewrite flush_due_eq, flush_eq.
    cbn [entries_batch saved]. unfold bind, ret.
    destruct (due config_params runner_id batch); [|done].
    by destruct (BATCH_SIZE =? 0). }
  rewrite ScrapeFacts.loop_body_response. cbv zeta.
  destruct (add_entry _ _ _ _ _) as [W [batch|x]]; [|done].
  unfold bind, emit, ret. cbv beta iota. rewrite Hflush.
  destruct (due config_params runner_id batch).
  - destruct (BATCH_SIZE =? 0); [by rewrite ?app_nil_r|].
    rewrite ?app_nil_r, <- !app_assoc. reflexivity.
  - by rewrite !app_nil_r.
Qed.

End Turn.
End LoopFacts.

(** ** The loop, event by event *)

Module RunFacts.
Import Extract Scrape Trace Samples EffFacts RunSpec LoopFacts.

Lemma each_event_app P evs1 : forall pre evs2,
  each_event P pre (evs1 ++ evs2)
  <-> each_event P pre evs1 /\ each_event P (pre ++ evs1) evs2.
Proof.
  induction evs1 as [|ev evs1 IH]; intros pre evs2; simpl.
  - rewrite app_nil_r. tauto.
  - rewrite IH, <- app_assoc. simpl. tauto.
Qed.

Lemma each_event_split P evs pre p ev q :
  each_event P pre evs -> evs = p ++ ev :: q -> P (pre ++ p) ev.
Proof. intros H ->. apply each_event_app in H as [_ [H _]]. exact H. Qed.

Lemma each_event_intro P evs : forall pre,
  (forall p ev q, evs = p ++ ev :: q -> P (pre ++ p) ev) ->
  each_event P pre evs.
Proof.
  induction evs as [|ev evs IH]; intros pre H; [done|]. split.
  - rewrite <- (app_nil_r pre). by apply (H [] ev evs).
  - apply IH. intros p ev' q ->. rewrite <- app_assoc.
    by apply (H (ev :: p) ev' q).
Qed.

Lemma len_app {A} (l1 l2 : list A) : len (l1 ++ l2) = len l1 + len l2.
Proof. unfold len. rewrite length_app. lia. Qed.

Lemma len_nonneg {A} (l : list A) : 0 <= len l.
Proof. unfold len. lia. Qed.

Lemma warnings_prints evs : only_warnings evs -> only_prints evs.
Proof.
  unfold only_warnings, only_prints.
  induction evs as [|ev evs IH]; [done|]. simpl.
  intros [Hev Hevs]%andb_true_iff. rewrite IH by done.
  by destruct ev as [[]| | | | |].
Qed.

Lemma only_warnings_split W p w q :
  only_warnings W -> W = p ++ w :: q ->
  only_warnings p /\ is_warning w = true.
Proof.
  unfold only_warnings. intros H ->. rewrite forallb_app in H. simpl in H.
  apply andb_true_iff in H as [? [? _]%andb_true_iff]. done.
Qed.

Section Turn.
Variable config_params : config.
Variable column_names : list string.
Variable rows_before : Z.

Abbreviation BATCH_SIZE := (scraping_batch_size config_params).
Abbreviation rows_of := (rows_of column_names).
Abbreviation fetched := (fetched config_params column_names).
Abbreviation fetched_of := (fetched_of config_params column_names).
Abbreviation backlog := (backlog config_params column_names).
Abbreviation progress_true := (progress_true config_params rows_before).
Abbreviation bounded := (bounded config_params column_names).
Abbreviation in_step := (in_step config_params column_names rows_before).

Lemma backlog_app evs1 evs2 : backlog (evs1 ++ evs2) = backlog evs1 + backlog evs2.
Proof.
  unfold RunSpec.backlog.
  rewrite ScrapeFacts.fetched_app, ScrapeFacts.appended_app, !len_app. lia.
Qed.

Lemma backlog_warnings W : only_warnings W -> backlog W = 0.
Proof.
  intros H%warnings_prints.
  destruct (ScrapeFacts.prints_silent config_params column_names W H)
    as (Hf & Ha & _).
  unfold RunSpec.backlog. by rewrite Hf, Ha.
Qed.

Lemma appended_warnings W : only_warnings W -> appended W = [].
Proof.
  intros H%warnings_prints.
  by destruct (ScrapeFacts.prints_silent config_params column_names W H)
    as (_ & Ha & _).
Qed.

Lemma requested_warnings W : only_warnings W -> requested W = [].
Proof.
  intros H%warnings_prints.
  by destruct (ScrapeFacts.prints_silent config_params column_names W H)
    as (_ & _ & Hr & _).
Qed.

Lemma warnings_progress_true W pre :
  only_warnings W -> each_event progress_true pre W.
Proof.
  intros HW. apply each_event_intro. intros p w q Hsplit.
  destruct (only_warnings_split _ _ _ _ HW Hsplit) as [_ Hw].
  by destruct w as [[]| | | | |].
Qed.

Lemma warnings_bounded W pre :
  only_warnings W -> 0 <= backlog pre <= BATCH_SIZE ->
  each_event bounded pre W.
Proof.
  intros HW Hpre. apply each_event_intro. intros p w q Hsplit.
  destruct (only_warnings_split _ _ _ _ HW Hsplit) as [Hp Hw].
  unfold RunSpec.bounded. rewrite !backlog_app, (backlog_warnings p Hp).
  rewrite (backlog_warnings [w]); [lia|].
  unfold only_warnings. simpl. by rewrite Hw.
Qed.

(** What a request adds to the batch is what it has fetched. *)
Lemma add_entry_len status_code html_data runner_id batch :
  match outcome (add_entry config_params status_code html_data runner_id
                   batch) with
  | Ok batch' =>
      len batch'
      = len batch + len (fetched_of runner_id (Response status_code html_data))
      /\ len (fetched_of runner_id (Response status_code html_data)) <= 1
  | Raise _ => fetched_of runner_id (Response status_code html_data) = []
  end.
Proof.
  unfold add_entry, Trace.fetched_of. destruct (status_code =? 200).
  - rewrite outcome_bind.
    destruct (outcome (fetch_entry _ _ _)) as [e|x]; [|done].
    cbn [outcome ret snd]. rewrite len_app. done.
  - cbn [outcome ret snd]. unfold len. simpl. lia.
Qed.

Lemma backlog_get runner_id r : backlog [Get runner_id r] = len (fetched_of runner_id r).
Proof.
  unfold RunSpec.backlog. cbn [Trace.fetched Trace.appended flat_map].
  rewrite app_nil_r. unfold len at 2. simpl. lia.
Qed.

Lemma len_rows_of batch : len (rows_of batch) = len batch.
Proof. unfold Trace.rows_of, len. by rewrite length_map. Qed.

Lemma backlog_append rows : backlog [AppendCsv rows] = - len rows.
Proof.
  unfold RunSpec.backlog. cbn [Trace.fetched Trace.appended flat_map].
  rewrite !app_nil_r. change (len (@nil csv_row)) with 0. lia.
Qed.

Lemma appended_append rows : appended [AppendCsv rows] = rows.
Proof. cbn [Trace.appended flat_map]. by rewrite app_nil_r. Qed.

Lemma progress_line_prints runner_id s :
  only_prints (progress_line config_params runner_id s).
Proof. unfold progress_line. by destruct (_ =? 0). Qed.

(** One turn of the loop. *)
Lemma loop_body_in_step r runner_id st pre :
  in_step pre st ->
  let turn := loop_body config_params column_names r runner_id st in
  each_event progress_true pre (events turn)
  /\ (1 <= BATCH_SIZE -> each_event bounded pre (events turn))
  /\ forall st', outcome turn = Ok st' -> in_step (pre ++ events turn) st'.
Proof.
  intros (Hback & Hsaved & Hroom) turn. subst turn.
  pose proof (len_nonneg (entries_batch st)) as Hlen0.
  destruct r as [status_code html_data|detail].
  2:{ rewrite ScrapeFacts.loop_body_request_failed. cbn [events outcome fst snd].
      split; [done|]. split.
      - intros HB. specialize (Hroom HB). unfold RunSpec.bounded.
        cbn [each_event]. rewrite <- !app_assoc, !backlog_app.
        change (backlog [Get runner_id (RequestFailed detail)]) with 0.
        change (backlog [Print (MsgErrorGetting runner_id detail)]) with 0.
        change (backlog [Sleep]) with 0. repeat split; lia.
      - intros st' [= <-]. unfold RunSpec.in_step.
        rewrite backlog_app, ScrapeFacts.appended_app.
        change (backlog [_; _; _]) with 0.
        change (appended [_; _; _]) with (@nil csv_row).
        rewrite app_nil_r. repeat split; [lia | done | done]. }
  rewrite loop_body_eq. cbv zeta.
  pose proof (add_entry_warnings config_params status_code html_data runner_id
                (entries_batch st)) as HW.
  pose proof (add_entry_len status_code html_data runner_id (entries_batch st))
    as Hadd.
  pose proof (len_nonneg
                (fetched_of runner_id (Response status_code html_data)))
    as Hf0.
  set (G := Get runner_id (Response status_code html_data)) in *.
  pose proof (backlog_get runner_id (Response status_code html_data)) as HG.
  fold G in HG.
  destruct (add_entry _ _ _ _ _) as [W [batch|x]]; cbn [events outcome fst snd] in *.
  2:{ split; [|split; [|intros st' [=]]].
      - apply each_event_app. split; [done|]. by apply warnings_progress_true.
      - intros HB. specialize (Hroom HB). apply each_event_app. split.
        + split; [|done]. unfold RunSpec.bounded.
          rewrite backlog_app, HG, Hadd.
          change (len (@nil csv_row)) with 0. lia.
        + apply warnings_bounded; [done|].
          rewrite backlog_app, HG, Hadd.
          change (len (@nil csv_row)) with 0. lia. }
  destruct Hadd as [Hbatch Hone].
  pose proof (backlog_warnings W HW) as HbW.
  pose proof (appended_warnings W HW) as HaW.
  pose proof (requested_warnings W HW) as HrW.
  destruct (due config_params runner_id batch) eqn:Hdue.
  - destruct (Z.eqb_spec BATCH_SIZE 0) as [H0|Hne]; cbn [events outcome fst snd].
    + split; [|split; [lia | intros st' [=]]].
      apply each_event_app. split; [done|].
      apply each_event_app. split; [by apply warnings_progress_true | done].
    + assert (backlog [AppendCsv (rows_of batch)] = - len batch) as HbA.
      { by rewrite backlog_append, len_rows_of. }
      pose proof (progress_line_prints runner_id (saved st + len batch)) as HP.
      destruct (ScrapeFacts.prints_silent config_params column_names _ HP)
        as (HfP & HaP & HrP & _).
      assert (backlog (progress_line config_params runner_id
                         (saved st + len batch)) = 0) as HbP.
      { unfold RunSpec.backlog. by rewrite HfP, HaP. }
      split; [|split].
      * apply each_event_app. split; [done|].
        apply each_event_app. split; [by apply warnings_progress_true|].
        apply each_event_app. split; [done|].
        apply each_event_app. split; [|done].
        unfold progress_line.
        destruct (Z.eqb_spec (runner_id mod (BATCH_SIZE * 2)) 0) as [Hmod|_];
          [|done].
        split; [|done]. split; [|split; [done|]].
        -- rewrite !ScrapeFacts.appended_app, HaW, Hsaved, appended_append.
           change (appended [G]) with (@nil csv_row).
           cbn [app]. rewrite ?app_nil_r, len_app, len_rows_of. lia.
        -- rewrite !ScrapeFacts.requested_app, HrW.
           cbn [Trace.requested flat_map]. rewrite !app_nil_r.
           apply last_snoc.
      * intros HB. specialize (Hroom HB).
        unfold due in Hdue.
        assert (0 <= backlog (pre ++ [G]) <= BATCH_SIZE) as H1.
        { rewrite backlog_app, HG. lia. }
        apply each_event_app. split; [by split|].
        apply each_event_app. split; [by apply warnings_bounded|].
        apply each_event_app. split.
        { split; [|done]. unfold RunSpec.bounded.
          rewrite !backlog_app, HbW, HbA, HG. lia. }
        apply each_event_app. split.
        { apply each_event_intro. intros p ev q Hsplit.
          unfold RunSpec.bounded. rewrite <- !app_assoc.
          assert (backlog (p ++ [ev]) = 0) as Hpe.
          { assert (only_prints (p ++ [ev])) as Hpp.
            { unfold only_prints in *. rewrite Hsplit in HP.
              rewrite forallb_app in HP |- *. simpl in HP |- *.
              apply andb_true_iff in HP as [-> [-> _]%andb_true_iff]. done. }
            destruct (ScrapeFacts.prints_silent config_params column_names _ Hpp)
              as (Hf' & Ha' & _).
            unfold RunSpec.backlog. by rewrite Hf', Ha'. }
          rewrite !backlog_app in *. rewrite HbW, HbA, HG. lia. }
        cbn [each_event]. unfold RunSpec.bounded.
        rewrite <- !app_assoc. rewrite !backlog_app, HbW, HbA, HG, HbP.
        change (backlog [WriteSession runner_id]) with 0.
        change (backlog [Sleep]) with 0.
        repeat split; lia.
      * intros st' [= <-]. unfold RunSpec.in_step. cbn [entries_batch saved].
        rewrite !backlog_app, HbW, HbA, HG, HbP.
        rewrite !ScrapeFacts.appended_app, HaW, HaP, appended_append.
        change (appended [G]) with (@nil csv_row).
        change (appended [WriteSession runner_id; Sleep]) with (@nil csv_row).
        change (backlog [WriteSession runner_id; Sleep]) with 0.
        cbn [app]. rewrite !app_nil_r, len_app, len_rows_of.
        change (len (@nil entry)) with 0.
        repeat split; lia.
  - cbn [events outcome fst snd]. unfold due in Hdue.
    apply orb_false_iff in Hdue as [Hfull _].
    apply Z.leb_gt in Hfull.
    split; [|split].
    + apply each_event_app. split; [done|].
      apply each_event_app. split; [by apply warnings_progress_true | done].
    + intros HB.
      assert (0 <= backlog (pre ++ [G]) <= BATCH_SIZE) as H1.
      { rewrite backlog_app, HG. lia. }
      apply each_event_app. split; [by split|].
      apply each_event_app. split; [by apply warnings_bounded|].
      split; [|done]. unfold RunSpec.bounded. rewrite <- !app_assoc.
      rewrite !backlog_app, HbW, HG. change (backlog [Sleep]) with 0. lia.
    + intros st' [= <-]. unfold RunSpec.in_step. cbn [entries_batch saved].
      rewrite !backlog_app, HbW, HG, !ScrapeFacts.appended_app, HaW.
      change (backlog [Sleep]) with 0.
      change (appended [G]) with (@nil csv_row).
      change (appended [Sleep]) with (@nil csv_row).
      cbn [app]. rewrite ?app_nil_r.
      repeat split; [lia | done | lia].
Qed.

Variable server : nat -> Z -> response.

Lemma main_loop_in_step ids : forall n st pre,
  in_step pre st ->
  let run := main_loop config_params column_names server n ids st in
  each_event progress_true pre (events run)
  /\ (1 <= BATCH_SIZE -> each_event bounded pre (events run))
  /\ forall st', outcome run = Ok st' -> in_step (pre ++ events run) st'.
Proof.
  induction ids as [|runner_id ids IH]; intros n st pre Hin; cbn zeta.
  - cbn [main_loop events outcome ret fst snd]. split; [done|].
    split; [done|]. intros st' [= <-]. by rewrite app_nil_r.
  - cbn [main_loop]. rewrite events_bind, outcome_bind.
    destruct (loop_body_in_step (server n runner_id) runner_id st pre Hin)
      as (Hprog & Hbound & Hnext).
    destruct (outcome (loop_body _ _ _ _ _)) as [st1|x].
    + specialize (Hnext st1 eq_refl).
      destruct (IH (S n) st1 _ Hnext) as (Hprog' & Hbound' & Hnext').
      split; [by apply each_event_app|]. split.
      * intros HB. apply each_event_app. auto.
      * intros st' Hst'. rewrite app_assoc. auto.
    + rewrite app_nil_r. split; [done|]. split; [done|]. intros st' [=].
Qed.

Lemma final_flush_in_step ids st pre :
  in_step pre st ->
  each_event progress_true pre (events (final_flush column_names ids st))
  /\ (1 <= BATCH_SIZE ->
      each_event bounded pre (events (final_flush column_names ids st))).
Proof.
  intros (Hback & Hsaved & Hroom). unfold final_flush.
  destruct (entries_batch st) as [|e batch] eqn:Hbatch; [done|].
  fold (rows_of (e :: batch)).
  assert (0 <= backlog (pre ++ [AppendCsv (rows_of (e :: batch))])
          <= BATCH_SIZE \/ BATCH_SIZE < 1) as H1.
  { rewrite backlog_app, backlog_append, len_rows_of, Hback. lia. }
  destruct (last ids) as [runner_id|].
  - unfold bind, emit, ret. cbn [events fst app]. split; [done|].
    intros HB. destruct H1 as [H1|?]; [|lia]. split; [done|].
    split; [|done]. unfold RunSpec.bounded. rewrite <- app_assoc.
    rewrite backlog_app in *.
    rewrite backlog_app. change (backlog [WriteSession runner_id]) with 0.
    lia.
  - unfold bind, emit, raise. cbn [events fst app]. split; [done|].
    intros HB. destruct H1 as [H1|?]; [|lia]. by split.
Qed.

End Turn.

(** *** Requests and pauses *)

Lemma spaced_app evs1 : forall w evs2,
  spaced w (evs1 ++ evs2)
  = spaced w evs1 && spaced (waiting_after w evs1) evs2.
Proof.
  induction evs1 as [|ev evs1 IH]; intros w evs2; [done|].
  destruct ev; simpl; rewrite ?IH; try done. by rewrite andb_assoc.
Qed.

Lemma waiting_after_app evs1 : forall w evs2,
  waiting_after w (evs1 ++ evs2) = waiting_after (waiting_after w evs1) evs2.
Proof.
  induction evs1 as [|ev evs1 IH]; intros w evs2; [done|].
  destruct ev; simpl; by rewrite ?IH.
Qed.

Lemma prints_spaced evs : forall w,
  only_prints evs -> spaced w evs = true /\ waiting_after w evs = w.
Proof.
  unfold only_prints.
  induction evs as [|ev evs IH]; intros w; [done|]. simpl.
  intros [Hev Hevs]%andb_true_iff. destruct ev; try discriminate. by apply IH.
Qed.

Lemma no_get_spaced evs :
  existsb is_get evs = false ->
  spaced false evs = true /\ waiting_after false evs = false.
Proof.
  induction evs as [|ev evs IH]; [done|]. simpl.
  intros [Hev Hevs]%orb_false_iff. destruct ev; try discriminate; by apply IH.
Qed.

Lemma polite_bind {A B} (m : eff A) (k : A -> eff B) :
  polite m -> (forall a, polite (k a)) -> polite (bind m k).
Proof.
  intros [Hm Hend] Hk. unfold polite.
  rewrite events_bind, outcome_bind, spaced_app, waiting_after_app, Hm.
  destruct (outcome m) as [a|x]; [|done].
  rewrite (Hend a eq_refl). destruct (Hk a) as [Hka Hkend]. done.
Qed.

Lemma polite_quiet {A} (m : eff A) :
  existsb is_get (events m) = false -> polite m.
Proof. intros H. apply no_get_spaced in H as [? ?]. by split. Qed.

Lemma startup_no_get evs : startup_only evs -> existsb is_get evs = false.
Proof.
  unfold startup_only. induction evs as [|ev evs IH]; [done|]. simpl.
  intros [Hev Hevs]%andb_true_iff. rewrite IH by done. by destruct ev.
Qed.

Lemma loop_body_polite config_params column_names r runner_id st :
  polite (loop_body config_params column_names r runner_id st).
Proof.
  destruct r as [status_code html_data|detail];
    [|by rewrite ScrapeFacts.loop_body_request_failed].
  rewrite loop_body_eq. cbv zeta.
  pose proof (add_entry_warnings config_params status_code html_data runner_id
                (entries_batch st)) as HW%warnings_prints.
  destruct (add_entry _ _ _ _ _) as [W [batch|x]]; cbn [events fst] in HW.
  2:{ split; [|done]. cbn [events fst app spaced negb andb].
      by apply prints_spaced. }
  assert (forall w evs, spaced w (W ++ evs) = spaced w evs
                        /\ waiting_after w (W ++ evs) = waiting_after w evs)
    as HWapp.
  { intros w evs. rewrite spaced_app, waiting_after_app.
    by destruct (prints_spaced W w HW) as [-> ->]. }
  destruct (due config_params runner_id batch).
  - destruct (scraping_batch_size config_params =? 0).
    + split; [|done]. cbn [events fst app spaced negb andb].
      by destruct (HWapp true [AppendCsv (Trace.rows_of column_names batch)])
        as [-> _].
    + pose proof (progress_line_prints config_params runner_id
                    (saved st + len batch)) as HP.
      unfold polite. cbn [events outcome fst snd app spaced waiting_after
                          negb andb].
      destruct (HWapp true
                  (AppendCsv (Trace.rows_of column_names batch)
                     :: progress_line config_params runner_id
                          (saved st + len batch)
                     ++ [WriteSession runner_id; Sleep])) as [-> ->].
      cbn [spaced waiting_after]. rewrite spaced_app, waiting_after_app.
      destruct (prints_spaced _ true HP) as [-> ->]. done.
  - unfold polite. cbn [events outcome fst snd app spaced waiting_after
                        negb andb].
    by destruct (HWapp true [Sleep]) as [-> ->].
Qed.

Lemma main_loop_polite config_params column_names server ids : forall n st,
  polite (main_loop config_params column_names server n ids st).
Proof.
  induction ids as [|runner_id ids IH]; intros n st; [done|].
  cbn [main_loop]. apply polite_bind; [apply loop_body_polite | auto].
Qed.

Lemma final_flush_polite column_names ids st :
  polite (final_flush column_names ids st).
Proof.
  unfold final_flush. destruct (entries_batch st); [done|].
  by destruct (last ids).
Qed.

End RunFacts.

(** ** The run, event by event *)

Module SessionFacts.
Import Extract Scrape Trace Samples EffFacts RunSpec LoopFacts RunFacts.

Section Run.
Variable config_params : config.
Variable fs : files.
Variable server : nat -> Z -> response.

Abbreviation BATCH_SIZE := (scraping_batch_size config_params).

(** After start-up the output file holds the header and the rows that the
    run goes on with; start-up prints no progress line. *)
Lemma start_session_agrees column_names df runner_id_init :
  outcome (start_session config_params fs)
  = Ok (column_names, df, runner_id_init) ->
  output_file (replay fs (events (start_session config_params fs)))
  = Some (Csv column_names (body df))
  /\ existsb is_progress (events (start_session config_params fs)) = false.
Proof.
  unfold start_session, try_resume.
  unfold bind, print, emit, ret, raise.
  destruct (output_file fs) as [[|header rows]|] eqn:Hfile; try done;
    cbn [read_csv];
    repeat (case_match; simplify_eq/=; try done); intros [= <- <- <-];
    unfold replay; simpl; rewrite ?Hfile; eauto.
Qed.

Lemma startup_backlog column_names evs :
  startup_only evs -> backlog config_params column_names evs = 0.
Proof.
  intros H. destruct (ScrapeFacts.startup_silent config_params column_names _ H)
    as (Hf & Ha & _).
  unfold backlog. by rewrite Hf, Ha.
Qed.

Lemma startup_only_split evs p ev q :
  startup_only evs -> evs = p ++ ev :: q ->
  startup_only p /\ startup_only [ev].
Proof.
  unfold startup_only. intros H ->. rewrite forallb_app in H. simpl in H.
  apply andb_true_iff in H as [Hp [Hev _]%andb_true_iff].
  split; [done|]. simpl. by rewrite Hev.
Qed.

Lemma not_progress_true rows_before evs : forall pre,
  existsb is_progress evs = false ->
  each_event (progress_true config_params rows_before) pre evs.
Proof.
  induction evs as [|ev evs IH]; intros pre; [done|]. simpl.
  intros [Hev Hevs]%orb_false_iff. split; [|by apply IH].
  by destruct ev as [[]| | | | |].
Qed.

(** The run, event by event. *)
Lemma scrape_race_data_each column_names df runner_id_init :
  outcome (start_session config_params fs)
  = Ok (column_names, df, runner_id_init) ->
  let evs := events (scrape_race_data config_params fs server) in
  each_event (progress_true config_params (len (body df))) [] evs
  /\ (1 <= BATCH_SIZE ->
      each_event (bounded config_params column_names) [] evs).
Proof.
  intros Hstart evs. subst evs.
  rewrite (ScrapeFacts.scrape_race_data_events _ _ _ _ _ _ Hstart). cbv zeta.
  set (ids := runner_ids _ _).
  set (S := events (start_session config_params fs)).
  set (T := Print (MsgTotal _)).
  set (run := main_loop _ _ _ _ _ _).
  pose proof (ScrapeFacts.start_session_startup_only config_params fs) as HS.
  fold S in HS.
  destruct (ScrapeFacts.startup_silent config_params column_names S HS)
    as (Hf & Ha & Hr & Hw).
  destruct (start_session_agrees _ _ _ Hstart) as [_ Hquiet]. fold S in Hquiet.
  assert (in_step config_params column_names (len (body df)) (S ++ [T])
            {| entries_batch := []; saved := len (body df) |}) as Hin.
  { unfold in_step. cbn [entries_batch saved].
    rewrite backlog_app, (startup_backlog _ _ HS), ScrapeFacts.appended_app, Ha.
    change (backlog config_params column_names [T]) with 0.
    change (appended [T]) with (@nil csv_row).
    change (len (@nil entry)) with 0. cbn [app].
    change (len (@nil csv_row)) with 0.
    repeat split; lia. }
  destruct (main_loop_in_step config_params column_names (len (body df))
              server ids 0 _ _ Hin) as (Hprog & Hbound & Hnext).
  fold run in Hprog, Hbound, Hnext.
  set (F := match outcome run with
            | Ok st => events (final_flush column_names ids st)
            | Raise _ => []
            end).
  assert (each_event (progress_true config_params (len (body df)))
            ((S ++ [T]) ++ events run) F
          /\ (1 <= BATCH_SIZE ->
              each_event (bounded config_params column_names)
                ((S ++ [T]) ++ events run) F)) as [HprogF HboundF].
  { subst F. destruct (outcome run) as [st|x]; [|done].
    by apply final_flush_in_step, Hnext. }
  split.
  - rewrite (app_assoc S). apply each_event_app. split.
    + apply each_event_app. split; [by apply not_progress_true | done].
    + apply each_event_app. done.
  - intros HB. rewrite (app_assoc S). apply each_event_app. split.
    + apply each_event_app. split.
      * apply each_event_intro. intros p ev q Hsplit.
        destruct (startup_only_split _ _ _ _ HS Hsplit) as [Hp Hev].
        unfold bounded. cbn [app].
        rewrite backlog_app, (startup_backlog _ _ Hp), (startup_backlog _ _ Hev).
        lia.
      * split; [|done]. unfold bounded. cbn [app].
        rewrite backlog_app, (startup_backlog _ _ HS).
        change (backlog config_params column_names [T]) with 0. lia.
    + apply each_event_app. auto.
Qed.

(** What the output file holds at any moment after start-up. *)
Lemma scrape_race_data_file column_names df runner_id_init :
  outcome (start_session config_params fs)
  = Ok (column_names, df, runner_id_init) ->
  forall pre post,
    events (scrape_race_data config_params fs server) = pre ++ post ->
    (length (events (start_session config_params fs)) <= length pre)%nat ->
    output_file (replay fs pre)
    = Some (Csv column_names (body df ++ appended pre)).
Proof.
  intros Hstart pre post.
  rewrite (ScrapeFacts.scrape_race_data_events _ _ _ _ _ _ Hstart). cbv zeta.
  set (ids := runner_ids _ _).
  set (S := events (start_session config_params fs)).
  set (T := Print (MsgTotal _)).
  set (run := main_loop _ _ _ _ _ _).
  set (F := match outcome run with
            | Ok st => events (final_flush column_names ids st)
            | Raise _ => []
            end).
  intros Hsplit Hlen.
  pose proof (ScrapeFacts.start_session_startup_only config_params fs) as HS.
  fold S in HS.
  destruct (ScrapeFacts.startup_silent config_params column_names S HS)
    as (_ & Ha & _).
  destruct (start_session_agrees _ _ _ Hstart) as [Hfile _]. fold S in Hfile.
  assert (keep_header ([T] ++ events run ++ F)) as Hkeep.
  { apply ScrapeFacts.keep_header_app; [done|].
    apply ScrapeFacts.keep_header_app.
    - apply ScrapeFacts.main_loop_keeps_header.
    - subst F. destruct (outcome run); [|done].
      apply ScrapeFacts.final_flush_keeps_header. }
  assert (pre = S ++ take (length pre - length S) ([T] ++ events run ++ F))
    as Hpre.
  { apply (f_equal (take (length pre))) in Hsplit.
    rewrite take_app_length, take_app, take_ge in Hsplit by done. done. }
  rewrite Hpre, ScrapeFacts.replay_app.
  rewrite (ScrapeFacts.replay_keep_header _ _ column_names (body df));
    [| |done].
  - by rewrite ScrapeFacts.appended_app, Ha.
  - unfold keep_header in *.
    rewrite <- (take_drop (length pre - length S) ([T] ++ events run ++ F))
      in Hkeep.
    rewrite forallb_app in Hkeep. by apply andb_true_iff in Hkeep as [? _].
Qed.

Lemma split_after (P : event -> bool) (S rest pre : list event) ev post :
  existsb P S = false -> P ev = true -> S ++ rest = pre ++ ev :: post ->
  (length S <= length pre)%nat.
Proof.
  intros HS Hev Hsplit.
  destruct (Nat.le_gt_cases (length S) (length pre)) as [|Hlt]; [done|].
  exfalso.
  assert (S !! length pre = Some ev) as Hin.
  { rewrite <- (lookup_app_l S rest) by done. rewrite Hsplit.
    apply list_lookup_middle. done. }
  apply list_elem_of_lookup_2, list_elem_of_In in Hin.
  assert (existsb P S = true) as H; [|congruence].
  apply existsb_exists. eauto.
Qed.

(** X3.  Every progress line of a run tells the truth: the number it gives
    is the number of rows that the output file holds when the line is
    printed, the ID it gives is the one requested last, and that ID is a
    multiple of twice the batch size. *)
Theorem progress_line_counts_rows
  (column_names : list string) (df : frame) (runner_id_init : Z)
  (Hstart : outcome (start_session config_params fs)
            = Ok (column_names, df, runner_id_init)) :
  forall pre runner_id saved post,
    events (scrape_race_data config_params fs server)
    = pre ++ Print (MsgLastProcessed runner_id saved) :: post ->
    (exists rows,
        output_file (replay fs pre) = Some (Csv column_names rows)
        /\ len rows = saved)
    /\ last (requested pre) = Some runner_id
    /\ runner_id mod (BATCH_SIZE * 2) = 0.
Proof.
  intros pre runner_id saved post Hsplit.
  destruct (scrape_race_data_each _ _ _ Hstart) as [Hprog _].
  pose proof (each_event_split _ _ [] pre _ post Hprog Hsplit)
    as (Hsaved & Hmod & Hlast). cbn [app] in *.
  split; [|done].
  exists (body df ++ appended pre). split; [|by rewrite len_app].
  apply (scrape_race_data_file _ _ _ Hstart pre
           (Print (MsgLastProcessed runner_id saved) :: post) Hsplit).
  destruct (start_session_agrees _ _ _ Hstart) as [_ Hquiet].
  rewrite (ScrapeFacts.scrape_race_data_events _ _ _ _ _ _ Hstart) in Hsplit.
  exact (split_after is_progress _ _ _
           (Print (MsgLastProcessed runner_id saved)) _ Hquiet eq_refl Hsplit).
Qed.

(** X4.  With a batch size of at least one, at no moment of a run are more
    fetched rows missing from the output file than the batch size: after
    every event, the rows fetched so far exceed the rows appended so far by
    at most [BATCH_SIZE]. *)
Theorem backlog_within_batch
  (column_names : list string) (df : frame) (runner_id_init : Z)
  (Hstart : outcome (start_session config_params fs)
            = Ok (column_names, df, runner_id_init))
  (Hsize : 1 <= BATCH_SIZE) :
  forall pre post,
    events (scrape_race_data config_params fs server) = pre ++ post ->
    0 <= len (fetched config_params column_names pre) - len (appended pre)
      <= BATCH_SIZE.
Proof.
  intros pre post Hsplit.
  destruct (scrape_race_data_each _ _ _ Hstart) as [_ Hbound].
  specialize (Hbound Hsize).
  destruct pre as [|ev0 pre0] using rev_ind.
  { change (len (fetched config_params column_names [])) with 0.
    change (len (appended [])) with 0. lia. }
  rewrite <- app_assoc in Hsplit.
  exact (each_event_split _ _ [] pre0 ev0 post Hbound Hsplit).
Qed.

Lemma spaced_waiting mid : forall post,
  spaced true (mid ++ post) = true -> Sleep ∈ mid \/ spaced true post = true.
Proof.
  induction mid as [|ev mid IH]; intros post; [by right|].
  destruct ev; cbn [app spaced negb andb]; try done;
    try (intros H; destruct (IH _ H); [left; by right | by right]).
  intros _. left. left.
Qed.

(** X5.  A run never calls [session.get] while the pause after the call
    before it is still to come: whatever the configuration, the files and
    the answers of the server, between two calls of [session.get] there is
    a pause ([time.sleep]).  A call is one step here, with whatever the
    adapter of the session sends again within it. *)
Theorem requests_are_spaced :
  let evs := events (scrape_race_data config_params fs server) in
  spaced false evs = true
  /\ forall pre a r mid b r' post,
      evs = pre ++ Get a r :: mid ++ Get b r' :: post -> Sleep ∈ mid.
Proof.
  intros evs.
  assert (spaced false evs = true) as Hspaced.
  { apply (polite_bind (start_session config_params fs)).
    { apply polite_quiet, startup_no_get,
        ScrapeFacts.start_session_startup_only. }
    intros [[column_names df] runner_id_init].
    apply polite_bind; [done|]. intros _.
    apply polite_bind; [apply main_loop_polite|]. intros st.
    apply polite_bind; [apply final_flush_polite|]. intros st'.
    rewrite ScrapeFacts.print_summary_raises. done. }
  split; [done|]. intros pre a r mid b r' post Hsplit.
  rewrite Hsplit, spaced_app in Hspaced.
  apply andb_true_iff in Hspaced as [_ Hrest]. cbn [spaced] in Hrest.
  apply andb_true_iff in Hrest as [_ Hrest].
  apply spaced_waiting in Hrest as [?|Hrest]; [done|].
  cbn [spaced negb andb] in Hrest. done.
Qed.

End Run.

Lemma progress_line_counts_rows_witness :
  let evs := events (scrape_race_data config_batch_1 no_files server_ok) in
  last (requested (take 13 evs)) = Some 2 /\ 2 mod (1 * 2) = 0.
Proof.
  intros evs.
  refine (proj2 (progress_line_counts_rows config_batch_1 no_files server_ok
                   (new_column_names config_batch_1)
                   {| columns := new_column_names config_batch_1; body := [] |}
                   1 eq_refl (take 13 evs) 2 2 (drop 14 evs) _)).
  vm_compute. reflexivity.
Defined.

Lemma backlog_within_batch_witness :
  let evs := events (scrape_race_data config_batch_1 no_files server_ok) in
  0 <= len (fetched config_batch_1 (new_column_names config_batch_1)
              (take 5 evs))
       - len (appended (take 5 evs))
    <= 1.
Proof.
  intros evs.
  exact (backlog_within_batch config_batch_1 no_files server_ok
           (new_column_names config_batch_1)
           {| columns := new_column_names config_batch_1; body := [] |}
           1 eq_refl ltac:(simpl; lia) (take 5 evs) (drop 5 evs)
           (eq_sym (take_drop 5 evs))).
Defined.

Lemma requests_are_spaced_witness :
  Sleep ∈ take 5 (drop 4 (events (scrape_race_data config_batch_1 no_files
                                    server_ok))).
Proof.
  set (evs := events (scrape_race_data config_batch_1 no_files server_ok)).
  refine (proj2 (requests_are_spaced config_batch_1 no_files server_ok)
            (take 3 evs) 1 (Response 200 page_empty) (take 5 (drop 4 evs))
            2 (Response 200 page_empty) (drop 10 evs) _).
  vm_compute. reflexivity.
Defined.

End SessionFacts.

(** ** Runs that reach the closing line, and runs with a batch size of zero *)

Module CompletionFacts.
Import Extract Scrape Trace Samples MoreSamples EffFacts RunSpec LoopFacts
  RunFacts SessionFacts.

Lemma fetched_requested config_params column_names evs :
  fetched config_params column_names evs <> [] -> requested evs <> [].
Proof.
  induction evs as [|ev evs IH]; [done|].
  destruct ev; try exact IH. done.
Qed.

Section Run.
Variable config_params : config.
Variable fs : files.
Variable server : nat -> Z -> response.

Abbreviation BATCH_SIZE := (scraping_batch_size config_params).

Lemma add_entry_ok status_code html_data runner_id batch :
  (status_code = 200 ->
   exists res,
     outcome (extract_splits html_data runner_id config_params) = Ok res) ->
  exists batch',
    outcome (add_entry config_params status_code html_data runner_id batch)
    = Ok batch'.
Proof.
  intros Hres. unfold add_entry.
  destruct (Z.eqb_spec status_code 200) as [Hcode|_]; [|by eexists].
  destruct (Hres Hcode) as [res Hsplits].
  rewrite outcome_bind. unfold fetch_entry.
  destruct (extract_personal html_data runner_id) as [w personal].
  rewrite outcome_bind. cbn [outcome emit_all snd].
  rewrite outcome_bind, Hsplits. by eexists.
Qed.

Lemma loop_body_ok column_names r runner_id st :
  BATCH_SIZE <> 0 ->
  (forall html_data,
      r = Response 200 html_data ->
      exists res,
        outcome (extract_splits html_data runner_id config_params) = Ok res) ->
  exists st',
    outcome (loop_body config_params column_names r runner_id st) = Ok st'.
Proof.
  intros Hsize Hreg. destruct r as [status_code html_data|detail].
  2:{ rewrite ScrapeFacts.loop_body_request_failed. by eexists. }
  rewrite loop_body_eq. cbv zeta.
  destruct (add_entry_ok status_code html_data runner_id (entries_batch st))
    as [batch Hbatch].
  { intros ->. by apply Hreg. }
  destruct (add_entry _ _ _ _ _) as [W [batch'|x]]; [|done].
  destruct (due config_params runner_id batch'); [|by eexists].
  destruct (Z.eqb_spec BATCH_SIZE 0); [done | by eexists].
Qed.

Lemma main_loop_ok column_names ids :
  BATCH_SIZE <> 0 -> regular config_params server ->
  forall n st,
    exists st',
      outcome (main_loop config_params column_names server n ids st) = Ok st'.
Proof.
  intros Hsize Hreg.
  induction ids as [|runner_id ids IH]; intros n st; [by eexists|].
  cbn [main_loop]. rewrite outcome_bind.
  destruct (loop_body_ok column_names (server n runner_id) runner_id st Hsize)
    as [st1 ->]; [|apply IH].
  intros html_data Hr. by apply (Hreg n).
Qed.

(** A regular run, end to end: the loop and the final flush return, and
    every row fetched is in the output file. *)
Lemma regular_run_ends column_names df runner_id_init :
  outcome (start_session config_params fs)
  = Ok (column_names, df, runner_id_init) ->
  BATCH_SIZE <> 0 -> regular config_params server ->
  let pool := scraping_runner_ids_pool config_params in
  let ids := runner_ids runner_id_init pool in
  let run := main_loop config_params column_names server 0 ids
               {| entries_batch := []; saved := len (body df) |} in
  let evs := events (scrape_race_data config_params fs server) in
  exists st st',
    outcome run = Ok st
    /\ outcome (final_flush column_names ids st) = Ok st'
    /\ evs = events (start_session config_params fs)
             ++ [Print (MsgTotal (total_ids runner_id_init pool))]
             ++ events run ++ events (final_flush column_names ids st)
    /\ requested evs = ids
    /\ output_file (replay fs evs)
       = Some (Csv column_names
                 (body df ++ fetched config_params column_names evs)).
Proof.
  intros Hstart Hsize Hreg pool ids run evs.
  pose proof (scrape_race_data_file config_params fs server _ _ _ Hstart evs [])
    as Hfile.
  subst evs. rewrite app_nil_r in Hfile.
  rewrite (ScrapeFacts.scrape_race_data_events _ _ _ _ _ _ Hstart) in Hfile |- *.
  cbv zeta in Hfile |- *. fold pool ids run in Hfile |- *.
  set (S := events (start_session config_params fs)) in *.
  set (T := Print (MsgTotal _)) in *.
  pose proof (ScrapeFacts.start_session_startup_only config_params fs) as HS.
  fold S in HS.
  destruct (ScrapeFacts.startup_silent config_params column_names S HS)
    as (Hf & Ha & Hr & _).
  assert (accounted config_params column_names (S ++ [T])
            {| entries_batch := []; saved := len (body df) |}) as Hacc.
  { unfold accounted.
    by rewrite ScrapeFacts.fetched_app, ScrapeFacts.appended_app, Hf, Ha. }
  destruct (ScrapeFacts.main_loop_audit config_params column_names server ids
              0 _ _ Hacc) as (_ & _ & Hnext).
  destruct (main_loop_ok column_names ids Hsize Hreg 0
              {| entries_batch := []; saved := len (body df) |})
    as [st Hst].
  fold run in Hnext, Hst.
  destruct (Hnext st Hst) as [Hacc' Hids].
  rewrite Hst in Hfile |- *.
  assert (exists st',
             outcome (final_flush column_names ids st) = Ok st'
             /\ requested (events (final_flush column_names ids st)) = []
             /\ fetched config_params column_names
                  (((S ++ [T]) ++ events run)
                     ++ events (final_flush column_names ids st))
                = appended (((S ++ [T]) ++ events run)
                              ++ events (final_flush column_names ids st)))
    as (st' & Hst' & HrF & Hall).
  { unfold accounted in Hacc'. unfold final_flush.
    destruct (entries_batch st) as [|e batch] eqn:Hbatch.
    { exists st. cbn [events outcome ret fst snd].
      change (rows_of column_names []) with (@nil csv_row) in Hacc'.
      rewrite app_nil_r in Hacc'. by rewrite !app_nil_r. }
    assert (ids <> []) as Hne.
    { rewrite <- Hids. intros Hnone.
      apply (fetched_requested config_params column_names
               ((S ++ [T]) ++ events run)).
      - rewrite Hacc'. intros [_ Hnil]%app_eq_nil. discriminate Hnil.
      - by rewrite !ScrapeFacts.requested_app, Hr, Hnone. }
    destruct (last ids) as [runner_id|] eqn:Hlast.
    2:{ by apply last_None in Hlast. }
    eexists. unfold bind, emit, ret. cbn [events outcome fst snd app].
    split; [done|]. split; [done|].
    rewrite ScrapeFacts.fetched_app, ScrapeFacts.appended_app, Hacc'.
    cbn [Trace.fetched Trace.appended flat_map]. by rewrite !app_nil_r. }
  exists st, st'. split; [done|]. split; [done|]. split; [done|]. split.
  - rewrite !ScrapeFacts.requested_app, Hr, HrF, Hids.
    by rewrite app_nil_r.
  - rewrite (Hfile eq_refl) by (rewrite length_app; lia).
    rewrite !app_assoc. by rewrite Hall.
Qed.

(** X6.  When the batch size is not zero and every page answered with
    status 200 has a splits table that the extractor gets through, a run
    that gets past start-up goes all the way to its closing line: it has
    then requested every ID of the enumeration once, in order, and the
    output file holds every row it has fetched, after the rows it had at
    start-up.  (The closing line itself raises.) *)
Theorem regular_run_saves_every_row
  (column_names : list string) (df : frame) (runner_id_init : Z)
  (Hstart : outcome (start_session config_params fs)
            = Ok (column_names, df, runner_id_init))
  (Hsize : BATCH_SIZE <> 0)
  (Hreg : regular config_params server) :
  let evs := events (scrape_race_data config_params fs server) in
  outcome (scrape_race_data config_params fs server)
  = Raise (NameError "processed")
  /\ requested evs
     = runner_ids runner_id_init (scraping_runner_ids_pool config_params)
  /\ output_file (replay fs evs)
     = Some (Csv column_names
               (body df ++ fetched config_params column_names evs)).
Proof.
  intros evs.
  destruct (regular_run_ends _ _ _ Hstart Hsize Hreg)
    as (st & st' & Hst & Hst' & _ & Hids & Hfile).
  split; [|by split].
  unfold scrape_race_data. rewrite outcome_bind, Hstart. cbv beta iota.
  rewrite (outcome_bind (print _)). cbn [outcome print emit snd].
  rewrite outcome_bind, Hst, outcome_bind, Hst', outcome_bind.
  by rewrite ScrapeFacts.print_summary_raises.
Qed.

(** X7.  With a batch size of zero the run raises [ZeroDivisionError] at
    its first request that the server answers with a page the extractors
    get through: the batch counts as full, the flush appends it and then
    divides by twice the batch size.  The session file is not written. *)
Theorem batch_size_zero_raises
  (column_names : list string) (df : frame) (runner_id_init : Z)
  (runner_id : Z) (rest : list Z) (status_code : Z) (html_data : node)
  (batch : list entry)
  (Hstart : outcome (start_session config_params fs)
            = Ok (column_names, df, runner_id_init))
  (Hsize : BATCH_SIZE = 0)
  (Hids : runner_ids runner_id_init (scraping_runner_ids_pool config_params)
          = runner_id :: rest)
  (Hanswer : server 0%nat runner_id = Response status_code html_data)
  (Hentry : outcome (add_entry config_params status_code html_data runner_id [])
            = Ok batch) :
  let evs := events (scrape_race_data config_params fs server) in
  outcome (scrape_race_data config_params fs server) = Raise ZeroDivisionError
  /\ requested evs = [runner_id]
  /\ appended evs = rows_of column_names batch
  /\ checkpoints evs = [].
Proof.
  intros evs. subst evs.
  rewrite (ScrapeFacts.scrape_race_data_events _ _ _ _ _ _ Hstart). cbv zeta.
  pose proof (ScrapeFacts.start_session_startup_only config_params fs) as HS.
  destruct (ScrapeFacts.startup_silent config_params column_names _ HS)
    as (_ & Ha & Hr & Hw).
  pose proof (add_entry_warnings config_params status_code html_data runner_id [])
    as HW.
  assert (main_loop config_params column_names server 0 (runner_id :: rest)
            {| entries_batch := []; saved := len (body df) |}
          = ([Get runner_id (Response status_code html_data)]
               ++ events (add_entry config_params status_code html_data
                            runner_id [])
               ++ [AppendCsv (rows_of column_names batch)],
             Raise ZeroDivisionError)) as Hrun.
  { cbn [main_loop]. rewrite Hanswer, loop_body_eq. cbv zeta.
    cbn [entries_batch saved].
    destruct (add_entry _ _ _ _ _) as [W [batch'|x]]; [|done].
    cbn [outcome snd] in Hentry. injection Hentry as ->.
    unfold due. rewrite Hsize.
    destruct (Z.leb_spec 0 (len batch)) as [_|Hneg];
      [|pose proof (len_nonneg batch); lia].
    reflexivity. }
  unfold scrape_race_data. rewrite outcome_bind, Hstart. cbv beta iota.
  rewrite (outcome_bind (print _)). cbn [outcome print emit snd].
  rewrite outcome_bind, Hids, Hrun. cbn [events outcome fst snd].
  set (W := events (add_entry _ _ _ _ _)) in *.
  destruct (ScrapeFacts.prints_silent config_params column_names W
              (warnings_prints W HW)) as (_ & HaW & HrW & HcW).
  split; [done|]. split; [|split].
  - rewrite !ScrapeFacts.requested_app, Hr, HrW. by rewrite !app_nil_r.
  - rewrite !ScrapeFacts.appended_app, Ha, HaW. cbn. by rewrite !app_nil_r.
  - assert (checkpoints (events (start_session config_params fs)) = []) as Hc.
    { clear -Hw. induction (events _) as [|ev evs IH]; [done|].
      simpl in Hw. apply orb_false_iff in Hw as [Hev Hevs].
      destruct ev; try discriminate; simpl; auto. }
    rewrite !ScrapeFacts.checkpoints_app, Hc, HcW. by rewrite !app_nil_r.
Qed.

End Run.

Lemma regular_run_saves_every_row_witness :
  requested (events (scrape_race_data config_batch_1 no_files server_ok))
  = [1; 2; 3].
Proof.
  refine (proj1 (proj2 (regular_run_saves_every_row config_batch_1 no_files
                          server_ok (new_column_names config_batch_1)
                          {| columns := new_column_names config_batch_1;
                             body := [] |}
                          1 eq_refl ltac:(simpl; lia) _))).
  intros n runner_id html_data [= <-]. eexists. reflexivity.
Defined.

Lemma batch_size_zero_raises_witness :
  outcome (scrape_race_data config_batch_0 no_files server_ok)
  = Raise ZeroDivisionError.
Proof.
  exact (proj1 (batch_size_zero_raises config_batch_0 no_files server_ok
                  (new_column_names config_batch_0)
                  {| columns := new_column_names config_batch_0; body := [] |}
                  1 1 [2; 3] 200 page_empty
                  [make_entry 1 ∅ ∅]
                  eq_refl eq_refl eq_refl eq_refl eq_refl)).
Defined.

End CompletionFacts.

(** ** The order of the enumeration *)

Module PoolOrderFacts.
Import Scrape PoolSpec PoolFacts SchemaSpec.

Lemma filter_seqZ init n : forall l,
  List.filter (Z.leb init) (seqZ l (Z.of_nat n))
  = seqZ (Z.max init l) (Z.of_nat n - (Z.max init l - l)).
Proof.
  induction n as [|n IH]; intros l.
  - rewrite !seqZ_nil by lia. done.
  - rewrite (seqZ_cons l) by lia.
    replace (Z.pred (Z.of_nat (S n))) with (Z.of_nat n) by lia.
    cbn [List.filter]. rewrite IH.
    destruct (Z.leb_spec init l) as [Hle|Hgt].
    + rewrite (seqZ_cons (Z.max init l)) by lia.
      replace (Z.max init l) with l by lia. f_equal. f_equal; lia.
    + f_equal; lia.
Qed.

Lemma filter_range init l b :
  List.filter (Z.leb init) (range l b) = range (Z.max init l) b.
Proof.
  unfold range. destruct (Z.le_gt_cases 0 (b - l)) as [Hpos|Hneg].
  - rewrite <- (Z2Nat.id (b - l)) at 1 by done. rewrite filter_seqZ.
    f_equal. lia.
  - rewrite !seqZ_nil by lia. done.
Qed.

Lemma filter_filter_le (init init' : Z) (l : list Z) :
  init <= init' ->
  List.filter (Z.leb init') (List.filter (Z.leb init) l)
  = List.filter (Z.leb init') l.
Proof.
  intros Hle. induction l as [|i l IH]; [done|]. simpl.
  destruct (Z.leb_spec init i); simpl; rewrite IH; [done|].
  destruct (Z.leb_spec init' i); [lia | done].
Qed.

Lemma runner_ids_all init pool :
  runner_ids init pool = List.filter (Z.leb init) (all_ids pool).
Proof.
  induction pool as [|[l h] pool IH]; [done|].
  rewrite runner_ids_cons. unfold all_ids. cbn [flat_map fst snd].
  rewrite List.filter_app, filter_range. fold (all_ids pool). rewrite <- IH.
  destruct (Z.leb_spec init h) as [Hle|Hgt]; [done|].
  unfold range. rewrite seqZ_nil by lia. done.
Qed.

(** X8.  Resuming does not reorder: the enumeration from a bound is the
    enumeration of the whole pool with the IDs below the bound left out,
    whatever the shape of the pool; raising the bound leaves out more of
    the same list; and when no interval starts below the bound, which is
    where a new session starts when the first interval is the lowest,
    nothing is left out. *)
Theorem runner_ids_resume (init : Z) (pool : list (Z * Z)) :
  runner_ids init pool = List.filter (Z.leb init) (all_ids pool)
  /\ (forall init', init <= init' ->
        runner_ids init' pool
        = List.filter (Z.leb init') (runner_ids init pool))
  /\ (Forall (fun lr => init <= fst lr) pool ->
      runner_ids init pool = all_ids pool).
Proof.
  split; [apply runner_ids_all|]. split.
  - intros init' Hle. rewrite !runner_ids_all. by rewrite filter_filter_le.
  - intros Hlow. rewrite runner_ids_all. unfold all_ids.
    induction Hlow as [|[l h] pool Hl Hlow IH]; [done|].
    cbn [flat_map fst snd] in *. rewrite List.filter_app, IH, filter_range.
    by replace (Z.max init l) with l by lia.
Qed.

Lemma runner_ids_resume_witness :
  runner_ids 3 [(1, 4); (10, 11)] = [3; 4; 10; 11]
  /\ runner_ids 1 [(1, 4); (10, 11)] = [1; 2; 3; 4; 10; 11].
Proof.
  destruct (runner_ids_resume 1 [(1, 4); (10, 11)]) as (_ & Hraise & Hall).
  split.
  - rewrite (Hraise 3 ltac:(lia)). vm_compute. reflexivity.
  - rewrite Hall; [reflexivity|]. repeat constructor; simpl; lia.
Defined.

End PoolOrderFacts.

(** ** From the page to the columns *)

Module ColumnFacts.
Import Extract Scrape Trace Samples MoreSamples EffFacts SchemaSpec.

Lemma new_column_names_eq config_params :
  new_column_names config_params
  = scraping_runner_id config_params
      :: personal config_params ++ value_columns config_params.
Proof. reflexivity. Qed.

(** The index of a label is its place among the distance marks. *)
Lemma splits_order_from_range labels : forall j acc l i,
  splits_order_from j labels acc !! l = Some i ->
  acc !! l = Some i \/ (j <= i < j + length labels)%nat.
Proof.
  induction labels as [|l0 labels IH]; intros j acc l i; simpl; [by left|].
  intros H. apply IH in H as [H|H]; [|right; lia].
  destruct (decide (l0 = l)) as [->|Hne].
  - rewrite lookup_insert_eq in H. injection H as <-. right. lia.
  - rewrite lookup_insert_ne in H by done. by left.
Qed.

Lemma SPLITS_ORDER_range config_params l i :
  SPLITS_ORDER config_params !! l = Some i ->
  (1 <= i <= length (splits_distance config_params))%nat.
Proof.
  intros H. apply splits_order_from_range in H as [H|H]; [done | lia].
Qed.

Lemma split_field_column config_params i field :
  (1 <= i <= length (splits_distance config_params))%nat ->
  field ∈ dict_values (column_mapping config_params) ->
  split_field i field ∈ value_columns config_params.
Proof.
  intros Hi Hfield. unfold value_columns. apply elem_of_app. left.
  apply list_elem_of_In, in_flat_map. exists i. split.
  - apply in_seq. lia.
  - apply in_map. by apply list_elem_of_In.
Qed.

Lemma split_rows_columns config_params runner_id headers rows :
  forall res res',
    outcome (split_rows config_params runner_id headers rows res) = Ok res' ->
    forall k, k ∈ dom res' ->
              k ∈ dom res \/ k ∈ value_columns config_params.
Proof.
  induction rows as [|row0 rows IH]; intros res res'.
  { intros [= <-] k Hk. by left. }
  cbn [split_rows].
  destruct (find "th" None row0) as [label0|]; [|done].
  destruct (SPLITS_ORDER config_params !! get_text label0) as [i0|] eqn:Hi0.
  - rewrite outcome_bind.
    destruct (ExtractFacts.split_cells_spec config_params runner_id i0
                (zip headers (find_all "td" None row0)) res)
      as (res1 & Hout & _ & Hkeys & _).
    rewrite Hout. intros Hrest k Hk.
    destruct (IH _ _ Hrest k Hk) as [Hk1|?]; [|by right].
    destruct (Hkeys k Hk1) as [?|(field & Hfield & ->)]; [by left|].
    right. apply split_field_column.
    + by apply SPLITS_ORDER_range in Hi0.
    + by apply ExtractFacts.fields_of_values in Hfield.
  - destruct (dict_get (splits_start config_params) (get_text label0))
      as [field0|] eqn:Hstart0.
    + destruct (find "td" None row0) as [cell0|]; [|done]. intros Hrest k Hk.
      destruct (IH _ _ Hrest k Hk) as [Hk1|?]; [|by right].
      rewrite dom_insert in Hk1.
      apply elem_of_union in Hk1 as [->%elem_of_singleton|?]; [|by left].
      right. unfold value_columns. apply elem_of_app. right.
      by apply ExtractFacts.dict_get_values in Hstart0.
    + rewrite outcome_bind. cbn [outcome print emit snd]. apply IH.
Qed.

Lemma extract_splits_columns config_params runner_id html_data res k :
  outcome (extract_splits html_data runner_id config_params) = Ok res ->
  k ∈ dom res -> k ∈ value_columns config_params.
Proof.
  unfold extract_splits.
  destruct (find "div" _ html_data) as [splits_table|].
  2:{ rewrite outcome_bind. cbn. intros [= <-]. by rewrite dom_empty. }
  destruct (find_all "tr" None splits_table) as [|first rows]; [done|].
  destruct (map get_text _) as [|h headers]; [done|].
  intros Hres Hk.
  destruct (split_rows_columns _ _ _ _ _ _ Hres k Hk) as [Hempty|?]; [|done].
  by rewrite dom_empty in Hempty.
Qed.


Lemma reindex_lookup column_names (e : entry) : forall j c,
  column_names !! j = Some c -> reindex column_names e !! j = Some (e !! c).
Proof.
  induction column_names as [|c0 cs IH]; intros [|j] c; try done.
  - by intros [= ->].
  - apply IH.
Qed.


(** X9.  No value of the splits table is lost on its way into a new
    session's output file: every key that [extract_splits] returns is one
    of the columns of the header, and in the row made of the entry the
    cell under that column holds the text extracted. *)
Theorem extracted_values_reach_their_columns
  (config_params : config) (runner_id : Z) (html_data : node)
  (splits : gmap string string) (k v : string)
  (Hsplits : outcome (extract_splits html_data runner_id config_params)
             = Ok splits)
  (Hk : splits !! k = Some v) :
  k ∈ new_column_names config_params
  /\ forall personal j,
      new_column_names config_params !! j = Some k ->
      reindex (new_column_names config_params)
        (make_entry runner_id personal splits) !! j
      = Some (Some (VStr v)).
Proof.
  split.
  - rewrite new_column_names_eq. right. apply elem_of_app. right.
    apply (extract_splits_columns _ _ _ _ _ Hsplits).
    apply elem_of_dom. eauto.
  - intros personal j Hj. rewrite (reindex_lookup _ _ _ _ Hj). f_equal.
    unfold make_entry. apply lookup_union_Some_l.
    by rewrite lookup_fmap, Hk.
Qed.

Lemma extracted_values_reach_their_columns_witness :
  reindex (new_column_names config_1_3)
    (make_entry 7 ∅
       (<["chip_start" := "8:00:01"]>
          (<["split_1_pace" := "6:26"]>
             (<["split_1_time" := "0:20:00"]> ∅)))) !! 6%nat
  = Some (Some (VStr "6:26")).
Proof.
  refine (proj2 (extracted_values_reach_their_columns config_1_3 7
                   page_unknown_header _ "split_1_pace" "6:26" _ _) ∅ 6%nat _).
  - vm_compute. reflexivity.
  - vm_compute. reflexivity.
  - reflexivity.
Defined.



End ColumnFacts.

(** ** Clock texts *)

Module ClockFacts.
Import PyStr PyStrFacts Clean.

Lemma make_time_range h m sec t :
  make_time h m sec = Ok t ->
  hour t = h /\ 0 <= hour t <= 23 /\ 0 <= minute t <= 59
  /\ 0 <= second t <= 59.
Proof.
  unfold make_time.
  destruct (_ && _) eqn:E; [|done]. intros [= <-]. cbn [hour minute second].
  repeat (apply andb_true_iff in E as [E ?]). lia.
Qed.

Lemma strptime_HMS_range s t :
  strptime_HMS s = Ok t ->
  0 <= hour t <= 23 /\ 0 <= minute t <= 59 /\ 0 <= second t <= 59.
Proof.
  unfold strptime_HMS.
  destruct (re_HMS (points s)) as [|[[[h m] sec] [|c r]] tl];
    try done.
  intros H. by apply make_time_range in H as [_ ?].
Qed.

Lemma strptime_MS_range s t :
  strptime_MS s = Ok t ->
  hour t = 0 /\ 0 <= minute t <= 59 /\ 0 <= second t <= 59.
Proof.
  unfold strptime_MS.
  destruct (re_MS (points s)) as [|[[m sec] [|c r]] tl]; try done.
  intros H. apply make_time_range in H. lia.
Qed.

(** X11.  A text that is no place is read as a time of day or not at all:
    when the text before the first slash is no whole number, the number
    that [convert_split_info] returns lies between 0 and 86399 seconds, and
    below 3600 when the text is not of the form [h:m:s].  A split of 24
    hours or more, or of 60 minutes or more written [m:s], never comes out
    as its number of seconds. *)
Theorem convert_split_info_clock_range (s : string) (z : Z)
  (Hplace : int (split_head "/" s) = None)
  (Hz : convert_split_info (Some (VStr s)) = Ok (Some z)) :
  0 <= z <= 86399
  /\ (forall e, strptime_HMS s = Raise e -> z <= 3599).
Proof.
  revert Hz. unfold convert_split_info. rewrite Hplace.
  destruct (strptime_HMS s) as [t|e] eqn:E1.
  - intros [= <-]. apply strptime_HMS_range in E1. split; [lia | done].
  - apply strptime_HMS_raises in E1 as ->.
    destruct (strptime_MS s) as [t|e] eqn:E2.
    + intros [= <-]. apply strptime_MS_range in E2. split; [lia|].
      intros _ _. lia.
    + apply strptime_MS_raises in E2 as ->. done.
Qed.

Lemma convert_split_info_clock_range_witness :
  0 <= 86399 <= 86399
  /\ convert_split_info (Some (VStr "24:00:00")) = Ok None
  /\ convert_split_info (Some (VStr "75:30")) = Ok None.
Proof.
  split; [|split; reflexivity].
  exact (proj1 (convert_split_info_clock_range "23:59:59" 86399
                  eq_refl eq_refl)).
Defined.

End ClockFacts.

(** ** The residence *)

Module ResidenceFacts.
Import PyStr PyStrFacts Clean TextSpec.

Lemma append_assoc a b c : (a +:+ b) +:+ c = a +:+ (b +:+ c).
Proof. induction a as [|x a IH]; [done|]. by rewrite !append_cons, IH. Qed.

Lemma length_append a b :
  String.length (a +:+ b) = (String.length a + String.length b)%nat.
Proof. induction a as [|x a IH]; [done|]. rewrite append_cons. simpl. by rewrite IH. Qed.

Lemma contains_cons sep c r :
  contains sep (String c r) = Ascii.eqb sep c || contains sep r.
Proof. reflexivity. Qed.

Lemma contains_append sep a b :
  contains sep (a +:+ b) = contains sep a || contains sep b.
Proof.
  induction a as [|x a IH]; [done|].
  by rewrite append_cons, !contains_cons, IH, orb_assoc.
Qed.

Lemma contains_rev_onto sep s : forall acc,
  contains sep (rev_onto s acc) = contains sep s || contains sep acc.
Proof.
  induction s as [|c r IH]; intros acc; [done|]. cbn [rev_onto].
  rewrite IH, !contains_cons. by destruct (Ascii.eqb sep c), (contains sep r).
Qed.

Lemma contains_rev sep s : contains sep (rev s) = contains sep s.
Proof. unfold rev. by rewrite contains_rev_onto, orb_false_r. Qed.

Lemma contains_split_last sep s : contains sep (split_last sep s) = false.
Proof.
  induction s as [|c r IH]; [done|]. cbn [split_last].
  fold (contains sep r). destruct (contains sep r) eqn:Hr; [done|].
  destruct (Ascii.eqb_spec c sep) as [->|Hne]; [done|].
  rewrite contains_cons, Hr, orb_false_r.
  apply Ascii.eqb_neq. congruence.
Qed.

(** The text after the last separator. *)
Lemma split_last_app sep a b :
  contains sep b = false -> split_last sep (a +:+ String sep b) = b.
Proof.
  intros Hb. induction a as [|c a IH].
  - rewrite append_empty_l. cbn [split_last]. fold (contains sep b).
    by rewrite Hb, Ascii.eqb_refl.
  - rewrite append_cons. cbn [split_last].
    fold (contains sep (a +:+ String sep b)).
    by rewrite contains_append, contains_cons, Ascii.eqb_refl, orb_true_r.
Qed.

Lemma contains_app sep a b :
  contains sep (a +:+ String sep b) = true.
Proof.
  by rewrite contains_append, contains_cons, Ascii.eqb_refl, orb_true_r.
Qed.

(** *** Texts backwards *)

Lemma rev_onto_append s : forall acc, rev_onto s acc = rev s +:+ acc.
Proof.
  unfold rev. induction s as [|c r IH]; intros acc; [done|].
  cbn [rev_onto]. rewrite (IH (String c acc)), (IH (String c EmptyString)).
  by rewrite append_assoc.
Qed.

Lemma rev_cons c s : rev (String c s) = rev s +:+ String c EmptyString.
Proof. unfold rev at 1. cbn [rev_onto]. apply rev_onto_append. Qed.

Lemma rev_append a b : rev (a +:+ b) = rev b +:+ rev a.
Proof.
  induction a as [|c a IH]; [by rewrite append_empty_l, append_empty_r|].
  by rewrite append_cons, !rev_cons, IH, append_assoc.
Qed.

Lemma rev_involutive s : rev (rev s) = s.
Proof.
  induction s as [|c s IH]; [done|]. by rewrite rev_cons, rev_append, IH.
Qed.

Lemma length_rev s : String.length (rev s) = String.length s.
Proof.
  induction s as [|c s IH]; [done|].
  rewrite rev_cons, length_append, IH. simpl. lia.
Qed.

(** *** Blanks at the ends *)

Lemma is_space_point c : is_space c = true -> (c < stray)%N.
Proof.
  unfold is_space, stray. rewrite !orb_true_iff, !andb_true_iff.
  rewrite !N.leb_le, !N.eqb_eq. lia.
Qed.

(** A character is read off the bytes it is made of: what follows them
    plays no part. *)
Lemma head_point_append t u c r :
  head_point t = Some (c, r) -> (c < stray)%N ->
  head_point (t +:+ u) = Some (c, r +:+ u).
Proof.
  unfold head_point.
  destruct t as [|a [|a1 [|a2 [|a3 t]]]]; rewrite ?append_cons;
    cbv zeta; intros H Hc;
    repeat (case_match; simplify_eq; try done; try lia).
Qed.

Lemma drop_blank_append t u r :
  drop_blank t = Some r -> drop_blank (t +:+ u) = Some (r +:+ u).
Proof.
  unfold drop_blank. destruct (head_point t) as [[c r']|] eqn:E; [|done].
  destruct (is_space c) eqn:Hc; [|done]. intros [= ->].
  by rewrite (head_point_append _ _ _ _ E (is_space_point _ Hc)), Hc.
Qed.

(** Both steps take a text that is not empty off the front. *)
Lemma head_point_consumes s c r :
  head_point s = Some (c, r) ->
  exists w, w <> EmptyString /\ s = w +:+ r.
Proof.
  unfold head_point.
  destruct s as [|a [|a1 [|a2 [|a3 s]]]]; cbv zeta; intros H; try done;
    repeat (case_match; simplify_eq; try done);
    first [ exists (String a EmptyString); split; [done | reflexivity]
          | exists (String a (String a1 EmptyString));
            split; [done | reflexivity]
          | exists (String a (String a1 (String a2 EmptyString)));
            split; [done | reflexivity]
          | exists (String a (String a1 (String a2 (String a3 EmptyString))));
            split; [done | reflexivity] ].
Qed.

Lemma drop_blank_consumes s r :
  drop_blank s = Some r -> exists w, w <> EmptyString /\ s = w +:+ r.
Proof.
  unfold drop_blank. destruct (head_point s) as [[c r']|] eqn:E; [|done].
  destruct (is_space c); [|done]. intros [= ->].
  by apply head_point_consumes in E.
Qed.

Lemma drop_blank_back_consumes s r :
  drop_blank_back s = Some r -> exists w, w <> EmptyString /\ s = w +:+ r.
Proof.
  unfold drop_blank_back. destruct s as [|a [|b [|c s]]]; intros H; try done;
    repeat (case_match; simplify_eq; try done);
    first [ exists (String a EmptyString); split; [done | reflexivity]
          | exists (String a (String b EmptyString));
            split; [done | reflexivity]
          | exists (String a (String b (String c EmptyString)));
            split; [done | reflexivity] ].
Qed.

(** [drop_while] with fuel enough: what is left is the end of the text,
    and the step applies to it no more. *)
Lemma drop_while_spec (step : string -> option string) :
  (forall s r, step s = Some r -> exists w, w <> EmptyString /\ s = w +:+ r) ->
  forall n s,
    (String.length s <= n)%nat ->
    (exists pre, s = pre +:+ drop_while step n s)
    /\ step (drop_while step n s) = None.
Proof.
  intros Hstep. induction n as [|n IH]; intros s Hlen.
  - destruct s as [|c s]; [|simpl in Hlen; lia]. cbn [drop_while].
    split; [by exists EmptyString|].
    destruct (step EmptyString) as [r|] eqn:E; [|done].
    destruct (Hstep _ _ E) as (w & Hw & Hs). by destruct w.
  - cbn [drop_while]. destruct (step s) as [r|] eqn:E.
    + destruct (Hstep _ _ E) as (w & Hw & ->).
      destruct (IH r) as [[pre Hpre] Hnone].
      { rewrite length_append in Hlen. destruct w; [done|].
        simpl in Hlen. lia. }
      split; [|done]. exists (w +:+ pre).
      by rewrite append_assoc, <- Hpre.
    + split; [by exists EmptyString | done].
Qed.

Lemma lstrip_spec s :
  (exists pre, s = pre +:+ lstrip s) /\ drop_blank (lstrip s) = None.
Proof. apply (drop_while_spec _ drop_blank_consumes). lia. Qed.

Lemma rstrip_spec s :
  (exists post, s = rstrip s +:+ post)
  /\ drop_blank_back (rev (rstrip s)) = None.
Proof.
  unfold rstrip.
  destruct (drop_while_spec _ drop_blank_back_consumes (String.length s)
              (rev s)) as [[pre Hpre] Hnone].
  { by rewrite length_rev. }
  rewrite rev_involutive. split; [|done]. exists (rev pre).
  by rewrite <- rev_append, <- Hpre, rev_involutive.
Qed.

(** [strip] leaves no blank at either end, and a part of the text. *)
Lemma strip_trimmed s : trimmed (strip s).
Proof.
  unfold strip, trimmed.
  destruct (lstrip_spec s) as [_ Hfront].
  destruct (rstrip_spec (lstrip s)) as [[post Hpost] Hback].
  split; [|done].
  destruct (drop_blank (rstrip (lstrip s))) as [r|] eqn:E; [|done].
  apply (drop_blank_append _ post) in E. rewrite <- Hpost in E. congruence.
Qed.

Lemma strip_part s : exists pre post, s = pre +:+ strip s +:+ post.
Proof.
  unfold strip.
  destruct (lstrip_spec s) as [[pre Hpre] _].
  destruct (rstrip_spec (lstrip s)) as [[post Hpost] _].
  exists pre, post. by rewrite <- Hpost.
Qed.

Lemma contains_strip sep s :
  contains sep s = false -> contains sep (strip s) = false.
Proof.
  destruct (strip_part s) as (pre & post & Hs). rewrite Hs at 1.
  rewrite !contains_append.
  by intros [_ [? _]%orb_false_iff]%orb_false_iff.
Qed.

(** X12.  The residence of the cleaned table is the text after the last
    comma of the raw residence, without the blanks around it; a residence
    without a comma becomes the empty text.  It never holds a comma and
    never begins or ends with a blank, a no-break space or any other blank
    that [str.isspace] knows included; a residence that is not text makes
    the conversion raise [TypeError]. *)
Theorem residence_state_is_trimmed (x : option value) :
  (forall v, residence_state x = Ok v ->
     exists t r, x = Some (VStr t) /\ v = VStr r
                 /\ contains "," r = false /\ trimmed r
                 /\ (contains "," t = false -> r = EmptyString))
  /\ (forall a b, contains "," b = false ->
        residence_state (Some (VStr (a +:+ String "," b)))
        = Ok (VStr (strip b)))
  /\ (forall e, residence_state x = Raise e ->
        e = TypeError /\ forall t, x <> Some (VStr t))
  /\ strip " St Paul " = "St Paul"
  /\ strip " MN　" = "MN".
Proof.
  split; [|split; [|split]].
  - intros v. destruct x as [[z|t]|]; try done. cbn [residence_state].
    intros [= <-]. exists t. eexists. split; [done|]. split; [done|].
    destruct (contains "," t) eqn:Ht.
    + split; [apply contains_strip, contains_split_last|].
      split; [apply strip_trimmed | done].
    + split; [done|]. split; [|done]. by split.
  - intros a b Hb. cbn [residence_state].
    by rewrite contains_app, split_last_app.
  - intros e. destruct x as [[z|t]|]; try done; by intros [= <-].
  - split; vm_compute; reflexivity.
Qed.

Lemma residence_state_is_trimmed_witness :
  residence_state (Some (VStr "Saint Paul, Ramsey, MN "))
  = Ok (VStr (strip " MN ")).
Proof.
  exact (proj1 (proj2 (residence_state_is_trimmed None))
           "Saint Paul, Ramsey" " MN " eq_refl).
Defined.

End ResidenceFacts.

(** ** The cleaned table *)

Module CleanMoreFacts.
Import Extract Clean Samples MoreSamples EffFacts CleanSpec CellSpec CleanFacts.

Lemma zip_with_andb_true {A} (f : A -> bool) (rows : list A) :
  zip_with andb (map (fun _ => true) rows) (map f rows) = map f rows.
Proof. induction rows as [|r rows IH]; [done|]. simpl. by rewrite IH. Qed.

Lemma zip_with_andb_map {A} (f g : A -> bool) (rows : list A) : forall m,
  zip_with andb (zip_with andb m (map f rows)) (map g rows)
  = zip_with andb m (map (fun r => f r && g r) rows).
Proof.
  induction rows as [|r rows IH]; intros [|b m]; try done.
  simpl. by rewrite IH, andb_assoc.
Qed.

Lemma zip_with_andb_all {A} (rows : list A) : forall m,
  length m = length rows ->
  zip_with andb m (map (fun _ => true) rows) = m.
Proof.
  induction rows as [|r rows IH]; intros [|b m]; try done.
  simpl. intros [= Hlen]. by rewrite andb_true_r, IH.
Qed.

Lemma zip_with_andb_length {A} (f : A -> bool) (rows : list A) : forall m,
  length m = length rows ->
  length (zip_with andb m (map f rows)) = length rows.
Proof.
  induction rows as [|r rows IH]; intros [|b m]; try done.
  simpl. intros [= Hlen]. by rewrite IH.
Qed.

(** The filters: a key that is no column is a [KeyError]; otherwise a row
    stays when it meets every condition. *)
Lemma filter_mask_eq {L} (raw_df : table L) conds : forall mask,
  length mask = length (trows raw_df) ->
  filter_mask raw_df conds mask
  = if forallb (has_column raw_df) (map fst conds)
    then Ok (zip_with andb mask
               (map (fun lr => meets conds (snd lr)) (trows raw_df)))
    else Raise KeyError.
Proof.
  induction conds as [|[key v] conds IH]; intros mask Hlen.
  - cbn [filter_mask map forallb]. f_equal. unfold meets. cbn [forallb].
    by rewrite zip_with_andb_all.
  - cbn [filter_mask map forallb fst].
    destruct (has_column raw_df key); [|done].
    rewrite IH by (by apply zip_with_andb_length). cbn [andb].
    destruct (forallb _ _); [|done]. f_equal. rewrite zip_with_andb_map.
    f_equal.
Qed.

Lemma select_map {L} (raw_df : table L) (f : L * row -> bool) :
  trows (select raw_df (map f (trows raw_df))) = List.filter f (trows raw_df).
Proof.
  unfold select. cbn [trows].
  induction (trows raw_df) as [|r rows IH]; [done|]. simpl.
  destruct (f r); simpl; by rewrite IH.
Qed.

Lemma restrict_lookup cols (r : row) c :
  c ∈ cols -> restrict cols r !! c = r !! c.
Proof.
  intros Hc. unfold restrict. apply option_eq. intros v.
  rewrite map_lookup_filter_Some. cbn [fst]. split; [by intros [? _]|].
  intros Hv. split; [done|]. apply Is_true_true, existsb_exists.
  exists c. split; [by apply list_elem_of_In | apply String.eqb_refl].
Qed.

Lemma set_cell_eq col x (r : row) : set_cell col x r !! col = x.
Proof.
  destruct x as [v|]; [apply lookup_insert_eq | apply lookup_delete_eq].
Qed.

Lemma set_cell_ne col x (r : row) c : c <> col -> set_cell col x r !! c = r !! c.
Proof.
  intros Hne.
  destruct x as [v|]; [by apply lookup_insert_ne | by apply lookup_delete_ne].
Qed.

Lemma zip_with_other {A} col c (rows : list (nat * row))
    (series : list (A * option value)) :
  c <> col -> length series = length rows ->
  map (fun lr => snd lr !! c)
    (zip_with (fun lr e => (fst lr, set_cell col (snd e) (snd lr)))
       rows series)
  = map (fun lr => snd lr !! c) rows.
Proof.
  intros Hne. revert series.
  induction rows as [|lr rows IH]; intros [|e series]; try done.
  simpl. intros [= Hlen]. by rewrite IH, set_cell_ne.
Qed.

Lemma assign_column_other col series target c :
  c <> col ->
  map (fun lr => snd lr !! c) (trows (assign_column col series target))
  = map (fun lr => snd lr !! c) (trows target).
Proof.
  intros Hne. unfold assign_column. cbn [trows]. case_bool_decide as Heq.
  - apply zip_with_other; [done|]. apply (f_equal length) in Heq.
    by rewrite !length_map in Heq.
  - rewrite map_map. apply map_ext. intros [l r]. cbn [fst snd].
    by apply set_cell_ne.
Qed.

Lemma foldl_assign_other (f : string -> list (nat * option value)) c cols :
  forall target,
    c ∉ cols ->
    map (fun lr => snd lr !! c)
      (trows (foldl (fun t col => assign_column col (f col) t) target cols))
    = map (fun lr => snd lr !! c) (trows target).
Proof.
  induction cols as [|c0 cols IH]; intros target Hc; [done|].
  apply not_elem_of_cons in Hc as [Hne Hc]. simpl.
  rewrite IH by done. by apply assign_column_other.
Qed.

Lemma to_int32_Some x v :
  to_int32 x = Ok (Some v) -> is_int32 (Some v).
Proof.
  unfold to_int32, converted.
  destruct (convert_split_info x) as [[z|]|e]; try done. unfold cast.
  destruct (_ && _) eqn:E; [|done]. intros [= <-]. simpl.
  apply andb_true_iff in E as [?%Z.leb_le ?%Z.leb_le]. done.
Qed.

(** One step on the cells of a row: the cells of the columns are what the
    step makes of the cells read, the other cells stay. *)
Lemma update_cells_spec f cols (r0 : row) : forall (r r' : row),
  update_cells f cols r0 r = Ok r' ->
  (forall c, c ∈ cols -> f (r0 !! c) = Ok (r' !! c))
  /\ (forall c, c ∉ cols -> r' !! c = r !! c).
Proof.
  induction cols as [|c0 cols IH]; intros r r'.
  { intros [= <-]. split; [by intros c ?%elem_of_nil | done]. }
  cbn [update_cells]. destruct (f (r0 !! c0)) as [x|e] eqn:E; [|done].
  intros Hrest. destruct (IH _ _ Hrest) as [Hin Hout]. split.
  - intros c Hc. destruct (decide (c ∈ cols)) as [?|Hnot]; [by apply Hin|].
    apply elem_of_cons in Hc as [->|?]; [|done].
    by rewrite Hout, set_cell_eq.
  - intros c [Hne Hc]%not_elem_of_cons. by rewrite Hout, set_cell_ne.
Qed.

(** The conversion of a row: each cell of a split column is what
    [to_int32] makes of it, an [Int32] cell, and the other cells stay. *)
Lemma convert_row_exact cols (r r' : row) :
  convert_row cols r = Ok r' ->
  forall c, c ∈ cols -> to_int32 (r !! c) = Ok (r' !! c).
Proof.
  unfold convert_row.
  destruct (update_cells converted cols r r) as [r1|e] eqn:E1; [|done].
  intros E2 c Hc.
  destruct (update_cells_spec _ _ _ _ _ E1) as [H1 _].
  destruct (update_cells_spec _ _ _ _ _ E2) as [H2 _].
  unfold to_int32. by rewrite (H1 c Hc), (H2 c Hc).
Qed.

Lemma convert_row_spec cols (r r' : row) :
  convert_row cols r = Ok r' ->
  (forall c, c ∈ cols -> is_int32 (r' !! c))
  /\ (forall c, c ∉ cols -> r' !! c = r !! c).
Proof.
  intros H. split.
  - intros c Hc. pose proof (convert_row_exact _ _ _ H c Hc) as Hcell.
    destruct (r' !! c) as [v|]; [|done]. by apply to_int32_Some in Hcell.
  - revert H. unfold convert_row.
    destruct (update_cells converted cols r r) as [r1|e] eqn:E1; [|done].
    intros E2 c Hc.
    destruct (update_cells_spec _ _ _ _ _ E1) as [_ H1].
    destruct (update_cells_spec _ _ _ _ _ E2) as [_ H2].
    by rewrite H2, H1.
Qed.

Lemma on_rows_lookup {L} f cols :
  forall (rows rows' : list (L * row)) i l r,
    on_rows f cols rows = Ok rows' -> rows !! i = Some (l, r) ->
    exists r', rows' !! i = Some (l, r') /\ update_cells f cols r r = Ok r'.
Proof.
  induction rows as [|[l0 r0] rows IH]; intros rows' i l r; [done|].
  simpl.
  destruct (update_cells f cols r0 r0) as [r0'|e] eqn:Hr;
    destruct (on_rows f cols rows) as [rest|e'] eqn:Hrest; try done.
  intros [= <-]. destruct i as [|i]; simpl.
  - intros [= <- <-]. by exists r0'.
  - by apply IH.
Qed.

Lemma convert_rows_lookup {L} cols (rows rows' : list (L * row)) i l r :
  convert_rows cols rows = Ok rows' -> rows !! i = Some (l, r) ->
  exists r', rows' !! i = Some (l, r') /\ convert_row cols r = Ok r'.
Proof.
  unfold convert_rows, convert_row.
  destruct (on_rows converted cols rows) as [mapped|e] eqn:E1; [|done].
  intros E2 Hrow.
  destruct (on_rows_lookup _ _ _ _ _ _ _ E1 Hrow) as (r1 & Hr1 & ->).
  apply (on_rows_lookup _ _ _ _ _ _ _ E2 Hr1).
Qed.

Lemma convert_rows_spec {L} cols (rows rows' : list (L * row)) :
  convert_rows cols rows = Ok rows' ->
  Forall (fun lr => forall c, c ∈ cols -> is_int32 (snd lr !! c)) rows'
  /\ (forall c, c ∉ cols ->
        map (fun lr => snd lr !! c) rows' = map (fun lr => snd lr !! c) rows).
Proof.
  intros H. pose proof (convert_rows_labels _ _ _ H) as Hlabels.
  assert (length rows' = length rows) as Hlen.
  { apply (f_equal length) in Hlabels. by rewrite !length_map in Hlabels. }
  split.
  - apply Forall_lookup. intros i [l' r'] Hi.
    destruct (rows !! i) as [[l r]|] eqn:Hrow.
    2:{ apply lookup_ge_None in Hrow. apply lookup_lt_Some in Hi. lia. }
    destruct (convert_rows_lookup _ _ _ _ _ _ H Hrow) as (r'' & Hr'' & Hconv).
    rewrite Hi in Hr''. injection Hr'' as -> ->.
    by apply convert_row_spec in Hconv as [? _].
  - intros c Hc. apply list_eq. intros i.
    change (map ?f rows') with (f <$> rows').
    change (map ?f rows) with (f <$> rows). rewrite !list_lookup_fmap.
    destruct (rows !! i) as [[l r]|] eqn:Hrow.
    + destruct (convert_rows_lookup _ _ _ _ _ _ H Hrow)
        as (r' & -> & Hconv).
      apply convert_row_spec in Hconv as [_ Hout]. cbn. by rewrite Hout.
    + apply lookup_ge_None in Hrow.
      rewrite (proj2 (lookup_ge_None rows' i)) by lia. done.
Qed.

(** What is raised while the residences are converted is a [TypeError]. *)
Lemma map_series_raises {L} (series : list (L * option value)) e :
  map_series residence_state series = Raise e -> e = TypeError.
Proof.
  induction series as [|[l x] series IH]; [done|]. simpl.
  destruct (residence_state x) as [v|e'] eqn:E.
  - destruct (map_series _ series); [done|]. intros [= <-]. by apply IH.
  - intros [= <-]. destruct x as [[z|t]|]; simpl in E; congruence.
Qed.

Lemma converted_raises x e : converted x = Raise e -> e = TypeError.
Proof.
  unfold converted. destruct (convert_split_info x) as [[z|]|e'] eqn:E;
    try done.
  intros [= <-]. revert E. unfold convert_split_info.
  destruct x as [[z|s]|]; [by intros [= <-] | | done].
  destruct (PyStr.int _); [done|].
  destruct (PyStr.strptime_HMS s) as [t|e1] eqn:E1; [done|].
  apply PyStrFacts.strptime_HMS_raises in E1 as ->.
  destruct (PyStr.strptime_MS s) as [t|e2] eqn:E2; [done|].
  by apply PyStrFacts.strptime_MS_raises in E2 as ->.
Qed.

Lemma cast_raises x e : cast x = Raise e -> e = CastError.
Proof.
  unfold cast. destruct x as [[z|t]|]; try done.
  - destruct (_ && _); [done | by intros [= <-]].
  - by intros [= <-].
Qed.

Lemma update_cells_raises f cols (r0 : row) (P : exn -> Prop) :
  (forall x e, f x = Raise e -> P e) ->
  forall r e, update_cells f cols r0 r = Raise e -> P e.
Proof.
  intros Hf. induction cols as [|c cols IH]; intros r e; [done|].
  cbn [update_cells]. destruct (f (r0 !! c)) as [x|e'] eqn:E; [apply IH|].
  intros [= <-]. by apply Hf in E.
Qed.

Lemma on_rows_raises {L} f cols (P : exn -> Prop) :
  (forall x e, f x = Raise e -> P e) ->
  forall (rows : list (L * row)) e, on_rows f cols rows = Raise e -> P e.
Proof.
  intros Hf. induction rows as [|[l r] rows IH]; intros e; [done|]. simpl.
  destruct (update_cells f cols r r) as [r'|e'] eqn:Hr.
  - destruct (on_rows f cols rows); [done|]. intros [= <-]. by apply IH.
  - intros [= <-]. by apply (update_cells_raises f cols r P Hf) in Hr.
Qed.

(** The conversion raises [TypeError] on a cell that is not text, and
    nothing else but what the cast raises. *)
Lemma convert_rows_raises {L} cols (rows : list (L * row)) e :
  convert_rows cols rows = Raise e -> e = TypeError \/ e = CastError.
Proof.
  unfold convert_rows.
  destruct (on_rows converted cols rows) as [mapped|e'] eqn:E.
  - intros H. right.
    apply (on_rows_raises cast cols (fun e => e = CastError) cast_raises _ _ H).
  - intros [= <-]. left.
    apply (on_rows_raises converted cols (fun e => e = TypeError)
             converted_raises _ _ E).
Qed.

Lemma split_columns_raises config_params e :
  split_columns config_params = Raise e -> e = KeyError.
Proof. unfold split_columns. destruct (dict_get _ _); [done | by intros [= <-]]. Qed.

Lemma map_series_labels {L} f (series out : list (L * option value)) :
  map_series f series = Ok out -> map fst out = map fst series.
Proof.
  revert out. induction series as [|[l x] series IH]; intros out; simpl.
  { by intros [= <-]. }
  destruct (f x) as [v|e]; [|done].
  destruct (map_series f series) as [rest|e]; [|done]. intros [= <-].
  simpl. f_equal. by apply IH.
Qed.

Lemma column_labels {L} (df : table L) col :
  map fst (column df col) = map fst (trows df).
Proof. unfold column. rewrite map_map. by apply map_ext. Qed.

(** [clean_race_data], step by step.  (The residences are those of the
    rows the split columns were taken from, so that their assignment can be
    aligned when that of the split columns could.) *)
Lemma clean_race_data_outcome config_params (raw_df : table nat) :
  let PERSONAL := cleaning_personal config_params in
  let RUNNER_ID := scraping_runner_id config_params in
  let conds := conditions config_params in
  outcome (clean_race_data config_params raw_df)
  = if forallb (has_column raw_df) (map fst conds) then
      let raw1 :=
        select raw_df
          (map (fun lr => meets conds (snd lr)) (trows raw_df)) in
      if forallb (has_column raw_df) ([RUNNER_ID] ++ PERSONAL) then
        let clean0 :=
          {| tcolumns := [RUNNER_ID] ++ PERSONAL;
             trows := map (fun lr => (fst lr,
                                      restrict ([RUNNER_ID] ++ PERSONAL)
                                        (snd lr)))
                        (trows raw1) |} in
        let raw2 := select raw1 (map negb (any_null PERSONAL clean0)) in
        match split_columns config_params with
        | Raise e => Raise e
        | Ok cols =>
            if forallb (has_column raw_df) cols
               && bool_decide (NoDup cols)
               && reindexable (map fst (trows raw2)) (map fst (trows clean0))
            then
              if has_column raw_df "residence" then
                match map_series residence_state (column raw2 "residence") with
                | Raise e => Raise e
                | Ok residence =>
                    let clean2 :=
                      assign_column "residence" residence
                        (foldl (fun t c => assign_column c (column raw2 c) t)
                           clean0 cols) in
                    match convert_rows cols (trows clean2) with
                    | Raise e => Raise e
                    | Ok converted =>
                        set_index RUNNER_ID
                          {| tcolumns := tcolumns clean2;
                             trows := converted |}
                    end
                end
              else Raise KeyError
            else Raise KeyError
        end
      else Raise KeyError
    else Raise KeyError.
Proof.
  cbv zeta. unfold clean_race_data. rewrite outcome_bind. unfold lift at 1.
  cbn [outcome snd]. fold (conditions config_params).
  rewrite filter_mask_eq, zip_with_andb_true by (by rewrite length_map).
  destruct (forallb (has_column raw_df) (map fst _)); [|done].
  rewrite outcome_bind. unfold lift at 1. cbn [outcome snd]. unfold project.
  change (forallb (has_column (select raw_df ?m)) ?l)
    with (forallb (has_column raw_df) l).
  destruct (forallb (has_column raw_df) ([_] ++ _)); [|done].
  rewrite outcome_bind.
  match goal with
  | |- context [outcome (if ?b then ?x else ?y)] =>
      replace (outcome (if b then x else y)) with (Ok tt : result unit)
        by (by destruct b)
  end.
  rewrite outcome_bind. unfold lift at 1. cbn [outcome snd].
  destruct (split_columns config_params) as [cols|e]; [|done].
  rewrite outcome_bind.
  change (forallb (has_column (select ?t ?m)) ?l)
    with (forallb (has_column t) l).
  change (forallb (has_column (select ?t ?m)) ?l)
    with (forallb (has_column t) l).
  destruct (forallb (has_column raw_df) cols); [|done].
  destruct (bool_decide (NoDup cols)); [|done].
  destruct (reindexable _ _) eqn:Halign; [|done].
  cbn [outcome ret snd andb]. rewrite outcome_bind.
  change (has_column (select (select raw_df ?m) ?m') "residence")
    with (has_column raw_df "residence").
  destruct (has_column raw_df "residence"); [|done].
  unfold lift at 1. cbn [outcome snd].
  destruct (map_series residence_state _) as [residence|e] eqn:Hres; [|done].
  rewrite outcome_bind.
  apply map_series_labels in Hres. rewrite column_labels in Hres.
  rewrite Hres, foldl_assign_labels, Halign.
  cbn [outcome ret snd]. rewrite outcome_bind. unfold lift at 1.
  cbn [outcome snd].
  destruct (convert_rows cols _) as [converted|e]; [|done].
  reflexivity.
Qed.

Lemma any_null_restrict {L} personal cols (rows : list (L * row)) :
  (forall c, c ∈ personal -> c ∈ cols) ->
  any_null personal
    {| tcolumns := cols;
       trows := map (fun lr => (fst lr, restrict cols (snd lr))) rows |}
  = map (fun lr => negb (complete personal (snd lr))) rows.
Proof.
  intros Hsub. unfold any_null. cbn [trows]. rewrite map_map.
  apply map_ext. intros [l r]. cbn [fst snd]. unfold complete.
  induction personal as [|c personal IH]; [done|]. cbn [existsb forallb].
  rewrite IH by (intros c' Hc'; apply Hsub; by right).
  rewrite restrict_lookup by (apply Hsub; left).
  by rewrite negb_andb.
Qed.

(** The rows that the split columns and the residence are taken from are
    the complete rows. *)
Lemma complete_rows_eq config_params (raw_df : table nat) :
  let PERSONAL := cleaning_personal config_params in
  let RUNNER_ID := scraping_runner_id config_params in
  let raw1 :=
    select raw_df
      (map (fun lr => meets (conditions config_params) (snd lr))
         (trows raw_df)) in
  let clean0 :=
    {| tcolumns := [RUNNER_ID] ++ PERSONAL;
       trows := map (fun lr => (fst lr,
                                restrict ([RUNNER_ID] ++ PERSONAL) (snd lr)))
                  (trows raw1) |} in
  trows raw1 = kept_rows config_params raw_df
  /\ map fst (trows clean0) = map fst (kept_rows config_params raw_df)
  /\ trows (select raw1 (map negb (any_null PERSONAL clean0)))
     = complete_rows config_params raw_df.
Proof.
  cbv zeta. unfold complete_rows, kept_rows.
  set (PERSONAL := cleaning_personal config_params).
  set (RUNNER_ID := scraping_runner_id config_params).
  set (raw1 := select raw_df _).
  assert (trows raw1 = List.filter
            (fun lr => meets (conditions config_params) (snd lr))
            (trows raw_df)) as Hkept by apply select_map.
  split; [done|]. split.
  - cbn [trows]. rewrite map_map. cbn [fst]. by rewrite Hkept.
  - rewrite any_null_restrict by (intros c ?; by right).
    rewrite map_map.
    rewrite (map_ext _ (fun lr => complete PERSONAL (snd lr)))
      by (intros ?; apply negb_involutive).
    by rewrite select_map, Hkept.
Qed.

(** Distinct index labels can always be aligned. *)
Lemma NoDup_filter_fst {A} (f : nat * A -> bool) (rows : list (nat * A)) :
  NoDup (map fst rows) -> NoDup (map fst (List.filter f rows)).
Proof.
  induction rows as [|lr rows IH]; [done|]. simpl.
  intros [Hnotin Hnodup]%NoDup_cons.
  assert (fst lr ∉ map fst (List.filter f rows)) as Hnot.
  { intros Hin. apply Hnotin. apply list_elem_of_fmap in Hin as (x & -> & Hx).
    apply list_elem_of_fmap. exists x. split; [done|].
    apply list_elem_of_In in Hx. apply filter_In in Hx as [Hx _].
    by apply list_elem_of_In. }
  destruct (f lr); [|by apply IH]. simpl. apply NoDup_cons. auto.
Qed.

Lemma alignable_distinct config_params (raw_df : table nat) :
  NoDup (map fst (trows raw_df)) -> alignable config_params raw_df = true.
Proof.
  intros H. unfold alignable, reindexable. apply orb_true_iff. right.
  apply bool_decide_eq_true. unfold complete_rows, kept_rows.
  by do 2 apply NoDup_filter_fst.
Qed.

Lemma has_column_assign col series target key :
  has_column target key = true ->
  has_column (assign_column col series target) key = true.
Proof.
  unfold assign_column. intros H. unfold has_column at 1. cbn [tcolumns].
  destruct (has_column target col); [done|].
  rewrite existsb_app. unfold has_column in H. by rewrite H.
Qed.

Lemma has_column_foldl_assign (f : string -> list (nat * option value)) key
  cols : forall target,
  has_column target key = true ->
  has_column (foldl (fun t c => assign_column c (f c) t) target cols) key
  = true.
Proof.
  induction cols as [|c cols IH]; intros target H; [done|].
  simpl. by apply IH, has_column_assign.
Qed.

(** X13.  The rows of the cleaned table are the rows of the raw table that
    meet every condition of every filter, in their order, each under its
    runner ID: no other row is dropped.  (The ID column is none of the
    columns that the function rewrites.) *)
Theorem clean_race_data_rows
  (config_params : config) (raw_df : table nat)
  (clean : table (option value)) (cols : list string)
  (Hclean : outcome (clean_race_data config_params raw_df) = Ok clean)
  (Hcols : split_columns config_params = Ok cols)
  (Hsplit : scraping_runner_id config_params ∉ cols)
  (Hresidence : scraping_runner_id config_params <> "residence") :
  map fst (trows clean)
  = ids_of config_params
      (List.filter (fun lr => meets (conditions config_params) (snd lr))
         (trows raw_df)).
Proof.
  revert Hclean. rewrite clean_race_data_outcome. cbv zeta. rewrite Hcols.
  destruct (forallb _ (map fst _)); [|done].
  destruct (forallb _ ([_] ++ _)); [|done].
  destruct (_ && _ && _); [|done].
  destruct (has_column raw_df "residence"); [|done].
  destruct (map_series _ _) as [residence|e]; [|done].
  destruct (convert_rows _ _) as [converted|e] eqn:Hconv; [|done].
  unfold set_index. cbn [tcolumns trows].
  destruct (has_column _ _); [|done]. intros [= <-]. cbn [trows].
  rewrite map_map. cbn [fst].
  destruct (convert_rows_spec _ _ _ Hconv) as [_ Hout].
  rewrite (Hout _ Hsplit), assign_column_other by done.
  rewrite foldl_assign_other by done. cbn [trows].
  rewrite map_map. cbn [fst snd]. rewrite select_map. unfold ids_of.
  apply map_ext. intros [l r]. cbn [snd]. apply restrict_lookup. left.
Qed.

Lemma clean_race_data_rows_witness :
  map fst (trows (cleaned (outcome (clean_race_data config_1_3
                                      raw_missing_sex))))
  = [Some (VInt 1); Some (VInt 3)].
Proof.
  refine (eq_trans
            (clean_race_data_rows config_1_3 raw_missing_sex
               (cleaned (outcome (clean_race_data config_1_3 raw_missing_sex)))
               ["split_1_time"; "split_2_time"; "chip_start"] _ eq_refl _ _)
            _).
  - vm_compute. reflexivity.
  - rewrite list_elem_of_In. simpl. intuition discriminate.
  - discriminate.
  - vm_compute. reflexivity.
Defined.

(** X14.  In the cleaned table every cell of a split column, and of the
    chip start column, is a whole number of 32 bits or is missing: no text
    is left in these columns. *)
Theorem clean_race_data_split_cells
  (config_params : config) (raw_df : table nat)
  (clean : table (option value)) (cols : list string)
  (Hclean : outcome (clean_race_data config_params raw_df) = Ok clean)
  (Hcols : split_columns config_params = Ok cols) :
  forall label r c, (label, r) ∈ trows clean -> c ∈ cols -> is_int32 (r !! c).
Proof.
  revert Hclean. rewrite clean_race_data_outcome. cbv zeta. rewrite Hcols.
  destruct (forallb _ (map fst _)); [|done].
  destruct (forallb _ ([_] ++ _)); [|done].
  destruct (_ && _ && _); [|done].
  destruct (has_column raw_df "residence"); [|done].
  destruct (map_series _ _) as [residence|e]; [|done].
  destruct (convert_rows _ _) as [converted|e] eqn:Hconv; [|done].
  unfold set_index. cbn [tcolumns trows].
  destruct (has_column _ _); [|done]. intros [= <-]. cbn [trows].
  intros label r c Hin Hc.
  apply list_elem_of_fmap in Hin as ([l r0] & [= -> ->] & Hin).
  destruct (convert_rows_spec _ _ _ Hconv) as [Hall _].
  rewrite Forall_forall in Hall. specialize (Hall _ Hin c Hc).
  cbn [snd] in *.
  destruct (decide (c = scraping_runner_id config_params)) as [->|Hne].
  - by rewrite lookup_delete_eq.
  - by rewrite lookup_delete_ne.
Qed.

Lemma clean_race_data_split_cells_witness :
  is_int32 (Some (VInt 1200)).
Proof.
  refine (clean_race_data_split_cells config_1_3 raw_missing_sex
            (cleaned (outcome (clean_race_data config_1_3 raw_missing_sex)))
            ["split_1_time"; "split_2_time"; "chip_start"] _ eq_refl
            (Some (VInt 1))
            (list_to_map [("sex", VStr "M"); ("age", VInt 30);
                          ("residence", VStr "MN");
                          ("split_1_time", VInt 1200);
                          ("split_2_time", VInt 2460);
                          ("chip_start", VInt 5)])
            "split_1_time" _ _).
  - vm_compute. reflexivity.
  - vm_compute. left.
  - left.
Defined.

(** X15.  [clean_race_data] raises [KeyError] exactly when the raw table
    lacks a column that the configuration names (a filter key, the ID
    column, a personal field, a split column, the chip start column or the
    residence), or the configuration has no [ChipStart], or it names a split
    column twice, or the columns of the complete rows cannot be aligned on
    the rows kept (the index labels of the kept rows differ from those of
    the complete rows, which are not distinct).  A raw table with distinct
    index labels can always be aligned.  When the configuration names the
    ID column and the personal fields once each, whatever else the function
    raises is a [TypeError] of a conversion or what the cast to [Int32]
    raises. *)
Theorem clean_race_data_key_error
  (config_params : config) (raw_df : table nat) :
  (outcome (clean_race_data config_params raw_df) = Raise KeyError
   <-> well_shaped config_params raw_df = false
       \/ (exists cols, split_columns config_params = Ok cols
                        /\ ~ NoDup cols)
       \/ alignable config_params raw_df = false)
  /\ (NoDup (map fst (trows raw_df)) ->
      alignable config_params raw_df = true)
  /\ (forall e,
        NoDup (scraping_runner_id config_params
                 :: cleaning_personal config_params) ->
        outcome (clean_race_data config_params raw_df) = Raise e ->
        e = KeyError \/ e = TypeError \/ e = CastError).
Proof.
  split; [|split; [apply alignable_distinct|]];
    rewrite clean_race_data_outcome; cbv zeta;
    destruct (complete_rows_eq config_params raw_df) as (_ & Hkept & Hfull);
    cbv zeta in Hkept, Hfull; rewrite Hkept, Hfull;
    fold (alignable config_params raw_df);
    unfold well_shaped, required_columns;
    (destruct (split_columns config_params) as [cols|e0] eqn:Hcols;
     [|apply split_columns_raises in Hcols as ->]).
  - rewrite !forallb_app. cbn [forallb]. rewrite !andb_true_r.
    change (forallb (has_column raw_df)
              ([scraping_runner_id config_params]
                 ++ cleaning_personal config_params))
      with (has_column raw_df (scraping_runner_id config_params)
            && forallb (has_column raw_df) (cleaning_personal config_params)).
    assert ((exists cols0, Ok cols = Ok cols0 /\ ~ NoDup cols0)
            <-> bool_decide (NoDup cols) = false) as ->.
    { rewrite bool_decide_eq_false. split; [|by exists cols].
      by intros (cols0 & [= <-] & H). }
    destruct (forallb _ (map fst _)); [|by split; [left|]].
    destruct (has_column raw_df (scraping_runner_id config_params)) eqn:Hid;
      [|by split; [left|]].
    destruct (forallb _ (cleaning_personal config_params));
      [|by split; [left|]].
    cbn [andb].
    destruct (forallb _ cols); [|by split; [left|]].
    destruct (bool_decide (NoDup cols)); [|by split; [right; left|]].
    destruct (alignable config_params raw_df); [|by split; [right; right|]].
    cbn [andb].
    destruct (has_column raw_df "residence"); [|by split; [left|]].
    assert (forall o : result (table (option value)),
               o <> Raise KeyError ->
               o = Raise KeyError
               <-> true = false \/ true = false \/ true = false) as Hnot.
    { intros o Ho. split; [done | by intros [|[|]]]. }
    apply Hnot.
    destruct (map_series _ _) as [residence|e1] eqn:Hres.
    2:{ by apply map_series_raises in Hres as ->. }
    destruct (convert_rows _ _) as [converted|e2] eqn:Hconv.
    2:{ by apply convert_rows_raises in Hconv as [-> | ->]. }
    unfold set_index.
    match goal with
    | |- context [has_column {| tcolumns := tcolumns ?t; trows := ?r |} ?k] =>
        change (has_column {| tcolumns := tcolumns t; trows := r |} k)
          with (has_column t k)
    end.
    rewrite has_column_assign; [done|].
    apply has_column_foldl_assign. unfold has_column.
    cbn [tcolumns existsb app].
    by rewrite String.eqb_refl.
  - assert (forall b1 b2 : bool,
               (if b1 then if b2 then Raise KeyError else Raise KeyError
                else Raise KeyError)
               = @Raise (table (option value)) KeyError) as E
      by (by intros [] []).
    rewrite E. split; [by left | done].
  - intros e _.
    destruct (forallb _ (map fst _)); [|intros [= <-]; by left].
    destruct (forallb _ ([_] ++ _)); [|intros [= <-]; by left].
    destruct (_ && _ && _); [|intros [= <-]; by left].
    destruct (has_column raw_df "residence"); [|intros [= <-]; by left].
    destruct (map_series _ _) as [residence|e1] eqn:Hres.
    2:{ apply map_series_raises in Hres as ->. intros [= <-]. right. by left. }
    destruct (convert_rows _ _) as [converted|e2] eqn:Hconv.
    2:{ intros [= <-]. right. by apply convert_rows_raises in Hconv. }
    unfold set_index. destruct (has_column _ _); [done|].
    intros [= <-]. by left.
  - intros e _.
    assert (forall b1 b2 : bool,
               (if b1 then if b2 then Raise KeyError else Raise KeyError
                else Raise KeyError)
               = @Raise (table (option value)) KeyError) as E
      by (by intros [] []).
    rewrite E. intros [= <-]. by left.
Qed.

Lemma clean_race_data_key_error_witness :
  outcome (clean_race_data config_1_3 raw_without_columns) = Raise KeyError
  /\ alignable config_1_3 raw_missing_sex = true
  /\ (TypeError = KeyError \/ TypeError = TypeError \/ TypeError = CastError).
Proof.
  split; [|split].
  - refine (proj2 (proj1 (clean_race_data_key_error config_1_3
                            raw_without_columns)) _).
    left. reflexivity.
  - refine (proj1 (proj2 (clean_race_data_key_error config_1_3
                            raw_missing_sex)) _).
    repeat constructor; rewrite list_elem_of_In; simpl; intuition discriminate.
  - refine (proj2 (proj2 (clean_race_data_key_error config_1_3
                            raw_missing_residence)) TypeError _ _).
    + repeat constructor; rewrite list_elem_of_In; simpl;
        intuition discriminate.
    + vm_compute. reflexivity.
Defined.

End CleanMoreFacts.

(** ** The cells of the cleaned table *)

Module CellFacts.
Import Extract Clean Samples MoreSamples EffFacts CleanSpec CellSpec
  CleanMoreFacts.

(** Looking a label up in a series. *)
Lemma find_label {A} (rows : list (nat * row)) (h : row -> A) l :
  List.find (fun e => (fst e =? l)%nat)
    (map (fun lr => (fst lr, h (snd lr))) rows)
  = match List.find (fun lr => (fst lr =? l)%nat) rows with
    | Some lr => Some (fst lr, h (snd lr))
    | None => None
    end.
Proof.
  induction rows as [|[l0 r0] rows IH]; [done|]. simpl.
  destruct (l0 =? l)%nat; [done | apply IH].
Qed.

Lemma find_row {A} (rows : list (nat * A)) l r :
  NoDup (map fst rows) -> (l, r) ∈ rows ->
  List.find (fun lr => (fst lr =? l)%nat) rows = Some (l, r).
Proof.
  induction rows as [|[l0 r0] rows IH]; [by intros _ ?%elem_of_nil|].
  simpl. intros [Hnotin Hnodup]%NoDup_cons Hin.
  apply elem_of_cons in Hin as [[= <- <-]|Hin].
  - by rewrite Nat.eqb_refl.
  - destruct (Nat.eqb_spec l0 l) as [->|_]; [|by apply IH].
    exfalso. apply Hnotin. apply list_elem_of_fmap. by exists (l, r).
Qed.

Lemma find_absent (rows : list (nat * row)) l :
  l ∉ map fst rows ->
  List.find (fun lr => (fst lr =? l)%nat) rows = None.
Proof.
  induction rows as [|[l0 r0] rows IH]; [done|]. simpl.
  intros [Hne Hnotin]%not_elem_of_cons.
  destruct (Nat.eqb_spec l0 l) as [->|_]; [done | by apply IH].
Qed.

Lemma row_unique (kept : list (nat * row)) l r r' :
  NoDup (map fst kept) -> (l, r) ∈ kept -> (l, r') ∈ kept -> r = r'.
Proof.
  induction kept as [|[l0 r0] kept IH]; [by intros _ ?%elem_of_nil|].
  simpl. intros [Hnotin Hnodup]%NoDup_cons Hin Hin'.
  assert (forall x, (l0, x) ∈ kept -> False) as Hfresh.
  { intros x Hx. apply Hnotin. apply list_elem_of_fmap. by exists (l0, x). }
  apply elem_of_cons in Hin as [Heq|Hin];
    apply elem_of_cons in Hin' as [Heq'|Hin'].
  - congruence.
  - injection Heq as -> ->. by destruct (Hfresh r').
  - injection Heq' as -> ->. by destruct (Hfresh r).
  - by apply IH.
Qed.

(** What a row of the full rows [kept] finds in a series made of the rows
    [filter g kept]. *)
Lemma find_in_filtered {A} (g : nat * row -> bool) (h : row -> A)
  (kept : list (nat * row)) l r :
  NoDup (map fst kept) -> (l, r) ∈ kept ->
  List.find (fun e => (fst e =? l)%nat)
    (map (fun lr => (fst lr, h (snd lr))) (List.filter g kept))
  = if g (l, r) then Some (l, h r) else None.
Proof.
  intros Hnodup Hin.
  rewrite find_label.
  destruct (g (l, r)) eqn:Hg.
  - rewrite (find_row _ l r); [done | by apply NoDup_filter_fst |].
    apply list_elem_of_In, filter_In. split; [by apply list_elem_of_In | done].
  - rewrite find_absent; [done|]. intros Hl.
    apply list_elem_of_fmap in Hl as ([l' r'] & Hl' & Hin').
    cbn [fst] in Hl'. subst l'.
    apply list_elem_of_In, filter_In in Hin' as [Hin' Hg'].
    apply list_elem_of_In in Hin'.
    assert (r' = r) as -> by (by apply (row_unique kept l)).
    congruence.
Qed.

(** A series with distinct labels is aligned by label, also when it is
    taken as it stands. *)
Lemma assign_column_lookup col series target i :
  NoDup (map fst series) ->
  trows (assign_column col series target) !! i
  = (fun lr =>
       (fst lr,
        set_cell col
          (mjoin (snd <$> List.find (fun e => (fst e =? fst lr)%nat) series))
          (snd lr))) <$> trows target !! i.
Proof.
  intros Hnodup. unfold assign_column. cbn [trows].
  case_bool_decide as Heq; [|apply list_lookup_fmap].
  rewrite lookup_zip_with.
  destruct (trows target !! i) as [[l r]|] eqn:Hrow; [|done].
  cbn [mbind option_bind fmap option_fmap option_map fst snd].
  assert (map fst series !! i = Some l) as Hlabel.
  { rewrite Heq. change (map fst ?x) with (fst <$> x).
    by rewrite list_lookup_fmap, Hrow. }
  change (map fst series) with (fst <$> series) in Hlabel.
  rewrite list_lookup_fmap in Hlabel.
  destruct (series !! i) as [[l' x]|] eqn:Hcell; [|done].
  injection Hlabel as ->. cbn [mbind option_bind].
  rewrite (find_row series l x Hnodup)
    by (by apply list_elem_of_lookup_2 in Hcell).
  done.
Qed.

(** One assignment of a column taken from the rows [filter g kept]: a row
    that is among them gets its own cell, any other row a missing one. *)
Lemma assign_column_cell (kept : list (nat * row)) (g : row -> bool)
  (h : row -> option value) col target i l r rt :
  NoDup (map fst kept) ->
  kept !! i = Some (l, r) -> trows target !! i = Some (l, rt) ->
  exists rt',
    trows (assign_column col
             (map (fun lr => (fst lr, h (snd lr)))
                (List.filter (fun lr => g (snd lr)) kept))
             target) !! i
    = Some (l, rt')
    /\ rt' !! col = (if g r then h r else None)
    /\ forall c, c <> col -> rt' !! c = rt !! c.
Proof.
  intros Hnodup Hkept Htarget. rewrite assign_column_lookup, Htarget.
  2:{ rewrite map_map. cbn [fst].
      by apply (NoDup_filter_fst (fun lr => g (snd lr))). }
  cbn [fmap option_fmap option_map fst snd].
  rewrite (find_in_filtered (fun lr => g (snd lr)) h kept l r Hnodup)
    by (by apply list_elem_of_lookup_2 in Hkept).
  cbn [snd]. eexists. split; [done|]. split.
  - rewrite set_cell_eq. by destruct (g r).
  - intros c Hc. by apply set_cell_ne.
Qed.

Lemma foldl_assign_cells (kept : list (nat * row)) (g : row -> bool)
  (base : row -> row) (src : table nat) cs :
  NoDup (map fst kept) ->
  trows src = List.filter (fun lr => g (snd lr)) kept ->
  forall target done,
    (forall i l r,
        kept !! i = Some (l, r) ->
        exists rt,
          trows target !! i = Some (l, rt)
          /\ (forall c, c ∈ done ->
                rt !! c = if g r then r !! c else None)
          /\ (forall c, c ∉ done -> rt !! c = base r !! c)) ->
    forall i l r,
      kept !! i = Some (l, r) ->
      exists rt,
        trows (foldl (fun t c => assign_column c (column src c) t) target cs)
          !! i = Some (l, rt)
        /\ (forall c, c ∈ done ++ cs ->
              rt !! c = if g r then r !! c else None)
        /\ (forall c, c ∉ done ++ cs -> rt !! c = base r !! c).
Proof.
  intros Hnodup Hsrc.
  induction cs as [|c0 cs IH]; intros target done Hinv i l r Hkept.
  { rewrite app_nil_r. by apply Hinv. }
  cbn [foldl].
  replace (done ++ c0 :: cs) with ((done ++ [c0]) ++ cs)
    by (by rewrite <- app_assoc).
  apply IH; [|done]. clear i l r Hkept. intros i l r Hkept.
  destruct (Hinv i l r Hkept) as (rt & Hrt & Hdone & Hrest).
  unfold column. rewrite Hsrc.
  destruct (assign_column_cell kept g (fun r => r !! c0) c0 target i l r rt
              Hnodup Hkept Hrt) as (rt' & Hrt' & Hcell & Hother).
  exists rt'. split; [done|]. split.
  - intros c Hc. destruct (decide (c = c0)) as [->|Hne]; [done|].
    rewrite Hother by done. apply Hdone.
    apply elem_of_app in Hc as [?|Hc]; [done|].
    by apply list_elem_of_singleton in Hc.
  - intros c Hc. apply not_elem_of_app in Hc as [Hc Hc0].
    rewrite Hother by (intros ->; apply Hc0; left). by apply Hrest.
Qed.

(** [map_series] over the cells of rows. *)
Lemma map_series_rows (f : option value -> result value)
  (k : row -> option value) (rows : list (nat * row)) out :
  map_series f (map (fun lr => (fst lr, k (snd lr))) rows) = Ok out ->
  out = map (fun lr => (fst lr,
                        match f (k (snd lr)) with
                        | Ok v => Some v
                        | Raise _ => None
                        end)) rows
  /\ forall lr, lr ∈ rows -> exists v, f (k (snd lr)) = Ok v.
Proof.
  revert out. induction rows as [|[l r] rows IH]; intros out; simpl.
  { intros [= <-]. split; [done|]. by intros lr ?%elem_of_nil. }
  destruct (f (k r)) as [v|e] eqn:E; [|done].
  destruct (map_series f _) as [rest|e]; [|done]. intros [= <-].
  destruct (IH _ eq_refl) as [-> Hall]. split; [done|].
  intros lr [->|Hin]%elem_of_cons; [by exists v | by apply Hall].
Qed.

(** X16.  The cells of the cleaned table, over a raw table with distinct
    index labels and a configuration whose ID column is no split column
    and is not ["residence"], and in which ["residence"] is no split
    column.  The row of the cleaned table that comes from a kept raw row
    stands at the place of that row among the kept rows, under the ID of
    that row, and has each personal field that is no split column, is not
    ["residence"] and is not the ID column, as it was.  When the raw row
    has all the personal fields, each of its split cells is what
    [to_int32] makes of the raw cell and its residence is the state of the
    raw residence; when it lacks one, all its split cells and its
    residence are missing. *)
Theorem clean_race_data_cells
  (config_params : config) (raw_df : table nat)
  (clean : table (option value)) (cols : list string)
  (i : nat) (l : nat) (r : row)
  (Hclean : outcome (clean_race_data config_params raw_df) = Ok clean)
  (Hcols : split_columns config_params = Ok cols)
  (Hlabels : NoDup (map fst (trows raw_df)))
  (Hsplit : scraping_runner_id config_params ∉ cols)
  (Hid : scraping_runner_id config_params <> "residence")
  (Hresidence : "residence" ∉ cols)
  (Hrow : List.filter (fun lr => meets (conditions config_params) (snd lr))
            (trows raw_df) !! i = Some (l, r)) :
  exists r',
    trows clean !! i = Some (r !! scraping_runner_id config_params, r')
    /\ (forall p, p ∈ cleaning_personal config_params -> p ∉ cols ->
          p <> "residence" -> p <> scraping_runner_id config_params ->
          r' !! p = r !! p)
    /\ if complete (cleaning_personal config_params) r
       then (forall c, c ∈ cols -> to_int32 (r !! c) = Ok (r' !! c))
            /\ exists v, residence_state (r !! "residence") = Ok v
                         /\ r' !! "residence" = Some v
       else (forall c, c ∈ cols -> r' !! c = None)
            /\ r' !! "residence" = None.
Proof.
  revert Hclean. rewrite clean_race_data_outcome. cbv zeta. rewrite Hcols.
  destruct (forallb _ (map fst _)); [|done].
  destruct (forallb _ ([_] ++ _)); [|done].
  destruct (_ && _ && _); [|done].
  destruct (has_column raw_df "residence"); [|done].
  set (PERSONAL := cleaning_personal config_params) in *.
  set (RUNNER_ID := scraping_runner_id config_params) in *.
  set (meet := fun lr : nat * row => meets (conditions config_params) (snd lr))
    in *.
  set (raw1 := select raw_df (map meet (trows raw_df))).
  set (kept := List.filter meet (trows raw_df)) in *.
  assert (trows raw1 = kept) as Hkept by apply select_map.
  assert (NoDup (map fst kept)) as Hkeptlabels by (by apply NoDup_filter_fst).
  set (clean0 := {| tcolumns := [RUNNER_ID] ++ PERSONAL; trows := _ |}).
  set (raw2 := select raw1 _).
  assert (trows raw2
          = List.filter (fun lr => complete PERSONAL (snd lr)) kept) as Hfull.
  { subst raw2 clean0. rewrite any_null_restrict by (intros c ?; by right).
    rewrite map_map.
    rewrite (map_ext _ (fun lr => complete PERSONAL (snd lr)))
      by (intros ?; apply negb_involutive).
    by rewrite select_map, Hkept. }
  destruct (map_series residence_state (column raw2 "residence"))
    as [residence|e] eqn:Hseries; [|done].
  unfold column in Hseries. rewrite Hfull in Hseries.
  apply (map_series_rows residence_state (fun r => r !! "residence"))
    in Hseries as [-> Hstates].
  destruct (convert_rows cols _) as [converted|e] eqn:Hconv; [|done].
  unfold set_index. cbn [tcolumns trows].
  destruct (has_column _ _); [|done]. intros [= <-]. cbn [trows].
  (* the split columns *)
  destruct (foldl_assign_cells kept (complete PERSONAL)
              (restrict ([RUNNER_ID] ++ PERSONAL)) raw2 cols Hkeptlabels Hfull
              clean0 []) with (i := i) (l := l) (r := r)
    as (rt1 & Hrt1 & Hsplits & Hbase); [|done|].
  { intros j l' r' Hj. exists (restrict ([RUNNER_ID] ++ PERSONAL) r').
    split; [|split; [by intros c ?%elem_of_nil | done]].
    subst clean0. cbn [trows]. rewrite Hkept.
    change (map ?f kept) with (f <$> kept). by rewrite list_lookup_fmap, Hj. }
  (* the residence *)
  destruct (assign_column_cell kept (complete PERSONAL)
              (fun r => match residence_state (r !! "residence") with
                        | Ok v => Some v
                        | Raise _ => None
                        end)
              "residence" _ i l r rt1 Hkeptlabels Hrow Hrt1)
    as (rt2 & Hrt2 & Hstate & Hother).
  (* the conversion *)
  destruct (convert_rows_lookup _ _ _ _ _ _ Hconv Hrt2) as (rt3 & Hrt3 & Hrow3).
  destruct (convert_row_spec _ _ _ Hrow3) as [_ Hout].
  pose proof (convert_row_exact _ _ _ Hrow3) as Hexact.
  exists (delete RUNNER_ID rt3). split; [|split].
  - change (map ?f converted) with (f <$> converted).
    rewrite list_lookup_fmap, Hrt3. cbn [fmap option_fmap option_map snd].
    do 2 f_equal. rewrite Hout by done. rewrite Hother by done.
    rewrite Hbase by (by rewrite app_nil_l). apply restrict_lookup. left.
  - intros p Hp Hpc Hpr Hpid. rewrite lookup_delete_ne by done.
    rewrite Hout by done. rewrite Hother by done.
    rewrite Hbase by (by rewrite app_nil_l). apply restrict_lookup. by right.
  - destruct (complete PERSONAL r) eqn:Hcomplete.
    + split.
      * intros c Hc. rewrite lookup_delete_ne by (by intros <-).
        rewrite <- (Hexact c Hc). f_equal. symmetry.
        rewrite Hother by (by intros ->). by apply Hsplits.
      * destruct (Hstates (l, r)) as [v Hv].
        { apply list_elem_of_In, filter_In. split; [|done].
          apply list_elem_of_In. by apply list_elem_of_lookup_2 in Hrow. }
        cbn [snd] in Hv. exists v. split; [done|].
        rewrite lookup_delete_ne by done. rewrite Hout by done.
        by rewrite Hstate, Hv.
    + split.
      * intros c Hc. rewrite lookup_delete_ne by (by intros <-).
        assert (rt2 !! c = None) as Hnone.
        { rewrite Hother by (by intros ->). by apply Hsplits. }
        pose proof (Hexact c Hc) as Hc3. rewrite Hnone in Hc3.
        by injection Hc3.
      * rewrite lookup_delete_ne by done. by rewrite Hout.
Qed.

Lemma clean_race_data_cells_witness :
  exists r',
    trows (cleaned (outcome (clean_race_data config_1_3 raw_missing_sex)))
      !! 1%nat
    = Some (Some (VInt 3), r')
    /\ r' !! "split_1_time" = None /\ r' !! "residence" = None.
Proof.
  destruct (clean_race_data_cells config_1_3 raw_missing_sex
              (cleaned (outcome (clean_race_data config_1_3 raw_missing_sex)))
              ["split_1_time"; "split_2_time"; "chip_start"] 1 1
              (raw_row [("runner_id", VInt 3); ("event", VStr "Marathon");
                        ("age", VInt 41);
                        ("residence", VStr "St Paul, MN");
                        ("split_1_time", VStr "0:21:30");
                        ("split_2_time", VStr "43:10");
                        ("chip_start", VStr "0:07")]))
    as (r' & Hrow & _ & Hcells).
  - vm_compute. reflexivity.
  - reflexivity.
  - repeat constructor; rewrite list_elem_of_In; simpl; intuition discriminate.
  - rewrite list_elem_of_In. simpl. intuition discriminate.
  - discriminate.
  - rewrite list_elem_of_In. simpl. intuition discriminate.
  - vm_compute. reflexivity.
  - exists r'. split; [exact Hrow|].
    change (complete (cleaning_personal config_1_3) _) with false in Hcells.
    destruct Hcells as [Hsplits Hres]. split; [|exact Hres].
    apply Hsplits. left.
Defined.

Lemma map_series_raise {L} (f : option value -> result value)
  (series : list (L * option value)) l x e :
  (l, x) ∈ series -> f x = Raise e ->
  exists e', map_series f series = Raise e'.
Proof.
  induction series as [|[l0 x0] series IH]; [by intros ?%elem_of_nil|].
  intros Hin Hx. simpl. apply elem_of_cons in Hin as [[= <- <-]|Hin].
  - rewrite Hx. by eexists.
  - destruct (IH Hin Hx) as [e' ->]. destruct (f x0); by eexists.
Qed.

(** X17.  Over a raw table that has every column the configuration names,
    with split columns that are distinct and complete rows that can be
    aligned on the rows kept (as they can when the index labels are
    distinct), a kept row that has all the personal fields but no
    residence, or a residence that is not text, makes [clean_race_data]
    raise [TypeError], whatever the other rows hold: the rows that lack a
    personal field are left out of the residences converted, so listing
    the residence among the personal fields is what keeps a missing
    residence from stopping the cleaning. *)
Theorem clean_race_data_residence_type_error
  (config_params : config) (raw_df : table nat) (cols : list string)
  (l : nat) (r : row)
  (Hshape : well_shaped config_params raw_df = true)
  (Hcols : split_columns config_params = Ok cols)
  (Hnodup : NoDup cols)
  (Halign : alignable config_params raw_df = true)
  (Hrow : (l, r) ∈ List.filter
                     (fun lr => meets (conditions config_params) (snd lr))
                     (trows raw_df))
  (Hcomplete : complete (cleaning_personal config_params) r = true)
  (Hresidence : forall t, r !! "residence" <> Some (VStr t)) :
  outcome (clean_race_data config_params raw_df) = Raise TypeError.
Proof.
  revert Hshape. unfold well_shaped, required_columns.
  rewrite clean_race_data_outcome. cbv zeta.
  destruct (complete_rows_eq config_params raw_df) as (_ & Hkept & Hfull).
  cbv zeta in Hkept, Hfull. rewrite Hkept. rewrite !Hfull.
  fold (alignable config_params raw_df). rewrite Halign, Hcols.
  rewrite (bool_decide_eq_true_2 _ Hnodup).
  rewrite !forallb_app. cbn [forallb].
  intros (Hkeys & H)%andb_true_iff.
  apply andb_true_iff in H as [Hid H]. apply andb_true_iff in H as [Hps H].
  apply andb_true_iff in H as [Hsp Hres]. rewrite andb_true_r in Hid, Hres.
  rewrite Hkeys.
  change (forallb (has_column raw_df)
            ([scraping_runner_id config_params]
               ++ cleaning_personal config_params))
    with (has_column raw_df (scraping_runner_id config_params)
          && forallb (has_column raw_df) (cleaning_personal config_params)).
  rewrite Hid, Hps. cbn [andb]. rewrite Hsp, Hres. cbn [andb].
  match goal with
  | |- context [map_series residence_state ?series] =>
      destruct (map_series_raise residence_state series
                  l (r !! "residence") TypeError) as [e He]
  end.
  - unfold column. rewrite Hfull. apply list_elem_of_fmap.
    exists (l, r). split; [done|].
    apply list_elem_of_In, filter_In. split; [by apply list_elem_of_In|done].
  - destruct (r !! "residence") as [[z|t]|] eqn:E; try done.
    by destruct (Hresidence t).
  - rewrite He. by apply map_series_raises in He as ->.
Qed.

Lemma clean_race_data_residence_type_error_witness :
  outcome (clean_race_data config_1_3 raw_missing_residence)
  = Raise TypeError.
Proof.
  refine (clean_race_data_residence_type_error config_1_3
            raw_missing_residence
            ["split_1_time"; "split_2_time"; "chip_start"] 0
            (raw_row [("runner_id", VInt 1); ("event", VStr "Marathon");
                      ("sex", VStr "M"); ("age", VInt 30);
                      ("split_1_time", VStr "0:20:00");
                      ("split_2_time", VStr "41:00");
                      ("chip_start", VStr "0:05")])
            eq_refl eq_refl _ eq_refl _ eq_refl _).
  - repeat constructor; rewrite list_elem_of_In; simpl; intuition discriminate.
  - vm_compute. left.
  - intros t. vm_compute. discriminate.
Defined.

End CellFacts.

(** ** The rows of the output file *)

Module OutputFacts.
Import Extract Scrape Trace Samples MoreSamples EffFacts RunSpec LoopFacts
  RunFacts SessionFacts CompletionFacts OutputSpec.

Section Run.
Variable config_params : config.
Variable fs : files.
Variable server : nat -> Z -> response.

Abbreviation BATCH_SIZE := (scraping_batch_size config_params).

Lemma fetch_entry_outcome runner_id html_data :
  outcome (fetch_entry config_params runner_id html_data)
  = match outcome (extract_splits html_data runner_id config_params) with
    | Ok splits =>
        Ok (make_entry runner_id (snd (extract_personal html_data runner_id))
              splits)
    | Raise e => Raise e
    end.
Proof.
  unfold fetch_entry.
  destruct (extract_personal html_data runner_id) as [w personal].
  rewrite outcome_bind. cbn [outcome emit_all snd]. rewrite outcome_bind.
  by destruct (outcome (extract_splits _ _ _)).
Qed.

(** Of the events of a turn only the request fetches a row. *)
Lemma loop_body_fetched column_names r runner_id st :
  fetched config_params column_names
    (events (loop_body config_params column_names r runner_id st))
  = fetched_of config_params column_names runner_id r.
Proof.
  destruct r as [status_code html_data|detail];
    [|by rewrite ScrapeFacts.loop_body_request_failed].
  rewrite loop_body_eq. cbv zeta.
  pose proof (add_entry_warnings config_params status_code html_data runner_id
                (entries_batch st)) as HW%warnings_prints.
  destruct (add_entry _ _ _ _ _) as [W [batch|x]]; cbn [events fst] in HW.
  all: destruct (ScrapeFacts.prints_silent config_params column_names W HW)
         as (HfW & _).
  2:{ cbn [events fst]. rewrite ScrapeFacts.fetched_app, HfW.
      cbn [Trace.fetched flat_map]. by rewrite !app_nil_r. }
  pose proof (progress_line_prints config_params runner_id
                (saved st + len batch)) as HP.
  destruct (ScrapeFacts.prints_silent config_params column_names _ HP)
    as (HfP & _).
  destruct (due config_params runner_id batch);
    [destruct (scraping_batch_size config_params =? 0)|];
    cbn [events fst]; rewrite !ScrapeFacts.fetched_app, HfW, ?HfP;
    cbn [Trace.fetched flat_map]; by rewrite !app_nil_r.
Qed.

Lemma main_loop_fetched column_names ids :
  BATCH_SIZE <> 0 -> regular config_params server ->
  forall n st,
    Forall2 (row_of_page config_params column_names)
      (answered_pages server n ids)
      (fetched config_params column_names
         (events (main_loop config_params column_names server n ids st))).
Proof.
  intros Hsize Hreg.
  induction ids as [|runner_id ids IH]; intros n st; [constructor|].
  cbn [main_loop answered_pages]. rewrite events_bind.
  destruct (loop_body_ok config_params column_names (server n runner_id)
              runner_id st Hsize) as [st1 Hst1].
  { intros html_data Hr. by apply (Hreg n). }
  rewrite Hst1, ScrapeFacts.fetched_app, loop_body_fetched.
  apply Forall2_app; [|apply IH].
  destruct (server n runner_id) as [status_code html_data|detail] eqn:Hanswer;
    [|constructor].
  cbn [fetched_of].
  destruct (Z.eqb_spec status_code 200) as [->|_]; [|constructor].
  destruct (Hreg n runner_id html_data Hanswer) as [splits Hsplits].
  rewrite fetch_entry_outcome, Hsplits.
  constructor; [|constructor]. by exists splits.
Qed.

(** X19.  After a regular run (the batch size is not zero, and every page
    answered with status 200 has a splits table that the extractor gets
    through) the output file holds, after the rows it had at start-up, one
    row for each request that the server answered with status 200, in the
    order of the requests and no other row: the row of a page is made of
    its ID, the personal fields and the splits extracted from it. *)
Theorem output_rows_are_answered_pages
  (column_names : list string) (df : frame) (runner_id_init : Z)
  (Hstart : outcome (start_session config_params fs)
            = Ok (column_names, df, runner_id_init))
  (Hsize : BATCH_SIZE <> 0)
  (Hreg : regular config_params server) :
  exists rows,
    output_file (replay fs (events (scrape_race_data config_params fs server)))
    = Some (Csv column_names (body df ++ rows))
    /\ Forall2 (row_of_page config_params column_names)
         (answered_pages server 0
            (runner_ids runner_id_init
               (scraping_runner_ids_pool config_params)))
         rows.
Proof.
  destruct (regular_run_ends _ _ _ _ _ _ Hstart Hsize Hreg)
    as (st & st' & Hst & Hst' & Hevs & _ & Hfile).
  eexists. split; [exact Hfile|].
  rewrite Hevs, !ScrapeFacts.fetched_app.
  pose proof (ScrapeFacts.start_session_startup_only config_params fs) as HS.
  destruct (ScrapeFacts.startup_silent config_params column_names _ HS)
    as (-> & _).
  assert (fetched config_params column_names
            (events (final_flush column_names
                       (runner_ids runner_id_init
                          (scraping_runner_ids_pool config_params)) st))
          = []) as ->.
  { unfold final_flush. destruct (entries_batch st); [done|].
    by destruct (last _). }
  cbn [Trace.fetched flat_map app]. rewrite app_nil_r.
  by apply main_loop_fetched.
Qed.

End Run.

Lemma output_rows_are_answered_pages_witness :
  exists rows,
    output_file (replay no_files
                   (events (scrape_race_data config_batch_1 no_files
                              server_ok)))
    = Some (Csv (new_column_names config_batch_1) rows)
    /\ length rows = 3%nat.
Proof.
  destruct (output_rows_are_answered_pages config_batch_1 no_files server_ok
              (new_column_names config_batch_1)
              {| columns := new_column_names config_batch_1; body := [] |}
              1 eq_refl ltac:(simpl; lia))
    as (rows & Hfile & Hrows).
  - intros n runner_id html_data [= <-]. eexists. reflexivity.
  - exists rows. split; [exact Hfile|].
    apply Forall2_length in Hrows. symmetry. exact Hrows.
Defined.

End OutputFacts.

(** ** The warning of the cleaning stage *)

Module WarningFacts.
Import Extract Clean Samples MoreSamples EffFacts CleanSpec CellSpec WarningSpec
  CleanMoreFacts CellFacts.

Lemma quiet_bind {A B} (m : eff A) (k : A -> eff B) :
  events m = [] -> (forall a, events (k a) = []) -> events (bind m k) = [].
Proof.
  intros Hm Hk. rewrite events_bind, Hm. destruct (outcome m); [apply Hk | done].
Qed.

Lemma existsb_map_filter {A} (f : A -> bool) (l : list A) :
  existsb (fun b => b) (map f l)
  = match List.filter f l with [] => false | _ :: _ => true end.
Proof.
  induction l as [|a l IH]; [done|]. simpl. by destruct (f a).
Qed.

(** X20.  [clean_race_data] prints its warning exactly when the raw table
    has the columns of the filters, the ID column and the personal columns
    and some row that meets every filter lacks a personal field; the
    warning then lists those rows, each under its label with its runner
    ID, in their order.  The function prints nothing else. *)
Theorem clean_race_data_warning (config_params : config) (raw_df : table nat) :
  let RUNNER_ID := scraping_runner_id config_params in
  let missing := incomplete_rows config_params raw_df in
  events (clean_race_data config_params raw_df)
  = if forallb (has_column raw_df)
         (map fst (conditions config_params)
          ++ [RUNNER_ID] ++ cleaning_personal config_params)
    then match missing with
         | [] => []
         | _ :: _ =>
             [Print (WarnMissingPersonal
                       (map (fun lr => (fst lr, snd lr !! RUNNER_ID)) missing))]
         end
    else [].
Proof.
  cbv zeta. unfold clean_race_data. rewrite events_bind. unfold lift at 1 2.
  cbn [events outcome fst snd]. fold (conditions config_params).
  rewrite filter_mask_eq, zip_with_andb_true by (by rewrite length_map).
  rewrite forallb_app.
  destruct (forallb (has_column raw_df) (map fst _)); [|done].
  cbn [app andb].
  set (meet := fun lr : nat * row => meets (conditions config_params) (snd lr)).
  set (raw1 := select raw_df (map meet (trows raw_df))).
  rewrite events_bind. unfold lift at 1 2. cbn [events outcome fst snd].
  unfold project.
  change (forallb (has_column raw1) ?l) with (forallb (has_column raw_df) l).
  destruct (forallb (has_column raw_df) _); [|done].
  cbn [app].
  rewrite events_bind.
  rewrite any_null_restrict by (intros c ?; by right).
  rewrite existsb_map_filter.
  unfold column.
  rewrite (select_map raw1
             (fun lr => negb (complete (cleaning_personal config_params)
                                (snd lr)))).
  replace (trows raw1) with (List.filter meet (trows raw_df))
    by (symmetry; apply select_map).
  change (incomplete_rows config_params raw_df)
    with (List.filter
            (fun lr => negb (complete (cleaning_personal config_params)
                               (snd lr)))
            (List.filter meet (trows raw_df))).
  set (rest := bind (lift (split_columns config_params)) _).
  assert (events rest = []) as Hrest.
  { subst rest. apply quiet_bind; [done|]. intros cols.
    apply quiet_bind.
    { destruct (forallb _ cols); [|done].
      destruct (bool_decide (NoDup cols)); [|done].
      by destruct (reindexable _ _). }
    intros clean_df.
    apply quiet_bind; [by destruct (has_column _ _)|]. intros residence.
    apply quiet_bind; [by destruct (reindexable _ _)|]. intros clean2.
    apply quiet_bind; [done|]. done. }
  destruct (List.filter _ (List.filter meet _)) as [|lr missing];
    cbn [events outcome print emit ret fst snd]; by rewrite Hrest.
Qed.

Lemma clean_race_data_warning_witness :
  events (clean_race_data config_1_3 raw_missing_sex)
  = [Print (WarnMissingPersonal [(1%nat, Some (VInt 3))])].
Proof.
  refine (eq_trans (clean_race_data_warning config_1_3 raw_missing_sex) _).
  vm_compute. reflexivity.
Defined.
End WarningFacts.

(** ** The columns of the cleaned table *)

Module CleanColumnFacts.
Import Extract Clean Samples MoreSamples EffFacts CleanSpec CleanMoreFacts.

Lemma has_column_elem {L} (t : table L) c :
  has_column t c = bool_decide (c ∈ tcolumns t).
Proof.
  unfold has_column. induction (tcolumns t) as [|c0 l IH]; [done|].
  cbn [existsb]. rewrite IH.
  destruct (String.eqb_spec c c0) as [->|Hne].
  - symmetry. apply bool_decide_eq_true. left.
  - cbn [orb]. apply bool_decide_ext. rewrite elem_of_cons.
    split; [by right | by intros [?|?]].
Qed.

Lemma tcolumns_foldl_assign (f : string -> list (nat * option value)) cols :
  forall target,
    NoDup cols -> (forall c, c ∈ cols -> c ∉ tcolumns target) ->
    tcolumns (foldl (fun t c => assign_column c (f c) t) target cols)
    = tcolumns target ++ cols.
Proof.
  induction cols as [|c cols IH]; intros target Hnodup Hnew;
    [by rewrite app_nil_r|].
  apply NoDup_cons in Hnodup as [Hc Hnodup]. cbn [foldl].
  assert (tcolumns (assign_column c (f c) target) = tcolumns target ++ [c])
    as Hstep.
  { unfold assign_column. cbn [tcolumns]. rewrite has_column_elem.
    rewrite bool_decide_eq_false_2; [done|]. apply Hnew. left. }
  rewrite IH, Hstep; [by rewrite <- app_assoc | done |].
  intros c' Hc'. rewrite Hstep. intros [Hin|Hin%list_elem_of_singleton]%elem_of_app.
  - apply (Hnew c'); [by right | done].
  - by subst c'.
Qed.

Lemma filter_other (key : string) (l : list string) :
  key ∉ l -> List.filter (fun c => negb (String.eqb c key)) l = l.
Proof.
  induction l as [|c l IH]; [done|].
  intros [Hne Hl]%not_elem_of_cons. cbn [List.filter].
  destruct (String.eqb_spec c key) as [->|_]; [done|].
  cbn [negb]. by rewrite IH.
Qed.

(** X21.  The columns of the cleaned table are the personal fields, then
    the split columns with the chip start, then the residence unless it is
    one of the personal fields; the ID column has become the index.  (The
    split columns are distinct and none of them is a personal field or the
    residence; the ID column is none of these.) *)
Theorem clean_race_data_columns
  (config_params : config) (raw_df : table nat)
  (clean : table (option value)) (cols : list string)
  (Hclean : outcome (clean_race_data config_params raw_df) = Ok clean)
  (Hcols : split_columns config_params = Ok cols)
  (Hnodup : NoDup cols)
  (Hfresh : forall c, c ∈ cols -> c ∉ cleaning_personal config_params)
  (Hid : scraping_runner_id config_params
         ∉ cleaning_personal config_params ++ cols ++ ["residence"])
  (Hresidence : "residence" ∉ cols) :
  tcolumns clean
  = cleaning_personal config_params ++ cols
    ++ (if decide ("residence" ∈ cleaning_personal config_params)
        then [] else ["residence"]).
Proof.
  revert Hclean. rewrite clean_race_data_outcome. cbv zeta. rewrite Hcols.
  destruct (forallb _ (map fst _)); [|done].
  destruct (forallb _ ([_] ++ _)); [|done].
  destruct (_ && _ && _); [|done].
  destruct (has_column raw_df "residence"); [|done].
  destruct (map_series _ _) as [residence|e]; [|done].
  destruct (convert_rows _ _) as [converted|e]; [|done].
  unfold set_index. cbn [tcolumns trows].
  destruct (has_column _ _); [|done]. intros [= <-]. cbn [tcolumns].
  set (PERSONAL := cleaning_personal config_params) in *.
  set (RUNNER_ID := scraping_runner_id config_params) in *.
  apply not_elem_of_app in Hid as [Hidp Hid].
  apply not_elem_of_app in Hid as [Hidc Hidr%not_elem_of_cons].
  destruct Hidr as [Hidr _].
  match goal with
  | |- context [has_column ?t "residence"] => set (clean1 := t)
  end.
  assert (tcolumns clean1 = RUNNER_ID :: PERSONAL ++ cols) as Hbase.
  { subst clean1. rewrite tcolumns_foldl_assign; [done | done |].
    intros c Hc. cbn [tcolumns app]. intros [->|Hin]%elem_of_cons;
      [done | by apply (Hfresh c)]. }
  rewrite has_column_elem, Hbase.
  destruct (decide ("residence" ∈ PERSONAL)) as [Hin|Hnotin].
  - rewrite bool_decide_eq_true_2
      by (right; apply elem_of_app; by left).
    cbn [List.filter]. rewrite String.eqb_refl. cbn [negb].
    rewrite app_nil_r. apply filter_other.
    by intros [?|?]%elem_of_app.
  - rewrite bool_decide_eq_false_2.
    2:{ intros [?|[?|?]%elem_of_app]%elem_of_cons; done. }
    cbn [List.filter app]. rewrite String.eqb_refl. cbn [negb].
    rewrite <- app_assoc. apply filter_other.
    intros [?|[?|?%list_elem_of_singleton]%elem_of_app]%elem_of_app; done.
Qed.

Lemma clean_race_data_columns_witness :
  tcolumns (cleaned (outcome (clean_race_data config_1_3 raw_missing_sex)))
  = ["sex"; "age"; "split_1_time"; "split_2_time"; "chip_start"; "residence"].
Proof.
  refine (eq_trans
            (clean_race_data_columns config_1_3 raw_missing_sex
               (cleaned (outcome (clean_race_data config_1_3 raw_missing_sex)))
               ["split_1_time"; "split_2_time"; "chip_start"] _ eq_refl
               _ _ _ _)
            _).
  - vm_compute. reflexivity.
  - repeat constructor; rewrite list_elem_of_In; simpl; intuition discriminate.
  - intros c Hc. rewrite list_elem_of_In in Hc |- *. simpl in *.
    intuition (subst; discriminate).
  - rewrite list_elem_of_In. simpl. intuition discriminate.
  - rewrite list_elem_of_In. simpl. intuition discriminate.
  - reflexivity.
Defined.

End CleanColumnFacts.

(** ** The module as a script *)

Module ScriptFacts.
Import Scrape Script.

(** X18.  Run as a script, the module stops at its first use of [sys],
    which it never imports: whatever the arguments, the configuration
    file, the files of the session and the server, the script ends with an
    uncaught [NameError] before it prints anything, reads the
    configuration or sends a request.  No [sys.exit] of its handlers could
    end it otherwise. *)
Theorem main_raises_name_error (argv : list string)
  (load_config : string -> failure + config)
  (fs : files) (server : nat -> Z -> response) :
  main argv load_config fs server = ([], Uncaught (NameError "sys"))
  /\ forall code, sys_exit code = Uncaught (NameError "sys").
Proof. split; [reflexivity | intros code; reflexivity]. Qed.

End ScriptFacts.
